(** * PathSanity: the setup-report command of the Path workbench

    A shallow embedding of [src/Mod/Path/PathScripts/PathSanity.py]
    (class [CommandPathSanity]) and the properties of its report pipeline.

    The command reads a host object graph (job, operations, tool
    controllers, stock), mutates a handful of things (the class-level
    squawk list, the [Visibility] flags of the document objects, files
    under the output directory, the console) and can raise at many
    places.  The embedding therefore is a state-and-exception monad in
    which the state survives a raised exception, exactly as Python
    leaves mutated objects behind when a statement throws. *)

From Stdlib Require Import QArith.
From stdpp Require Import base option list strings pretty gmap.

Local Open Scope string_scope.
Local Open Scope list_scope.

Set Warnings "-register-all".

(** ** Python values *)

(** The exceptions the module can meet. *)
Inductive exn : Type :=
| KeyError (key : string)
| TypeError (what : string)
| IndexError
| AttributeError (attr : string)
| OSError (path : string)
| UnicodeDecodeError
| HostError (what : string).

(** The values stored in the section dictionaries.  A [dict] keeps its
    insertion order (the renderer iterates [items()]).  [VSquawkData] is
    the class attribute [CommandPathSanity.squawkData] itself:
    [__summarize] stores a reference to that shared object, not a copy. *)
Inductive pyval : Type :=
| VStr (s : string)
| VList (l : list pyval)
| VDict (d : list (string * pyval))
| VExn (e : exn)
| VSquawkData.

Definition dict : Type := list (string * pyval).

Fixpoint dict_get (d : dict) (k : string) : option pyval :=
  match d with
  | [] => None
  | (k', v) :: d' => if decide (k = k') then Some v else dict_get d' k
  end.

(** [d[k] = v]: an existing key keeps its position, a new one goes last. *)
Fixpoint dict_set (d : dict) (k : string) (v : pyval) : dict :=
  match d with
  | [] => [(k, v)]
  | (k', v') :: d' =>
      if decide (k = k') then (k, v) :: d' else (k', v') :: dict_set d' k v
  end.

(** [d.setdefault(k, v)]: the dictionary afterwards and the value returned. *)
Definition dict_setdefault (d : dict) (k : string) (v : pyval) : dict * pyval :=
  match dict_get d k with
  | Some v' => (d, v')
  | None => (dict_set d k v, v)
  end.

(** [v == s] for a string [s]: only a string can be equal to a string. *)
Definition py_eq_str (v : pyval) (s : string) : bool :=
  match v with
  | VStr t => bool_decide (t = s)
  | _ => false
  end.

(** Python floats: the module only compares them with [0.0] and prints
    them, so a float is its value together with what [str] prints. *)
Record pyfloat : Type := { fval : Q; frepr : string }.

Definition float_zero : pyfloat := {| fval := 0; frepr := "0.0" |}.
Definition float_is_zero (f : pyfloat) : bool := Qeq_bool (fval f) 0.
Definition str_float (f : pyfloat) : string := frepr f.
Definition str_int (z : Z) : string := pretty z.
Definition str_nat (n : nat) : string := pretty n.

Definition nl : string := String (Ascii.ascii_of_nat 10) EmptyString.
Definition dquote : string := String (Ascii.ascii_of_nat 34) EmptyString.

(** ** The monad: state that survives exceptions *)

Definition M (S A : Type) : Type := S → (exn + A) * S.

Definition ret {S A} (a : A) : M S A := λ s, (inr a, s).
Definition raise {S A} (e : exn) : M S A := λ s, (inl e, s).
Definition bind {S A B} (m : M S A) (k : A → M S B) : M S B :=
  λ s, match m s with
       | (inr a, s') => k a s'
       | (inl e, s') => (inl e, s')
       end.
Definition gets {S A} (f : S → A) : M S A := λ s, (inr (f s), s).
Definition modify {S} (f : S → S) : M S unit := λ s, (inr tt, f s).

(** [try: body except Exception as e: handler(e)] *)
Definition try_except {S A} (body : M S A) (handler : exn → M S A) : M S A :=
  λ s, match body s with
       | (inr a, s') => (inr a, s')
       | (inl e, s') => handler e s'
       end.

#[global] Instance M_ret {S} : MRet (M S) := λ A, ret.
#[global] Instance M_bind {S} : MBind (M S) := λ A B k m, bind m k.

(** [for x in xs: body(x)] *)
Fixpoint for_each {S X} (xs : list X) (body : X → M S unit) : M S unit :=
  match xs with
  | [] => ret tt
  | x :: xs' => body x;; for_each xs' body
  end.

(** A value that is there or raises. *)
Definition of_result {S A} (r : exn + A) : M S A :=
  match r with inl e => raise e | inr a => ret a end.

(** ** The class and its process-wide state *)

Definition datetime : Type := N.

(** What the class statement fixes when the module is imported:
    [outputpath = PathPreferences.defaultOutputFile()] and the default
    of [squawk]'s [date] parameter, [datetime.now()], both evaluated
    while the class body runs. *)
Record CommandPathSanity : Type := {
  outputpath : string;
  squawk_date_default : datetime
}.

Definition define_class (defaultOutputFile : string) (clock : datetime)
  : CommandPathSanity :=
  {| outputpath := defaultOutputFile; squawk_date_default := clock |}.

(** Which GUI call is made; the host may raise in any of them. *)
Inductive gui_call : Type :=
| ActiveView
| SetAnimationEnabled (on : bool)
| ActiveSubWindow
| ShowNormal
| Resize
| ViewIsometric
| ClearSelection
| SendMsgToActiveView (msg : string)
| AddSelection (oid : nat)
| SaveImage (path : string) (background : string)
| ShowMaximized
| EditObject
| UneditObject
| WebbrowserOpen (url : string).

(** The mutable world: [squawkItems] is [squawkData['items']], the one
    list shared by every instance and every run; [Visibility] holds the
    flag of each document object, by its position in [Document.Objects];
    [shots] logs every image the viewport saved together with the flags
    it saw. *)
Record world : Type := {
  squawkItems : list pyval;
  Visibility : list bool;
  files : gmap string string;
  stdout : list string;
  shots : list (string * list bool);
  clock_now : datetime
}.

Definition set_squawkItems (f : list pyval → list pyval) (w : world) : world :=
  {| squawkItems := f (squawkItems w); Visibility := Visibility w;
     files := files w; stdout := stdout w; shots := shots w;
     clock_now := clock_now w |}.
Definition set_Visibility (f : list bool → list bool) (w : world) : world :=
  {| squawkItems := squawkItems w; Visibility := f (Visibility w);
     files := files w; stdout := stdout w; shots := shots w;
     clock_now := clock_now w |}.
Definition set_files (f : gmap string string → gmap string string)
  (w : world) : world :=
  {| squawkItems := squawkItems w; Visibility := Visibility w;
     files := f (files w); stdout := stdout w; shots := shots w;
     clock_now := clock_now w |}.
Definition set_stdout (f : list string → list string) (w : world) : world :=
  {| squawkItems := squawkItems w; Visibility := Visibility w;
     files := files w; stdout := f (stdout w); shots := shots w;
     clock_now := clock_now w |}.
Definition set_shots (f : list (string * list bool) → list (string * list bool))
  (w : world) : world :=
  {| squawkItems := squawkItems w; Visibility := Visibility w;
     files := files w; stdout := stdout w; shots := f (shots w);
     clock_now := clock_now w |}.

(** What the host supplies and the module only calls. *)
Record Host : Type := {
  translate : string → string → string;
  str_datetime : datetime → string;
  (** [str(x)] of a value that is not a string, as [format] prints it;
      the first argument is the squawk list a [VSquawkData] stands for *)
  py_str_other : list pyval → pyval → string;
  (** [FreeCAD.Units.Quantity(x, FreeCAD.Units.Length).UserString] *)
  length_UserString : pyfloat → string;
  gui_raises : gui_call → option exn;
  (** [open(path, 'w')] and [open(path, 'wb')] succeed *)
  writable : string → bool;
  (** the bytes of a file read as text, in the encoding of the locale
      as [open(path)] does: [None] when they cannot be decoded; the
      text is given in UTF-8, where the ends of the lines are the bytes
      LF and CR *)
  decode : string → option string;
  (** the wait status [os.system] returns for the converter command, or
      the exception it raises, and the HTML it leaves at the [-o] path *)
  os_system : string → gmap string string → (exn + Z) * option string
}.

(** ** The squawk log *)

Definition squawk_types : list string := ["NOTE"; "WARNING"; "ERROR"; "TIP"].

Definition squawk_record (date operator note squawkType : string) : pyval :=
  VDict [("Date", VStr date); ("Operator", VStr operator);
         ("Note", VStr note); ("squawkType", VStr squawkType)].

(** [squawk(self, operator, note, date=datetime.now(), squawkType="NOTE")];
    [date = None] is a call that leaves the parameter out. *)
Definition squawk (h : Host) (cls : CommandPathSanity)
    (operator note : string) (date : option datetime) (squawkType : string)
  : M world unit :=
  let squawkType :=
    if bool_decide (squawkType ∈ squawk_types) then squawkType else "NOTE" in
  let date := default (squawk_date_default cls) date in
  modify (set_squawkItems (λ items,
    items ++ [squawk_record (str_datetime h date) operator note squawkType])).

(** ** The host object graph, as far as the command reads it *)

Inductive ProxyKind : Type := ObjectJob | PathStop | OtherProxy.

(** A [FreeCAD.Units.Quantity] property: its [Value] and what [str] prints. *)
Record Quantity : Type := { Value : pyfloat; quantity_str : string }.

(** [TC.Tool].  [BitBody] says whether the attribute is there (a tool of
    the old style has none); [getBitThumbnail] is what
    [TC.Tool.Proxy.getBitThumbnail(TC.Tool)] returns, the bytes of the
    image or Python's [None], or raises. *)
Record ToolBit : Type := {
  BitBody : bool;
  BitShape : string;
  tool_Label : string;
  Diameter : Quantity;
  ShapeName : string;
  getBitThumbnail : exn + option string
}.

(** Objects are told apart by identity ([is]); [tc_oid] is the position
    of the controller in [Document.Objects]. *)
Record ToolController : Type := {
  tc_oid : nat;
  tc_Name : string;
  tc_Label : string;
  ToolNumber : Z;
  HorizFeed : Quantity;
  SpindleSpeed : pyfloat;
  Tool : ToolBit
}.

(** An operation.  An [option] is an attribute an operation may lack:
    [op_ToolController] (stops and comments have none), [op_CoolantMode]
    (tested with [hasattr]) and [op_eCoolantMode], the attribute
    [__coolantData] reads. *)
Record Operation : Type := {
  op_Label : string;
  op_Active : bool;
  op_Proxy : ProxyKind;
  op_Stop : bool;
  op_ToolController : option nat;
  op_ZMin : pyfloat;
  op_ZMax : pyfloat;
  op_CycleTime : string;
  op_CoolantMode : option string;
  op_eCoolantMode : option string
}.

(** [obj.Stock]: [Material] is [None] without the attribute,
    [Some None] when it is Python's [None], else the material card. *)
Record StockObject : Type := {
  stock_oid : nat;
  XLength : pyfloat;
  YLength : pyfloat;
  ZLength : pyfloat;
  Material : option (option (list (string * string)))
}.

Record DocumentObject : Type := { do_Proxy : option ProxyKind }.

Record Document : Type := {
  Objects : list DocumentObject;
  FileName : string;
  LastModifiedDate : string;
  Company : string;
  LastModifiedBy : string
}.

(** The selected object with the attributes the summarizers read.
    [Model_Group] lists, for each model object, its position in the
    document and the label of [obj.Proxy.baseObject(obj, o)]. *)
Record Job : Type := {
  job_oid : nat;
  Label : string;
  Description : string;
  Proxy : option ProxyKind;
  Doc : Document;
  Model_oid : nat;
  Model_Group : list (nat * string);
  ToolControllers : list ToolController;
  Operations_oid : nat;
  Operations_Group : list Operation;
  Stock : StockObject;
  CycleTime : string;
  Path_ZMin : pyfloat;
  Path_ZMax : pyfloat;
  Fixtures : string;
  OrderOutputBy : string;
  LastPostProcessDate : string;
  LastPostProcessOutput : string;
  PostProcessor : string;
  PostProcessorArgs : string
}.

(** ** World primitives *)

Definition gui (h : Host) (c : gui_call) : M world unit :=
  match gui_raises h c with
  | Some e => raise e
  | None => ret tt
  end.

(** [aview.saveImage(path, 320, 320, background)]: the viewport
    rasterizes what is visible at that moment. *)
Definition saveImage (h : Host) (path background : string) : M world unit :=
  gui h (SaveImage path background);;
  modify (λ w, set_shots (λ l, l ++ [(path, Visibility w)]) w).

(** [o.Visibility = b] *)
Definition set_visible (o : nat) (b : bool) : M world unit :=
  modify (set_Visibility (<[o := b]>)).

Definition print (line : string) : M world unit :=
  modify (set_stdout (λ out, out ++ [line])).

(** [with open(path, mode) as fd: fd.write(content); fd.close()]:
    opening truncates the file, and writing [None] raises. *)
Definition write_file (h : Host) (path : string) (content : option string)
  : M world unit :=
  if writable h path then
    modify (set_files (<[path := ""]>));;
    match content with
    | Some content => modify (set_files (<[path := content]>))
    | None => raise (TypeError "a bytes-like object is required")
    end
  else raise (OSError path).

(** [[o for o in Objects if o.Visibility]], objects by position from [i]. *)
Fixpoint visible_from (i : nat) (vis : list bool) : list nat :=
  match vis with
  | [] => []
  | b :: vis' =>
      if b then i :: visible_from (S i) vis' else visible_from (S i) vis'
  end.

(** ** Image capture: [__makePicture] *)

Definition makePicture (h : Host) (cls : CommandPathSanity)
    (obj : nat) (imageName : string) : M world string :=
  (* remember vis state of document objects. Turn off all but target *)
  visible ← gets (λ w, visible_from 0 (Visibility w));
  objects ← gets (λ w, seq 0 (length (Visibility w)));
  for_each objects (λ o, set_visible o false);;
  set_visible obj true;;
  gui h ActiveView;;
  gui h (SetAnimationEnabled false);;
  gui h ActiveSubWindow;;
  gui h ShowNormal;;
  gui h Resize;;
  let imagepath := outputpath cls +:+ "/" +:+ imageName in
  gui h ViewIsometric;;
  gui h ClearSelection;;
  gui h (SendMsgToActiveView "PerspectiveCamera");;
  gui h (AddSelection obj);;
  gui h (SendMsgToActiveView "ViewSelection");;
  gui h ClearSelection;;
  saveImage h (imagepath +:+ ".png") "Current";;
  saveImage h (imagepath +:+ "_t.png") "Transparent";;
  gui h ShowMaximized;;
  gui h (SetAnimationEnabled true);;
  (* Restore visibility *)
  set_visible obj false;;
  for_each visible (λ o, set_visible o true);;
  ret (imagepath +:+ "_t.png").

(** ** Section summarizers *)

(** A summarizer builds its [data] dictionary statement by statement;
    a statement that raises leaves what was stored so far. *)
Definition liftW {A} (m : M world A) : M (dict * world) A :=
  λ '(data, w), let '(r, w') := m w in (r, (data, w')).

(** [data[k] = v] *)
Definition data_set (k : string) (v : pyval) : M (dict * world) unit :=
  modify (λ '(data, w), (dict_set data k v, w)).

(** [data[k]] *)
Definition data_get (k : string) : M (dict * world) pyval :=
  λ '(data, w),
    match dict_get data k with
    | Some v => (inr v, (data, w))
    | None => (inl (KeyError k), (data, w))
    end.

(** [data[k].append(v)] *)
Definition data_append (k : string) (v : pyval) : M (dict * world) unit :=
  λ '(data, w),
    match dict_get data k with
    | Some (VList l) => (inr tt, (dict_set data k (VList (l ++ [v])), w))
    | Some _ => (inl (AttributeError "append"), (data, w))
    | None => (inl (KeyError k), (data, w))
    end.

(** [data = init; try: body except Exception as e: data['errors'] = e;
    on_error(e)] and [return data]. *)
Definition summarizer (init : dict) (body : M (dict * world) unit)
    (on_error : exn → M world unit) : M world pyval :=
  λ w, match body (init, w) with
       | (inr _, (data, w')) => (inr (VDict data), w')
       | (inl e, (data, w')) =>
           match on_error e w' with
           | (inr _, w'') => (inr (VDict (dict_set data "errors" (VExn e))), w'')
           | (inl e', w'') => (inl e', w'')
           end
       end.

Definition silently (e : exn) : M world unit := ret tt.

(** [op.Label if op.Active else op.Label + " (INACTIVE)"] *)
Definition op_display_label (op : Operation) : string :=
  if op_Active op then op_Label op else op_Label op +:+ " (INACTIVE)".

(** [collections.Counter(xs)]: counts by first occurrence. *)
Fixpoint count_one (acc : list (string * nat)) (x : string) : list (string * nat) :=
  match acc with
  | [] => [(x, 1)]
  | (y, n) :: acc' =>
      if decide (x = y) then (y, S n) :: acc' else (y, n) :: count_one acc' x
  end.

Definition Counter (xs : list string) : list (string * nat) :=
  foldl count_one [] xs.

Definition baseObjectData (h : Host) (cls : CommandPathSanity) (obj : Job)
  : M world pyval :=
  summarizer [] (
    (* [obj.Proxy] is evaluated once for each object of the group *)
    _ ← of_result (match Proxy obj, Model_Group obj with
                   | None, _ :: _ => inl (AttributeError "Proxy")
                   | _, _ => inr tt
                   end);
    let bases :=
      foldl (λ bases '(name, count), dict_set bases name (VStr (str_nat count)))
            [] (Counter (snd <$> Model_Group obj)) in
    baseimage ← liftW (makePicture h cls (Model_oid obj) "baseimage");
    data_set "baseimage" (VStr baseimage);;
    data_set "bases" (VDict bases)
  ) silently.

(** The loop of [__designData]: [m] counts the jobs of the document,
    [n] is the rank of [obj] among them. *)
Fixpoint job_sequence (objects : list DocumentObject) (i obj : nat) (n m : nat)
  : nat * nat :=
  match objects with
  | [] => (n, m)
  | o :: objects' =>
      match do_Proxy o with
      | Some ObjectJob =>
          let m := S m in
          let n := if decide (i = obj) then m else n in
          job_sequence objects' (S i) obj n m
      | _ => job_sequence objects' (S i) obj n m
      end
  end.

Definition designData (obj : Job) : M world pyval :=
  summarizer [] (
    data_set "FileName" (VStr (FileName (Doc obj)));;
    data_set "LastModifiedDate" (VStr (LastModifiedDate (Doc obj)));;
    data_set "Customer" (VStr (Company (Doc obj)));;
    data_set "Designer" (VStr (LastModifiedBy (Doc obj)));;
    data_set "JobNotes" (VStr (Description obj));;
    data_set "JobLabel" (VStr (Label obj));;
    let '(n, m) := job_sequence (Objects (Doc obj)) 0 (job_oid obj) 0 0 in
    data_set "Sequence" (VStr (str_nat n +:+ " of " +:+ str_nat m));;
    data_set "JobType" (VStr "2.5D Milling")
  ) silently.

(** *** [__toolData] *)

(** [tooldata], the dictionary stored at [data[key]], is an alias:
    every assignment to it shows in [data] at once. *)
Definition tooldata_get (key : string) : M (dict * world) dict :=
  λ '(data, w),
    match dict_get data key with
    | Some (VDict tooldata) => (inr tooldata, (data, w))
    | Some _ => (inl (AttributeError "setdefault"), (data, w))
    | None => (inl (KeyError key), (data, w))
    end.

Definition tooldata_put (key : string) (tooldata : dict) : M (dict * world) unit :=
  modify (λ '(data, w), (dict_set data key (VDict tooldata), w)).

(** [tooldata[k] = v] *)
Definition tooldata_set (key k : string) (v : pyval) : M (dict * world) unit :=
  tooldata ← tooldata_get key;
  tooldata_put key (dict_set tooldata k v).

(** [tooldata.setdefault(k, v)] *)
Definition tooldata_setdefault (key k : string) (v : pyval)
  : M (dict * world) pyval :=
  tooldata ← tooldata_get key;
  let '(tooldata', r) := dict_setdefault tooldata k v in
  tooldata_put key tooldata';;
  ret r.

(** [tooldata.setdefault('ops', []).append(v)] *)
Definition tooldata_ops_append (key : string) (v : pyval) : M (dict * world) unit :=
  ops ← tooldata_setdefault key "ops" (VList []);
  match ops with
  | VList l => tooldata_set key "ops" (VList (l ++ [v]))
  | _ => raise (AttributeError "append")
  end.

Definition squawkType_default : string := "NOTE".

(** The inner loop [for op in obj.Operations.Group], with its flag [used]. *)
Fixpoint toolData_ops (key : string) (TC : ToolController)
    (ops : list Operation) (used : bool) : M (dict * world) bool :=
  match ops with
  | [] => ret used
  | op :: ops' =>
      tc ← of_result (match op_ToolController op with
                      | Some tc => inr tc
                      | None => inl (AttributeError "ToolController")
                      end);
      if decide (tc = tc_oid TC) then
        tooldata_ops_append key (VDict
          [("Operation", VStr (op_Label op));
           ("ToolController", VStr (tc_Name TC));
           ("Feed", VStr (quantity_str (HorizFeed TC)));
           ("Speed", VStr (str_float (SpindleSpeed TC)))]);;
        toolData_ops key TC ops' true
      else toolData_ops key TC ops' used
  end.

(** The body of [for TC in obj.ToolController]. *)
Definition toolData_TC (h : Host) (cls : CommandPathSanity) (obj : Job)
    (TC : ToolController) : M (dict * world) unit :=
  if negb (BitBody (Tool TC)) then ret tt (* skip old-style tools *) else
  let key := str_int (ToolNumber TC) in
  modify (λ '(data, w), (fst (dict_setdefault data key (VDict [])), w));;
  bitshape ← tooldata_setdefault key "BitShape" (VStr "");
  (if negb (py_eq_str bitshape "" || py_eq_str bitshape (BitShape (Tool TC)))
   then liftW (squawk h cls "PathSanity"
                 ("Tool number " +:+ str_int (ToolNumber TC)
                    +:+ " used by multiple tools") None "ERROR")
   else ret tt);;
  tooldata_set key "bitShape" (VStr (BitShape (Tool TC)));;
  tooldata_set key "description" (VStr (tool_Label (Tool TC)));;
  tooldata_set key "manufacturer" (VStr "");;
  tooldata_set key "url" (VStr "");;
  tooldata_set key "inspectionNotes" (VStr "");;
  tooldata_set key "diameter" (VStr (quantity_str (Diameter (Tool TC))));;
  tooldata_set key "shape" (VStr (ShapeName (Tool TC)));;
  tooldata_set key "partNumber" (VStr "");;
  imagedata ← of_result (getBitThumbnail (Tool TC));
  let imagepath := outputpath cls +:+ "/T" +:+ str_int (ToolNumber TC) +:+ ".png" in
  tooldata_set key "feedrate" (VStr (quantity_str (HorizFeed TC)));;
  (if float_is_zero (Value (HorizFeed TC))
   then liftW (squawk h cls "PathSanity"
                 ("Tool Controller '" +:+ tc_Label TC +:+ "' has no feedrate")
                 None "WARNING")
   else ret tt);;
  tooldata_set key "spindlespeed" (VStr (str_float (SpindleSpeed TC)));;
  (if float_is_zero (SpindleSpeed TC)
   then liftW (squawk h cls "PathSanity"
                 ("Tool Controller '" +:+ tc_Label TC +:+ "' has no spindlespeed")
                 None "WARNING")
   else ret tt);;
  liftW (write_file h imagepath imagedata);;
  tooldata_set key "imagepath" (VStr imagepath);;
  used ← toolData_ops key TC (Operations_Group obj) false;
  if negb used then
    tooldata_setdefault key "ops" (VList []);;
    liftW (squawk h cls "PathSanity"
             ("Tool Controller '" +:+ tc_Label TC +:+ "' is not used")
             None "WARNING")
  else ret tt.

Definition toolData (h : Host) (cls : CommandPathSanity) (obj : Job)
  : M world pyval :=
  summarizer [] (for_each (ToolControllers obj) (toolData_TC h cls obj)) silently.

(** *** The other sections *)

Definition runData (h : Host) (obj : Job) : M world pyval :=
  summarizer [] (
    data_set "cycletotal" (VStr (CycleTime obj));;
    data_set "jobMinZ" (VStr (length_UserString h (Path_ZMin obj)));;
    data_set "jobMaxZ" (VStr (length_UserString h (Path_ZMax obj)));;
    data_set "items" (VList []);;
    for_each (Operations_Group obj) (λ op,
      let oplabel := op_display_label op in
      let opdata := VDict
        [("opName", VStr oplabel);
         ("minZ", VStr (length_UserString h (op_ZMin op)));
         ("maxZ", VStr (length_UserString h (op_ZMax op)));
         ("cycleTime", VStr (op_CycleTime op))] in
      data_append "items" opdata)
  ) silently.

(** [card[k]] on a material card. *)
Fixpoint card_get (card : list (string * string)) (k : string) : option string :=
  match card with
  | [] => None
  | (k', v) :: card' => if decide (k = k') then Some v else card_get card' k
  end.

Definition stockData (h : Host) (cls : CommandPathSanity) (obj : Job)
  : M world pyval :=
  summarizer [] (
    data_set "xLen" (VStr (length_UserString h (XLength (Stock obj))));;
    data_set "yLen" (VStr (length_UserString h (YLength (Stock obj))));;
    data_set "zLen" (VStr (length_UserString h (ZLength (Stock obj))));;
    data_set "material" (VStr "Not Specified");;
    (match Material (Stock obj) with
     | Some (Some card) =>
         name ← of_result (match card_get card "Name" with
                           | Some name => inr name
                           | None => inl (KeyError "Name")
                           end);
         data_set "material" (VStr name)
     | _ => ret tt
     end);;
    material ← data_get "material";
    (if py_eq_str material "Not Specified"
     then liftW (squawk h cls "PathSanity"
                   "Consider Specifying the Stock Material" None "TIP")
     else ret tt);;
    stockImage ← liftW (makePicture h cls (stock_oid (Stock obj)) "stockImage");
    data_set "stockImage" (VStr stockImage)
  ) (λ e, sq ← gets squawkItems; print (py_str_other h sq (VExn e))).

(** The body of the loop of [__coolantData]. *)
Definition coolantData_op (op : Operation) : M (dict * world) unit :=
  let opLabel := op_display_label op in
  opdata ←
    match op_CoolantMode op with
    | Some _ =>
        mode ← of_result (match op_eCoolantMode op with
                          | Some mode => inr mode
                          | None => inl (AttributeError "eCoolantMode")
                          end);
        ret (VDict [("opName", VStr opLabel); ("coolantMode", VStr mode)])
    | None =>
        ret (VDict [("opName", VStr opLabel); ("coolantMode", VStr "N/A")])
    end;
  data_append "items" opdata.

Definition coolantData (obj : Job) : M world pyval :=
  summarizer [("items", VList [])]
    (for_each (Operations_Group obj) coolantData_op) silently.

Definition fixtureData (h : Host) (cls : CommandPathSanity) (obj : Job)
  : M world pyval :=
  summarizer [] (
    data_set "fixtures" (VStr (Fixtures obj));;
    data_set "orderBy" (VStr (OrderOutputBy obj));;
    liftW (
      gui h ActiveView;;
      gui h (SetAnimationEnabled false);;
      set_visible (job_oid obj) false;;
      set_visible (Operations_oid obj) false;;
      gui h ActiveSubWindow;;
      gui h ShowNormal;;
      gui h Resize;;
      let imagepath := outputpath cls +:+ "/origin" in
      gui h ClearSelection;;
      gui h (SendMsgToActiveView "PerspectiveCamera");;
      gui h ViewIsometric;;
      for_each (Model_Group obj) (λ i, gui h (AddSelection (fst i)));;
      gui h (SendMsgToActiveView "ViewSelection");;
      gui h ClearSelection;;
      gui h EditObject;;
      saveImage h (imagepath +:+ ".png") "Current";;
      saveImage h (imagepath +:+ "_t.png") "Transparent";;
      gui h UneditObject;;
      set_visible (job_oid obj) true;;
      set_visible (Operations_oid obj) true;;
      gui h ShowMaximized;;
      gui h (SetAnimationEnabled true));;
    data_set "datumImage" (VStr (outputpath cls +:+ "/origin" +:+ "_t.png"))
  ) silently.

(** [sum(1 for line in open(path))]: the lines of a text file, a line
    ending at LF, CR or CRLF, and a last line without an end counting. *)
Fixpoint count_lines (pending : bool) (s : string) : nat :=
  match s with
  | EmptyString => if pending then 1 else 0
  | String c rest =>
      if bool_decide (c = Ascii.ascii_of_nat 10) then S (count_lines false rest)
      else if bool_decide (c = Ascii.ascii_of_nat 13) then
        match rest with
        | String c' rest' =>
            if bool_decide (c' = Ascii.ascii_of_nat 10)
            then S (count_lines false rest')
            else S (count_lines false rest)
        | EmptyString => 1
        end
      else count_lines true rest
  end.

(** [os.path.getsize(path)], and [sum(1 for line in open(path))]: the
    file is opened as text, and bytes that cannot be decoded raise. *)
Definition getsize (path : string) : M world Z :=
  λ w, match files w !! path with
       | Some content => (inr (Z.of_nat (String.length content)), w)
       | None => (inl (OSError path), w)
       end.

Definition linecount (h : Host) (path : string) : M world nat :=
  λ w, match files w !! path with
       | Some content =>
           match decode h content with
           | Some text => (inr (count_lines false text), w)
           | None => (inl UnicodeDecodeError, w)
           end
       | None => (inl (OSError path), w)
       end.

(** [if isinstance(op.Proxy, PathScripts.PathStop.Stop) and op.Stop is True] *)
Definition outputData_stop (op : Operation) : M (dict * world) unit :=
  match op_Proxy op with
  | PathStop =>
      if op_Stop op then data_set "optionalstops" (VStr "True") else ret tt
  | _ => ret tt
  end.

Definition outputData (h : Host) (cls : CommandPathSanity) (obj : Job)
  : M world pyval :=
  summarizer [] (
    data_set "lastpostprocess" (VStr (LastPostProcessDate obj));;
    data_set "lastgcodefile" (VStr (LastPostProcessOutput obj));;
    data_set "optionalstops" (VStr "False");;
    data_set "programmer" (VStr "");;
    data_set "machine" (VStr "");;
    data_set "postprocessor" (VStr (PostProcessor obj));;
    data_set "postprocessorFlags" (VStr (PostProcessorArgs obj));;
    for_each (Operations_Group obj) outputData_stop;;
    if bool_decide (LastPostProcessOutput obj = "") then
      data_set "filesize" (VStr (str_float float_zero));;
      data_set "linecount" (VStr (str_int 0));;
      liftW (squawk h cls "PathSanity" "The Job has not been post-processed"
               None squawkType_default)
    else
      size ← liftW (getsize (LastPostProcessOutput obj));
      data_set "filesize" (VStr (str_int size));;
      lines ← liftW (linecount h (LastPostProcessOutput obj));
      data_set "linecount" (VStr (str_nat lines))
  ) silently.

(** [__summarize]: the sections in the order the source fills them;
    the last entry is the shared squawk object itself. *)
Definition summarize (h : Host) (cls : CommandPathSanity) (obj : Job)
  : M world pyval :=
  baseData ← baseObjectData h cls obj;
  let data := dict_set [] "baseData" baseData in
  designData ← designData obj;
  let data := dict_set data "designData" designData in
  toolData ← toolData h cls obj;
  let data := dict_set data "toolData" toolData in
  runData ← runData h obj;
  let data := dict_set data "runData" runData in
  coolantData ← coolantData obj;
  let data := dict_set data "coolantData" coolantData in
  outputData ← outputData h cls obj;
  let data := dict_set data "outputData" outputData in
  fixtureData ← fixtureData h cls obj;
  let data := dict_set data "fixtureData" fixtureData in
  stockData ← stockData h cls obj;
  let data := dict_set data "stockData" stockData in
  let data := dict_set data "squawkData" VSquawkData in
  ret (VDict data).

(** ** The template renderer: the first half of [__report] *)

(** Pure code that can raise. *)
Definition result (A : Type) : Type := (exn + A)%type.
#[global] Instance result_ret : MRet result := λ A a, inr a.
#[global] Instance result_bind : MBind result :=
  λ A B k m, match m with inl e => inl e | inr a => k a end.

(** [v[k]]; [sq] is the list the shared squawk object holds right now. *)
Definition getitem (sq : list pyval) (v : pyval) (k : string) : result pyval :=
  match v with
  | VDict d =>
      match dict_get d k with Some x => inr x | None => inl (KeyError k) end
  | VSquawkData =>
      if decide (k = "items") then inr (VList sq) else inl (KeyError k)
  | VStr _ => inl (TypeError "string indices must be integers")
  | VList _ => inl (TypeError "list indices must be integers")
  | VExn _ => inl (TypeError "object is not subscriptable")
  end.

(** The right operand of [text + v]. *)
Definition as_str (v : pyval) : result string :=
  match v with
  | VStr s => inr s
  | _ => inl (TypeError "can only concatenate str to str")
  end.

(** [v.items()] *)
Definition items (sq : list pyval) (v : pyval) : result (list (string * pyval)) :=
  match v with
  | VDict d => inr d
  | VSquawkData => inr [("items", VList sq)]
  | _ => inl (AttributeError "items")
  end.

(** The values [for i in v] walks through. *)
Definition iter (sq : list pyval) (v : pyval) : result (list pyval) :=
  match v with
  | VList l => inr l
  | VDict d => inr ((λ kv, VStr (fst kv)) <$> d)
  | VSquawkData => inr [VStr "items"]
  | VStr s => inr ((λ c, VStr (String c EmptyString)) <$> String.list_ascii_of_string s)
  | VExn _ => inl (TypeError "object is not iterable")
  end.

(** What [format] puts in place of a pair of braces. *)
Definition fmt (h : Host) (sq : list pyval) (v : pyval) : string :=
  match v with
  | VStr s => s
  | _ => py_str_other h sq v
  end.

(** A loop that grows a string: [for x in xs: text += ...] *)
Fixpoint for_str {X} (xs : list X) (text : string)
    (body : string → X → result string) : result string :=
  match xs with
  | [] => mret text
  | x :: xs' => text' ← body text x; for_str xs' text' body
  end.

(** [text + v[k]] *)
Definition add_item (sq : list pyval) (text : string) (v : pyval) (k : string)
  : result string :=
  x ← getitem sq v k;
  s ← as_str x;
  mret (text +:+ s).

(** [translate("Path_Sanity", text)] *)
Definition tr (h : Host) (text : string) : string :=
  translate h "Path_Sanity" text.

Section Render.
Context (h : Host) (sq : list pyval).

Definition render_infoTable (d b : pyval) : result string :=
  let PartLabel := tr h "Base Object(s)" in
  let SequenceLabel := tr h "Job Sequence" in
  let JobTypeLabel := tr h "Job Type" in
  let CADLabel := tr h "CAD File Name" in
  let LastSaveLabel := tr h "Last Save Date" in
  let CustomerLabel := tr h "Customer" in
  let DesignerLabel := tr h "Designer" in
  let basestable := "!===" +:+ nl in
  bases ← getitem sq b "bases";
  kvs ← items sq bases;
  basestable ← for_str kvs basestable (λ basestable '(key, val),
    val ← as_str val;
    mret (basestable +:+ "! " +:+ key +:+ " ! " +:+ val +:+ nl));
  let basestable := basestable +:+ "!===" in
  line ← add_item sq ("|*" +:+ PartLabel +:+ "* a| " +:+ basestable
                        +:+ " .7+a|" +:+ "image::") b "baseimage";
  let infoTable := line +:+ "[" +:+ PartLabel +:+ "]" +:+ nl in
  infoTable ← add_item sq (infoTable +:+ "|*" +:+ SequenceLabel +:+ "*|") d "Sequence";
  infoTable ← add_item sq (infoTable +:+ "|*" +:+ JobTypeLabel +:+ "*|") d "JobType";
  infoTable ← add_item sq (infoTable +:+ "|*" +:+ CADLabel +:+ "*|") d "FileName";
  infoTable ← add_item sq (infoTable +:+ "|*" +:+ LastSaveLabel +:+ "*|") d "LastModifiedDate";
  infoTable ← add_item sq (infoTable +:+ "|*" +:+ CustomerLabel +:+ "*|") d "Customer";
  add_item sq (infoTable +:+ "|*" +:+ DesignerLabel +:+ "*|") d "Designer".

Definition render_runTable (d : pyval) : result string :=
  let opLabel := tr h "Operation" in
  let zMinLabel := tr h "Minimum Z Height" in
  let zMaxLabel := tr h "Maximum Z Height" in
  let cycleTimeLabel := tr h "Cycle Time" in
  let jobTotalLabel := tr h "TOTAL JOB" in
  let runTable := "|*" +:+ opLabel +:+ "*|*" +:+ zMinLabel +:+ "*|*"
                    +:+ zMaxLabel +:+ "*|*" +:+ cycleTimeLabel +:+ "*" +:+ nl in
  its ← getitem sq d "items";
  its ← iter sq its;
  runTable ← for_str its runTable (λ runTable i,
    opName ← getitem sq i "opName";
    let runTable := runTable +:+ "|" +:+ fmt h sq opName in
    minZ ← getitem sq i "minZ";
    let runTable := runTable +:+ "|" +:+ fmt h sq minZ in
    maxZ ← getitem sq i "maxZ";
    let runTable := runTable +:+ "|" +:+ fmt h sq maxZ in
    cycleTime ← getitem sq i "cycleTime";
    mret (runTable +:+ "|" +:+ fmt h sq cycleTime));
  jobMinZ ← getitem sq d "jobMinZ";
  jobMaxZ ← getitem sq d "jobMaxZ";
  cycletotal ← getitem sq d "cycletotal";
  mret (runTable +:+ "|*" +:+ jobTotalLabel +:+ "* |" +:+ fmt h sq jobMinZ
          +:+ " |" +:+ fmt h sq jobMaxZ +:+ " |" +:+ fmt h sq cycletotal).

Definition render_toolTables (d : pyval) : result string :=
  let toolLabel := tr h "Tool Number" in
  let descriptionLabel := tr h "Description" in
  let manufLabel := tr h "Manufacturer" in
  let partNumberLabel := tr h "Part Number" in
  let urlLabel := tr h "URL" in
  let inspectionNotesLabel := tr h "Inspection Notes" in
  let opLabel := tr h "Operation" in
  let tcLabel := tr h "Tool Controller" in
  let feedLabel := tr h "Feed Rate" in
  let speedLabel := tr h "Spindle Speed" in
  let shapeLabel := tr h "Tool Shape" in
  let diameterLabel := tr h "Tool Diameter" in
  kvs ← items sq d;
  for_str kvs "" (λ toolTables '(key, value),
    let toolTables := toolTables +:+ "=== " +:+ toolLabel +:+ ": T" +:+ key +:+ nl in
    let toolTables := toolTables +:+ "|===" +:+ nl in
    line ← add_item sq ("|*" +:+ descriptionLabel +:+ "*|") value "description";
    line ← add_item sq (line +:+ " a|" +:+ "image::") value "imagepath";
    let toolTables := toolTables +:+ line +:+ "[" +:+ key +:+ "]" +:+ nl in
    line ← add_item sq ("|*" +:+ manufLabel +:+ "* 2+|") value "manufacturer";
    let toolTables := toolTables +:+ line +:+ nl in
    line ← add_item sq ("|*" +:+ partNumberLabel +:+ "* 2+|") value "partNumber";
    let toolTables := toolTables +:+ line +:+ nl in
    line ← add_item sq ("|*" +:+ urlLabel +:+ "* 2+|") value "url";
    let toolTables := toolTables +:+ line +:+ nl in
    line ← add_item sq ("|*" +:+ inspectionNotesLabel +:+ "* 2+|") value "inspectionNotes";
    let toolTables := toolTables +:+ line +:+ nl in
    line ← add_item sq ("|*" +:+ shapeLabel +:+ "* 2+|") value "shape";
    let toolTables := toolTables +:+ line +:+ nl in
    line ← add_item sq ("|*" +:+ diameterLabel +:+ "* 2+|") value "diameter";
    let toolTables := toolTables +:+ line +:+ nl in
    let toolTables := toolTables +:+ "|===" +:+ nl in
    let toolTables := toolTables +:+ "|===" +:+ nl in
    let toolTables := toolTables +:+ "|*" +:+ opLabel +:+ "*|*" +:+ tcLabel
                        +:+ "*|*" +:+ feedLabel +:+ "*|*" +:+ speedLabel
                        +:+ "*" +:+ nl in
    ops ← getitem sq value "ops";
    ops ← iter sq ops;
    toolTables ← for_str ops toolTables (λ toolTables o,
      line ← add_item sq "|" o "Operation";
      line ← add_item sq (line +:+ "|") o "ToolController";
      line ← add_item sq (line +:+ "|") o "Feed";
      line ← add_item sq (line +:+ "|") o "Speed";
      mret (toolTables +:+ line +:+ nl));
    let toolTables := toolTables +:+ "|===" +:+ nl in
    mret (toolTables +:+ nl)).

Definition render_stockTable (d : pyval) : result string :=
  let xDimLabel := tr h "X Size" in
  let yDimLabel := tr h "Y Size" in
  let zDimLabel := tr h "Z Size" in
  let materialLabel := tr h "Material" in
  line ← add_item sq ("|*" +:+ materialLabel +:+ "*|") d "material";
  line ← add_item sq (line +:+ " .4+a|" +:+ "image::") d "stockImage";
  let stockTable := line +:+ "[stock]" +:+ nl in
  stockTable ← add_item sq (stockTable +:+ "|*" +:+ xDimLabel +:+ "*|") d "xLen";
  stockTable ← add_item sq (stockTable +:+ "|*" +:+ yDimLabel +:+ "*|") d "yLen";
  add_item sq (stockTable +:+ "|*" +:+ zDimLabel +:+ "*|") d "zLen".

Definition render_fixtureTable (d : pyval) : result string :=
  let offsetsLabel := tr h "Work Offsets" in
  let orderByLabel := tr h "Order By" in
  let datumLabel := tr h "Part Datum" in
  line ← add_item sq ("|*" +:+ offsetsLabel +:+ "*|") d "fixtures";
  let fixtureTable := line +:+ nl in
  fixtureTable ← add_item sq (fixtureTable +:+ "|*" +:+ orderByLabel +:+ "*|") d "orderBy";
  line ← add_item sq ("|*" +:+ datumLabel +:+ "* a|image::") d "datumImage";
  mret (fixtureTable +:+ line +:+ "[]").

Definition render_coolantTable (d : pyval) : result string :=
  let opLabel := tr h "Operation" in
  let coolantLabel := tr h "Coolant Mode" in
  let coolantTable := "|*" +:+ opLabel +:+ "*|*" +:+ coolantLabel +:+ "*" +:+ nl in
  its ← iter sq d;
  for_str its coolantTable (λ coolantTable i,
    coolantTable ← add_item sq (coolantTable +:+ "|") i "opName";
    add_item sq (coolantTable +:+ "|") i "CoolantMode").

Definition render_outTable (d : pyval) : result string :=
  let gcodeFileLabel := tr h "Gcode File" in
  let lastpostLabel := tr h "Last Post Process Date" in
  let stopsLabel := tr h "Stops" in
  let programmerLabel := tr h "Programmer" in
  let machineLabel := tr h "Machine" in
  let postLabel := tr h "Postprocessor" in
  let flagsLabel := tr h "Post Processor Flags" in
  let fileSizeLabel := tr h "File Size (kbs)" in
  let lineCountLabel := tr h "Line Count" in
  let row (outTable label key : string) : result string :=
    line ← add_item sq ("|*" +:+ label +:+ "*|") d key;
    mret (outTable +:+ line +:+ nl) in
  outTable ← row "" gcodeFileLabel "lastgcodefile";
  outTable ← row outTable lastpostLabel "lastpostprocess";
  outTable ← row outTable stopsLabel "optionalstops";
  outTable ← row outTable programmerLabel "programmer";
  outTable ← row outTable machineLabel "machine";
  outTable ← row outTable postLabel "postprocessor";
  outTable ← row outTable flagsLabel "postprocessorFlags";
  outTable ← row outTable fileSizeLabel "filesize";
  row outTable lineCountLabel "linecount".

Definition render_squawkTable (d : pyval) : result string :=
  let noteLabel := tr h "Note" in
  let operatorLabel := tr h "Operator" in
  let dateLabel := tr h "Date" in
  let squawkTable := "|*" +:+ noteLabel +:+ "*|*" +:+ operatorLabel +:+ "*|*"
                       +:+ dateLabel +:+ "*" +:+ nl in
  its ← getitem sq d "items";
  its ← iter sq its;
  for_str its squawkTable (λ squawkTable i,
    squawkType ← getitem sq i "squawkType";
    Note ← getitem sq i "Note";
    let squawkTable := squawkTable +:+ "a|" +:+ fmt h sq squawkType +:+ ": "
                         +:+ fmt h sq Note in
    Operator ← getitem sq i "Operator";
    let squawkTable := squawkTable +:+ "|" +:+ fmt h sq Operator in
    Date ← getitem sq i "Date";
    let squawkTable := squawkTable +:+ "|" +:+ fmt h sq Date in
    mret (squawkTable +:+ nl)).

(** [reportTemplate.format(...)] *)
Definition reportTemplate (jobname infoTable runTable toolTables stockTable
    fixtureTable outTable coolantTable squawkTable : string) : string :=
  nl +:+ "= Setup Report for FreeCAD Job: " +:+ jobname +:+ "
:toc:
:icons: font
:imagesdir: " +:+ dquote +:+ dquote +:+ "
:data-uri:

== Part Information

|===
" +:+ infoTable +:+ "
|===


== Run Summary

|===
" +:+ runTable +:+ "
|===

== Rough Stock

|===
" +:+ stockTable +:+ "
|===

== Tool Data

" +:+ toolTables +:+ "

== Output (Gcode)

|===
" +:+ outTable +:+ "
|===

== Coolant

|===
" +:+ coolantTable +:+ "
|===

== Fixtures and Workholding

|===
" +:+ fixtureTable +:+ "
|===

== Squawks

|===
" +:+ squawkTable +:+ "
|===

".

(** The rendering step: from the section mapping to the markup text. *)
Definition render (data : pyval) : result string :=
  d ← getitem sq data "designData";
  b ← getitem sq data "baseData";
  jobname ← getitem sq d "JobLabel";
  infoTable ← render_infoTable d b;
  d ← getitem sq data "runData";
  runTable ← render_runTable d;
  d ← getitem sq data "toolData";
  toolTables ← render_toolTables d;
  d ← getitem sq data "stockData";
  stockTable ← render_stockTable d;
  d ← getitem sq data "fixtureData";
  fixtureTable ← render_fixtureTable d;
  d ← getitem sq data "coolantData";
  d ← getitem sq d "items";
  coolantTable ← render_coolantTable d;
  d ← getitem sq data "outputData";
  outTable ← render_outTable d;
  d ← getitem sq data "squawkData";
  squawkTable ← render_squawkTable d;
  mret (reportTemplate (fmt h sq jobname) infoTable runTable toolTables
          stockTable fixtureTable outTable coolantTable squawkTable).
End Render.

(** ** The publisher: the second half of [__report] *)

Definition reportraw (cls : CommandPathSanity) : string :=
  outputpath cls +:+ "/setupreport.asciidoc".
Definition reporthtml (cls : CommandPathSanity) : string :=
  outputpath cls +:+ "/setupreport.html".

(** [os.system(command)]: the converter can write its output file and
    nothing else of what the command keeps under the output directory. *)
Definition system (h : Host) (command output : string) : M world Z :=
  λ w, match os_system h command (files w) with
       | (r, Some html) => (r, set_files (<[output := html]>) w)
       | (r, None) => (r, w)
       end.

(** The file is written, the converter is run, and the path of the
    HTML file is returned, or [None] after the status "not found". *)
Definition publish (h : Host) (cls : CommandPathSanity) (report : string)
  : M world (option string) :=
  write_file h (reportraw cls) (Some report);;
  try_except (
    result ← system h ("asciidoctor " +:+ reportraw cls +:+ " -o "
                         +:+ reporthtml cls) (reporthtml cls);
    if bool_decide (str_int result = "32512") then
      print "asciidoctor not found";;
      mret None
    else mret (Some (reporthtml cls))
  ) (λ e,
    sq ← gets squawkItems;
    print (py_str_other h sq (VExn e));;
    mret (Some (reporthtml cls))).

(** [__report(data)] *)
Definition report (h : Host) (cls : CommandPathSanity) (data : pyval)
  : M world (option string) :=
  sq ← gets squawkItems;
  text ← of_result (render h sq data);
  publish h cls text.

(** ** The command *)

(** [FreeCADGui.Selection.getSelectionEx()[0].Object] *)
Definition first_selected (selection : list Job) : result Job :=
  match selection with
  | [] => inl IndexError
  | obj :: _ => inr obj
  end.

Definition IsActive (selection : list Job) : result bool :=
  obj ← first_selected selection;
  match Proxy obj with
  | None => inl (AttributeError "Proxy")
  | Some ObjectJob => inr true
  | Some _ => inr false
  end.

Definition Activated (h : Host) (cls : CommandPathSanity) (selection : list Job)
  : M world unit :=
  obj ← of_result (first_selected selection);
  data ← summarize h cls obj;
  html ← report h cls data;
  match html with
  | Some html => print html;; gui h (WebbrowserOpen html)
  | None => mret tt
  end.

(** ** What the properties observe *)

(** A string field of a record, such as the severity of a squawk. *)
Definition record_field (record : pyval) (k : string) : option string :=
  match record with
  | VDict d => match dict_get d k with Some (VStr s) => Some s | _ => None end
  | _ => None
  end.

(** The flags when the target is the one visible object of [n]. *)
Definition only_visible (obj n : nat) : list bool :=
  <[obj := true]> (replicate n false).

(** The records [__toolData] can append. *)
Definition PathSanity_record (h : Host) (cls : CommandPathSanity)
    (note squawkType : string) : pyval :=
  squawk_record (str_datetime h (squawk_date_default cls)) "PathSanity"
    note squawkType.

Definition no_feedrate (TC : ToolController) : string :=
  "Tool Controller '" +:+ tc_Label TC +:+ "' has no feedrate".
Definition no_spindlespeed (TC : ToolController) : string :=
  "Tool Controller '" +:+ tc_Label TC +:+ "' has no spindlespeed".
Definition not_used (TC : ToolController) : string :=
  "Tool Controller '" +:+ tc_Label TC +:+ "' is not used".
Definition multiple_tools (TC : ToolController) : string :=
  "Tool number " +:+ str_int (ToolNumber TC) +:+ " used by multiple tools".

(** The test [bitshape not in ["", TC.Tool.BitShape]] on the table as
    it stands when the controller is reached. *)
Definition shape_clash (TC : ToolController) (data : dict) : bool :=
  match dict_get data (str_int (ToolNumber TC)) with
  | Some (VDict tooldata) =>
      match dict_get tooldata "BitShape" with
      | Some bitshape =>
          negb (py_eq_str bitshape "" || py_eq_str bitshape (BitShape (Tool TC)))
      | None => false
      end
  | _ => false
  end.

(** The operation has a tool controller, and it is another one. *)
Definition other_controller (TC : ToolController) (op : Operation) : bool :=
  match op_ToolController op with
  | Some tc => negb (bool_decide (tc = tc_oid TC))
  | None => false
  end.

(** What the inner loop of [__toolData] returns. *)
Fixpoint ops_used (TC : ToolController) (ops : list Operation) (used : bool)
  : exn + bool :=
  match ops with
  | [] => inr used
  | op :: ops' =>
      match op_ToolController op with
      | Some tc =>
          ops_used TC ops' (if decide (tc = tc_oid TC) then true else used)
      | None => inl (AttributeError "ToolController")
      end
  end.

(** The squawks one pass of the loop of [__toolData] adds, read off the
    controller, the operations and the table. *)
Definition toolData_TC_squawks (h : Host) (cls : CommandPathSanity) (obj : Job)
    (TC : ToolController) (data : dict) : list pyval :=
  if BitBody (Tool TC) then
    (if shape_clash TC data
     then [PathSanity_record h cls (multiple_tools TC) "ERROR"] else []) ++
    match getBitThumbnail (Tool TC) with
    | inl _ => []
    | inr imagedata =>
        (if float_is_zero (Value (HorizFeed TC))
         then [PathSanity_record h cls (no_feedrate TC) "WARNING"] else []) ++
        (if float_is_zero (SpindleSpeed TC)
         then [PathSanity_record h cls (no_spindlespeed TC) "WARNING"] else []) ++
        (if writable h (outputpath cls +:+ "/T" +:+ str_int (ToolNumber TC)
                          +:+ ".png")
            && bool_decide (is_Some imagedata)
            && forallb (other_controller TC) (Operations_Group obj)
         then [PathSanity_record h cls (not_used TC) "WARNING"] else [])
    end
  else [].

(** The tool table as the loop keeps it: every entry is a dictionary
    whose [ops], once there, is a list. *)
Definition ops_is_list (tooldata : dict) : Prop :=
  dict_get tooldata "ops" = None ∨ ∃ l, dict_get tooldata "ops" = Some (VList l).

Definition tool_table (data : dict) : Prop :=
  ∀ key v, dict_get data key = Some v →
    ∃ tooldata, v = VDict tooldata ∧ ops_is_list tooldata.

(** No entry of the table holds a shape under the key [BitShape]. *)
Definition shape_unset (data : dict) : Prop :=
  ∀ key tooldata, dict_get data key = Some (VDict tooldata) →
    dict_get tooldata "BitShape" = None ∨
    dict_get tooldata "BitShape" = Some (VStr "").

(** What one pass of the loop of [__toolData] guarantees about the
    state it leaves, whether it ends or raises. *)
Definition toolData_TC_post (h : Host) (cls : CommandPathSanity) (obj : Job)
    (TC : ToolController) (data : dict) (w : world)
    (run : (exn + unit) * (dict * world)) : Prop :=
  tool_table run.2.1 ∧
  (shape_unset data → shape_unset run.2.1) ∧
  squawkItems run.2.2 = squawkItems w ++ toolData_TC_squawks h cls obj TC data.

(** The squawks a run added, and those of them of a given severity. *)
Definition appended (w w' : world) : list pyval :=
  drop (length (squawkItems w)) (squawkItems w').

Definition of_severity (squawkType : string) (records : list pyval) : list pyval :=
  filter (λ record, record_field record "squawkType" = Some squawkType) records.

(** The entry [__coolantData] makes for an operation, when it makes one. *)
Definition coolant_item (op : Operation) : option pyval :=
  match op_CoolantMode op, op_eCoolantMode op with
  | None, _ =>
      Some (VDict [("opName", VStr (op_display_label op));
                   ("coolantMode", VStr "N/A")])
  | Some _, Some mode =>
      Some (VDict [("opName", VStr (op_display_label op));
                   ("coolantMode", VStr mode)])
  | Some _, None => None
  end.

(** A run that ended in an exception. *)
Definition raised {A} (r : exn + A) : Prop := ∃ e, r = inl e.

(** ** Sample scenes *)

(** The locale of the sample hosts is ASCII: bytes below 128 are the
    text, and a file with any other byte cannot be decoded. *)
Definition decode_ascii (bytes : string) : option string :=
  if forallb (λ c, bool_decide (Ascii.nat_of_ascii c < 128)%nat)
       (String.list_ascii_of_string bytes)
  then Some bytes else None.

(** A host on which every call works and the converter is installed. *)
Definition host_ok : Host := {|
  translate := λ _ text, text;
  str_datetime := λ t, pretty t;
  py_str_other := λ _ _, "<object>";
  length_UserString := λ f, frepr f +:+ " mm";
  gui_raises := λ _, None;
  writable := λ _, true;
  decode := decode_ascii;
  os_system := λ _ _, (inr 0%Z, Some "<html/>")
|}.

(** The same host with a viewport that cannot save images. *)
Definition host_no_image : Host := {|
  translate := translate host_ok;
  str_datetime := str_datetime host_ok;
  py_str_other := py_str_other host_ok;
  length_UserString := length_UserString host_ok;
  gui_raises := λ c, match c with
                     | SaveImage _ _ => Some (HostError "saveImage")
                     | _ => None
                     end;
  writable := writable host_ok;
  decode := decode host_ok;
  os_system := os_system host_ok
|}.

(** The same host without the converter: the shell answers 127, which
    [os.system] reports as the wait status 32512. *)
Definition host_no_converter : Host := {|
  translate := translate host_ok;
  str_datetime := str_datetime host_ok;
  py_str_other := py_str_other host_ok;
  length_UserString := length_UserString host_ok;
  gui_raises := gui_raises host_ok;
  writable := writable host_ok;
  decode := decode host_ok;
  os_system := λ _ _, (inr 32512%Z, None)
|}.

Definition sample_class : CommandPathSanity := define_class "/tmp/out" 1000%N.

(** A document of six objects: the job, its model, a tool controller,
    the operations group, the stock and a second tool controller; the
    model is hidden. *)
Definition sample_world : world := {|
  squawkItems := [];
  Visibility := [true; false; true; true; true; true];
  files := ∅;
  stdout := [];
  shots := [];
  clock_now := 2000%N
|}.

Definition sample_float (q : Q) (text : string) : pyfloat :=
  {| fval := q; frepr := text |}.

Definition sample_bit (shape : string) : ToolBit := {|
  BitBody := true;
  BitShape := shape;
  tool_Label := "bit";
  Diameter := {| Value := sample_float 6 "6.0"; quantity_str := "6.0 mm" |};
  ShapeName := shape;
  getBitThumbnail := inr (Some "PNG")
|}.

Definition sample_TC (oid : nat) (label : string) (number : Z) (shape : string)
    (feed speed : Q) : ToolController := {|
  tc_oid := oid;
  tc_Name := "TC";
  tc_Label := label;
  ToolNumber := number;
  HorizFeed := {| Value := sample_float feed "f"; quantity_str := "f mm/s" |};
  SpindleSpeed := sample_float speed "s";
  Tool := sample_bit shape
|}.

(** A profile operation cut with the controller at position [tc]; like
    every operation without the coolant feature it has no [CoolantMode]. *)
Definition sample_op (tc : nat) : Operation := {|
  op_Label := "Profile";
  op_Active := true;
  op_Proxy := OtherProxy;
  op_Stop := false;
  op_ToolController := Some tc;
  op_ZMin := sample_float 0 "0.0";
  op_ZMax := sample_float 5 "5.0";
  op_CycleTime := "00:01:00";
  op_CoolantMode := None;
  op_eCoolantMode := None
|}.

Definition sample_job (tcs : list ToolController) (ops : list Operation)
    (gcode : string) : Job := {|
  job_oid := 0;
  Label := "Job";
  Description := "";
  Proxy := Some ObjectJob;
  Doc := {| Objects := [ {| do_Proxy := Some ObjectJob |};
                         {| do_Proxy := None |};
                         {| do_Proxy := Some OtherProxy |};
                         {| do_Proxy := None |};
                         {| do_Proxy := Some OtherProxy |};
                         {| do_Proxy := Some OtherProxy |} ];
            FileName := "part.FCStd";
            LastModifiedDate := "2020-05-01";
            Company := "ACME";
            LastModifiedBy := "me" |};
  Model_oid := 1;
  Model_Group := [(1, "Body")];
  ToolControllers := tcs;
  Operations_oid := 3;
  Operations_Group := ops;
  Stock := {| stock_oid := 4;
              XLength := sample_float 1 "1.0";
              YLength := sample_float 1 "1.0";
              ZLength := sample_float 1 "1.0";
              Material := None |};
  CycleTime := "00:01:00";
  Path_ZMin := sample_float 0 "0.0";
  Path_ZMax := sample_float 5 "5.0";
  Fixtures := "['G54']";
  OrderOutputBy := "Fixture";
  LastPostProcessDate := "";
  LastPostProcessOutput := gcode;
  PostProcessor := "linuxcnc";
  PostProcessorArgs := ""
|}.

(** What [summarize] gives for a job with one tool controller and no
    operation, and the markup of it. *)
Definition sample_summary : (exn + pyval) * world :=
  summarize host_no_converter sample_class
    (sample_job [sample_TC 2 "TC" 1 "endmill" 1 1] [] "") sample_world.

Definition sample_data : pyval :=
  match sample_summary.1 with
  | inr data => data
  | inl _ => VDict []
  end.

Definition sample_text : string :=
  match render host_no_converter (squawkItems sample_summary.2) sample_data with
  | inr text => text
  | inl _ => ""
  end.

(** Two controllers with the tool number 1 and tools of two shapes,
    each used by an operation and with feed and speed set. *)
Definition two_shapes_job : Job :=
  sample_job [sample_TC 2 "TC1" 1 "endmill.fcstd" 100 8000;
              sample_TC 5 "TC2" 1 "ballend.fcstd" 100 8000]
             [sample_op 2; sample_op 5] "".

(** One controller, with feed and speed set, and the one operation cut
    with it. *)
Definition one_operation_job : Job :=
  sample_job [sample_TC 2 "TC1" 1 "endmill.fcstd" 100 8000] [sample_op 2] "".

(** A controller without feed and speed that no operation uses. *)
Definition idle_controller_job : Job :=
  sample_job [sample_TC 2 "TC1" 1 "endmill.fcstd" 0 0] [] "".

(** A world in which the job's G-code file is on disk: two lines. *)
Definition gcode_world : world := {|
  squawkItems := [];
  Visibility := Visibility sample_world;
  files := {[ "/tmp/job.gcode" := "G0 X0" +:+ nl +:+ "G1 X1" +:+ nl ]};
  stdout := [];
  shots := [];
  clock_now := 2000%N
|}.

(** A world in which the file under that name is not text: its second
    byte is 255. *)
Definition binary_world : world := {|
  squawkItems := [];
  Visibility := Visibility sample_world;
  files := {[ "/tmp/job.gcode" :=
                "G" +:+ String (Ascii.ascii_of_nat 255) EmptyString +:+ nl ]};
  stdout := [];
  shots := [];
  clock_now := 2000%N
|}.

(** ** Frames *)

(** A run leaves a part of the state as it found it, whether it ends
    or raises. *)
Definition preserves {S T A} (part : S → T) (m : M S A) : Prop :=
  ∀ s, part (m s).2 = part s.

(** A run only adds to a list of the state, here the squawk list. *)
Definition grows {S A} (log : S → list pyval) (m : M S A) : Prop :=
  ∀ s, ∃ new, log (m s).2 = log s ++ new.

(** The squawk list seen from inside a summarizer. *)
Definition section_log (s : dict * world) : list pyval := squawkItems s.2.

Create HintDb frame.

(** Walk down a run bind by bind with the rule [bind_rule] and close
    each step with the frame hints. *)
Ltac frame_steps bind_rule :=
  repeat first [ solve [eauto with frame]
               | eapply bind_rule; [|intros ?] ].

(** The dictionary a section summarizer returned. *)
Definition section_value (r : (exn + pyval) * world) : pyval :=
  match r.1 with
  | inr v => v
  | inl _ => VDict []
  end.

(** A host whose viewport is gone: asking for the active view raises. *)
Definition host_no_view : Host := {|
  translate := translate host_ok;
  str_datetime := str_datetime host_ok;
  py_str_other := py_str_other host_ok;
  length_UserString := length_UserString host_ok;
  gui_raises := λ c, match c with
                     | ActiveView => Some (AttributeError "activeView")
                     | _ => None
                     end;
  writable := writable host_ok;
  decode := decode host_ok;
  os_system := os_system host_ok
|}.

(** One controller, in use by nothing, and no operation. *)
Definition no_operation_job : Job :=
  sample_job [sample_TC 2 "TC1" 1 "endmill.fcstd" 100 8000] [] "".

(** The document object is a job. *)
Definition is_job (o : DocumentObject) : bool :=
  match do_Proxy o with
  | Some ObjectJob => true
  | _ => false
  end.

(** The row of the run summary for an operation. *)
Definition run_item (h : Host) (op : Operation) : pyval :=
  VDict [("opName", VStr (op_display_label op));
         ("minZ", VStr (length_UserString h (op_ZMin op)));
         ("maxZ", VStr (length_UserString h (op_ZMax op)));
         ("cycleTime", VStr (op_CycleTime op))].

(** The entries of the coolant section: those of the operations up to
    the first one that gets none. *)
Fixpoint coolant_items (ops : list Operation) : list pyval :=
  match ops with
  | [] => []
  | op :: ops' =>
      match coolant_item op with
      | Some item => item :: coolant_items ops'
      | None => []
      end
  end.

(** The operation is a stop that is switched on. *)
Definition is_optional_stop (op : Operation) : bool :=
  match op_Proxy op with
  | PathStop => op_Stop op
  | _ => false
  end.

(** Operations with the coolant feature, a stop, and a job with them. *)
Definition coolant_op (label : string) : Operation := {|
  op_Label := label;
  op_Active := false;
  op_Proxy := OtherProxy;
  op_Stop := false;
  op_ToolController := Some 2;
  op_ZMin := sample_float 0 "0.0";
  op_ZMax := sample_float 5 "5.0";
  op_CycleTime := "00:02:00";
  op_CoolantMode := Some "Flood";
  op_eCoolantMode := None
|}.

Definition stop_op : Operation := {|
  op_Label := "Stop";
  op_Active := true;
  op_Proxy := PathStop;
  op_Stop := true;
  op_ToolController := None;
  op_ZMin := sample_float 0 "0.0";
  op_ZMax := sample_float 0 "0.0";
  op_CycleTime := "00:00:00";
  op_CoolantMode := None;
  op_eCoolantMode := None
|}.

Definition coolant_job : Job :=
  sample_job [sample_TC 2 "TC1" 1 "endmill.fcstd" 100 8000]
             [sample_op 2; coolant_op "Pocket"; stop_op] "".

(** A controller with a tool of the old style, without feed and speed
    and used by nothing, and the job that has only this one. *)
Definition old_TC : ToolController := {|
  tc_oid := 2;
  tc_Name := "TC";
  tc_Label := "TC old";
  ToolNumber := 3;
  HorizFeed := {| Value := sample_float 0 "0.0"; quantity_str := "0.0 mm/s" |};
  SpindleSpeed := sample_float 0 "0.0";
  Tool := {| BitBody := false;
             BitShape := "";
             tool_Label := "drill";
             Diameter := {| Value := sample_float 3 "3.0";
                            quantity_str := "3.0 mm" |};
             ShapeName := "";
             getBitThumbnail := inr None |}
|}.

Definition old_tools_job : Job := sample_job [old_TC] [] "".

(** The count a counter holds for a name. *)
Fixpoint counter_get (counter : list (string * nat)) (x : string) : option nat :=
  match counter with
  | [] => None
  | (y, n) :: counter' => if decide (x = y) then Some n else counter_get counter' x
  end.

(** One squawk as the log holds it and as the report prints it:
    date, operator, note and severity. *)
Definition squawk_of (entry : string * string * string * string) : pyval :=
  let '(date, operator, note, squawkType) := entry in
  squawk_record date operator note squawkType.

Definition squawk_row (entry : string * string * string * string) : string :=
  let '(date, operator, note, squawkType) := entry in
  "a|" +:+ squawkType +:+ ": " +:+ note +:+ "|" +:+ operator +:+ "|" +:+ date
    +:+ nl.

(** The sample job with another model: the objects of the model by
    position, each with the label of its base object. *)
Definition sample_job_with_model (model : list (nat * string)) : Job := {|
  job_oid := job_oid no_operation_job;
  Label := Label no_operation_job;
  Description := Description no_operation_job;
  Proxy := Proxy no_operation_job;
  Doc := Doc no_operation_job;
  Model_oid := Model_oid no_operation_job;
  Model_Group := model;
  ToolControllers := ToolControllers no_operation_job;
  Operations_oid := Operations_oid no_operation_job;
  Operations_Group := Operations_Group no_operation_job;
  Stock := Stock no_operation_job;
  CycleTime := CycleTime no_operation_job;
  Path_ZMin := Path_ZMin no_operation_job;
  Path_ZMax := Path_ZMax no_operation_job;
  Fixtures := Fixtures no_operation_job;
  OrderOutputBy := OrderOutputBy no_operation_job;
  LastPostProcessDate := LastPostProcessDate no_operation_job;
  LastPostProcessOutput := LastPostProcessOutput no_operation_job;
  PostProcessor := PostProcessor no_operation_job;
  PostProcessorArgs := PostProcessorArgs no_operation_job
|}.

(** The rows of the squawks, one after the other. *)
Definition squawk_rows (entries : list (string * string * string * string))
  : string :=
  foldr (λ entry rows, squawk_row entry +:+ rows) "" entries.

(** ** A run that ends well *)

(** The entry of a dictionary under a key is a string. *)
Definition has_text (d : dict) (k : string) : Prop :=
  ∃ s, dict_get d k = Some (VStr s).

Definition text_of (d : dict) (k : string) : string :=
  match dict_get d k with Some (VStr s) => s | _ => "" end.

(** A tool of the table with all that its part of the report reads, and
    no operation. *)
Definition tool_ready (tooldata : dict) : Prop :=
  Forall (has_text tooldata)
    ["description"; "imagepath"; "manufacturer"; "partNumber"; "url";
     "inspectionNotes"; "shape"; "diameter"] ∧
  dict_get tooldata "ops" = Some (VList []).

Definition tools_ready (data : dict) : Prop :=
  Forall (λ entry, ∃ tooldata, entry.2 = VDict tooldata ∧ tool_ready tooldata)
    data.

(** The squawk list holds squawks. *)
Definition squawk_log (items : list pyval) : Prop :=
  ∃ entries, items = squawk_of <$> entries.

(** The file of the G-code, if the job names one, is not in the
    directory the report writes to, it is on the disk, and its bytes
    can be read as text. *)
Definition readable (h : Host) (cls : CommandPathSanity) (path : string)
    (w : world) : Prop :=
  path = "" ∨
  ((∀ name, path ≠ outputpath cls +:+ "/" +:+ name) ∧
   ∃ content, files w !! path = Some content ∧ is_Some (decode h content)).

Definition sound_world (h : Host) (cls : CommandPathSanity) (path : string)
    (w : world) : Prop :=
  squawk_log (squawkItems w) ∧ readable h cls path w.

(** ** The operations of a tool *)

(** The operation is cut with the controller. *)
Definition uses (TC : ToolController) (op : Operation) : Prop :=
  op_ToolController op = Some (tc_oid TC).

#[global] Instance uses_dec (TC : ToolController) (op : Operation)
  : Decision (uses TC op) :=
  decide (op_ToolController op = Some (tc_oid TC)).

(** The row of an operation in the table of its tool. *)
Definition tool_row (TC : ToolController) (op : Operation) : pyval :=
  VDict [("Operation", VStr (op_Label op));
         ("ToolController", VStr (tc_Name TC));
         ("Feed", VStr (quantity_str (HorizFeed TC)));
         ("Speed", VStr (str_float (SpindleSpeed TC)))].

(** The rows a tool has so far. *)
Definition ops_list (tooldata : dict) : list pyval :=
  match dict_get tooldata "ops" with
  | Some (VList l) => l
  | _ => []
  end.

(** The sections of the sample summary, as the mapping holds them. *)
Definition sample_sections : dict :=
  match sample_data with
  | VDict sections => sections
  | _ => []
  end.

(** ** Proof steps *)

(** One host call in a run: rewrite with the rule of the call, [gui] or
    [saveImage], and split on whether the host raises in it. *)
Ltac host_call gui_rule saveImage_rule :=
  first [rewrite gui_rule | rewrite saveImage_rule];
  match goal with
  | |- context [gui_raises ?h ?c] => destruct (gui_raises h c)
  end.

(** * Properties *)

(** ** The monad *)

Lemma bind_run {S A B} (m : M S A) (k : A → M S B) (s : S) :
  (m ≫= k) s =
  match m s with
  | (inr a, s') => k a s'
  | (inl e, s') => (inl e, s')
  end.
Proof. reflexivity. Qed.

Lemma bind_modify {S B} (f : S → S) (k : unit → M S B) (s : S) :
  (modify f ≫= k) s = k tt (f s).
Proof. reflexivity. Qed.

Lemma bind_gets {S A B} (f : S → A) (k : A → M S B) (s : S) :
  (gets f ≫= k) s = k (f s) s.
Proof. reflexivity. Qed.

Lemma bind_gui {B} (h : Host) (c : gui_call) (k : unit → M world B) (w : world) :
  (gui h c ≫= k) w =
  match gui_raises h c with
  | Some e => (inl e, w)
  | None => k tt w
  end.
Proof. rewrite bind_run. unfold gui. by destruct (gui_raises h c). Qed.

(** Writing a text: the file holds it afterwards. *)
Lemma write_file_text (h : Host) (path content : string) (w : world) :
  write_file h path (Some content) w =
  if writable h path then (inr tt, set_files (<[path := content]>) w)
  else (inl (OSError path), w).
Proof.
  unfold write_file. destruct (writable h path); [|done].
  rewrite bind_modify. destruct w. unfold modify, set_files.
  cbn [squawkItems Visibility files stdout shots clock_now].
  by rewrite insert_insert_eq.
Qed.

(** ** The squawk log *)

Lemma squawk_appends (h : Host) (cls : CommandPathSanity)
    (operator note : string) (date : option datetime) (squawkType : string)
    (w : world) :
  squawk h cls operator note date squawkType w =
  (inr tt,
   set_squawkItems (λ items, items ++
     [squawk_record (str_datetime h (default (squawk_date_default cls) date))
        operator note
        (if bool_decide (squawkType ∈ squawk_types) then squawkType else "NOTE")])
     w).
Proof. reflexivity. Qed.

(** C5. Whatever severity [squawk] is called with, it appends exactly one
    record; the record carries the severity "NOTE" when the value given
    is none of NOTE, WARNING, ERROR, TIP, and the value given when it is
    one of them. *)
Theorem squawk_severity_normalized (h : Host) (cls : CommandPathSanity)
    (operator note : string) (date : option datetime) (squawkType : string)
    (w : world) :
  ∃ record,
    squawk h cls operator note date squawkType w
      = (inr tt, set_squawkItems (λ items, items ++ [record]) w) ∧
    record_field record "Note" = Some note ∧
    record_field record "Operator" = Some operator ∧
    (squawkType ∉ ["NOTE"; "WARNING"; "ERROR"; "TIP"] →
       record_field record "squawkType" = Some "NOTE") ∧
    (squawkType ∈ ["NOTE"; "WARNING"; "ERROR"; "TIP"] →
       record_field record "squawkType" = Some squawkType).
Proof.
  eexists. split; [apply squawk_appends|].
  repeat split; fold squawk_types; intros Hty; cbn;
    by rewrite ?(bool_decide_eq_true_2 _ Hty), ?(bool_decide_eq_false_2 _ Hty).
Qed.

Lemma squawk_severity_normalized_witness :
  (∃ record,
     squawk host_ok sample_class "me" "hello" None "FATAL" sample_world
       = (inr tt, set_squawkItems (λ items, items ++ [record]) sample_world) ∧
     record_field record "squawkType" = Some "NOTE") ∧
  (∃ record,
     squawk host_ok sample_class "me" "hello" None "TIP" sample_world
       = (inr tt, set_squawkItems (λ items, items ++ [record]) sample_world) ∧
     record_field record "squawkType" = Some "TIP").
Proof.
  split.
  - destruct (squawk_severity_normalized host_ok sample_class "me" "hello"
                None "FATAL" sample_world)
      as (record & Hrun & _ & _ & Hother & _).
    exists record. split; [exact Hrun|]. apply Hother.
    rewrite !elem_of_cons, elem_of_nil. intros [?|[?|[?|[?|[]]]]]; discriminate.
  - destruct (squawk_severity_normalized host_ok sample_class "me" "hello"
                None "TIP" sample_world)
      as (record & Hrun & _ & _ & _ & Hkept).
    exists record. split; [exact Hrun|]. apply Hkept.
    do 3 apply list_elem_of_further. apply list_elem_of_here.
Defined.

Example squawk_bogus_severity (h : Host) (cls : CommandPathSanity) (w : world) :
  squawkItems (squawk h cls "me" "hello" (Some 5%N) "FATAL" w).2
  = squawkItems w ++ [squawk_record (str_datetime h 5%N) "me" "hello" "NOTE"].
Proof. reflexivity. Qed.

Example squawk_TIP_severity (h : Host) (cls : CommandPathSanity) (w : world) :
  squawkItems (squawk h cls "me" "hello" (Some 5%N) "TIP" w).2
  = squawkItems w ++ [squawk_record (str_datetime h 5%N) "me" "hello" "TIP"].
Proof. reflexivity. Qed.

(** C10. The default of [date] is the clock reading taken when the class
    was defined: two calls that leave [date] out, in any two states of
    the process and whatever their clocks show, append records with the
    same Date string, the one of the class-definition time. *)
Theorem squawk_default_date_fixed (h : Host) (defaultOutputFile : string)
    (t0 : datetime) (operator1 note1 type1 operator2 note2 type2 : string)
    (w1 w2 : world) :
  let cls := define_class defaultOutputFile t0 in
  ∃ r1 r2,
    squawkItems (squawk h cls operator1 note1 None type1 w1).2
      = squawkItems w1 ++ [r1] ∧
    squawkItems (squawk h cls operator2 note2 None type2 w2).2
      = squawkItems w2 ++ [r2] ∧
    record_field r1 "Date" = Some (str_datetime h t0) ∧
    record_field r2 "Date" = record_field r1 "Date".
Proof.
  intros cls. do 2 eexists. rewrite !squawk_appends. cbn.
  repeat split; reflexivity.
Qed.

(** ** The activation guard *)

(** C9. With nothing selected, indexing the selection at 0 raises:
    [IsActive] does not answer [False], and [Activated] raises as well,
    before it touches anything. *)
Theorem empty_selection_raises (h : Host) (cls : CommandPathSanity) (w : world) :
  IsActive [] = inl IndexError ∧
  IsActive [] ≠ inr false ∧
  Activated h cls [] w = (inl IndexError, w).
Proof. repeat split. discriminate. Qed.

(** ** Image capture *)

Lemma for_each_set_visible (xs : list nat) (b : bool) (w : world) :
  for_each xs (λ o, set_visible o b) w =
  (inr tt, set_Visibility (λ v, foldl (λ v o, <[o := b]> v) v xs) w).
Proof.
  revert w. induction xs as [|x xs IH]; intros w.
  - by destruct w.
  - cbn [for_each]. rewrite bind_run. cbn. rewrite IH. by destruct w.
Qed.

Lemma lookup_foldl_insert (xs : list nat) (b : bool) (v : list bool) (i : nat) :
  foldl (λ v o, <[o := b]> v) v xs !! i =
  if decide (i ∈ xs) then (λ _, b) <$> v !! i else v !! i.
Proof.
  revert v. induction xs as [|x xs IH]; intros v; [done|].
  cbn [foldl]. rewrite IH.
  destruct (decide (i = x)) as [->|Hne].
  - rewrite (decide_True (P := x ∈ x :: xs)) by left.
    destruct (decide (x < length v)) as [Hlt|Hge].
    + rewrite list_lookup_insert_eq by done.
      destruct (lookup_lt_is_Some_2 v x Hlt) as [y ->].
      by destruct (decide (x ∈ xs)).
    + rewrite (lookup_ge_None_2 v) by lia.
      rewrite lookup_ge_None_2 by (rewrite length_insert; lia).
      by destruct (decide (x ∈ xs)).
  - rewrite list_lookup_insert_ne by done.
    destruct (decide (i ∈ xs)) as [Hin|Hnin].
    + by rewrite (decide_True (P := i ∈ x :: xs)) by (by right).
    + rewrite (decide_False (P := i ∈ x :: xs)); [done|].
      by intros [?|?]%elem_of_cons.
Qed.

Lemma elem_of_visible_from (vis : list bool) (k i : nat) :
  i ∈ visible_from k vis ↔ ∃ j, i = k + j ∧ vis !! j = Some true.
Proof.
  revert k. induction vis as [|b vis IH]; intros k; cbn.
  - split; [by intros ?%elem_of_nil|by intros (? & _ & ?)].
  - assert (i ∈ visible_from (S k) vis ↔ ∃ j, i = k + S j ∧ vis !! j = Some true)
      as IH'.
    { rewrite IH. by setoid_rewrite Nat.add_succ_r. }
    destruct b.
    + rewrite elem_of_cons, IH'. split.
      * intros [->|(j & -> & Hj)]; [exists 0|exists (S j)]; split; done || lia.
      * intros ([|j] & -> & Hj); [left; lia|right; by exists j].
    + rewrite IH'. split.
      * intros (j & -> & Hj). by exists (S j).
      * intros ([|j] & -> & Hj); [done|by exists j].
Qed.

(** Hiding every object of the document leaves no flag set. *)
Lemma hide_all (v : list bool) :
  foldl (λ v o, <[o := false]> v) v (seq 0 (length v)) = replicate (length v) false.
Proof.
  apply list_eq; intros i. rewrite lookup_foldl_insert.
  destruct (decide (i < length v)) as [Hlt|Hge].
  - rewrite decide_True by (apply elem_of_seq; lia).
    destruct (lookup_lt_is_Some_2 v i Hlt) as [y ->].
    by rewrite lookup_replicate_2.
  - rewrite decide_False by (rewrite elem_of_seq; lia).
    rewrite lookup_ge_None_2 by lia.
    symmetry. apply lookup_ge_None_2. rewrite length_replicate. lia.
Qed.

(** Hiding the target again and showing the remembered objects gives
    back the flags the loop started from. *)
Lemma restore_visible (v : list bool) (obj : nat) :
  foldl (λ v o, <[o := true]> v)
        (<[obj := false]> (only_visible obj (length v))) (visible_from 0 v) = v.
Proof.
  apply list_eq; intros i. rewrite lookup_foldl_insert.
  assert (<[obj := false]> (only_visible obj (length v)) !! i
          = (λ _, false) <$> v !! i) as ->.
  { unfold only_visible. rewrite list_insert_insert_eq.
    destruct (decide (i < length v)) as [Hlt|Hge].
    - destruct (lookup_lt_is_Some_2 v i Hlt) as [y ->]. cbn.
      destruct (decide (i = obj)) as [->|Hne].
      + rewrite list_lookup_insert_eq; [done|by rewrite length_replicate].
      + rewrite list_lookup_insert_ne by done. by rewrite lookup_replicate_2.
    - rewrite (lookup_ge_None_2 v) by lia.
      apply lookup_ge_None_2. rewrite length_insert, length_replicate. lia. }
  destruct (decide (i ∈ visible_from 0 v)) as [Hin|Hnin].
  - apply elem_of_visible_from in Hin as (j & -> & Hj). cbn. by rewrite Hj.
  - destruct (v !! i) as [[]|] eqn:Hi; [|done..].
    destruct Hnin. apply elem_of_visible_from. by exists i.
Qed.

(** When the target is an object of the document, it is the only one
    [only_visible] shows. *)
Lemma only_visible_sole (obj n i : nat) :
  obj < n → only_visible obj n !! i = Some true ↔ i = obj.
Proof.
  intros Hobj. unfold only_visible. split.
  - intros Hi. destruct (decide (i = obj)) as [|Hne]; [done|].
    rewrite list_lookup_insert_ne in Hi by done.
    by apply lookup_replicate in Hi as [? _].
  - intros ->. rewrite list_lookup_insert_eq; [done|by rewrite length_replicate].
Qed.

Lemma bind_set_visible {B} (o : nat) (b : bool) (k : unit → M world B) (w : world) :
  (set_visible o b ≫= k) w = k tt (set_Visibility (<[o := b]>) w).
Proof. reflexivity. Qed.

Lemma bind_for_each_set_visible {B} (xs : list nat) (b : bool)
    (k : unit → M world B) (w : world) :
  (for_each xs (λ o, set_visible o b) ≫= k) w =
  k tt (set_Visibility (λ v, foldl (λ v o, <[o := b]> v) v xs) w).
Proof. by rewrite bind_run, for_each_set_visible. Qed.

Lemma bind_saveImage {B} (h : Host) (path background : string)
    (k : unit → M world B) (w : world) :
  (saveImage h path background ≫= k) w =
  match gui_raises h (SaveImage path background) with
  | Some e => (inl e, w)
  | None => k tt (set_shots (λ l, l ++ [(path, Visibility w)]) w)
  end.
Proof.
  rewrite bind_run. unfold saveImage. rewrite bind_gui.
  by destruct (gui_raises h _).
Qed.

(** C3, as the code has it.  [__makePicture] shows only its target
    while the viewport saves the images; when it returns, every flag
    is back at the value it had before the call; when one of the host
    calls raises, nothing is restored and the document is left with
    only the target shown. *)
Theorem makePicture_visibility (h : Host) (cls : CommandPathSanity)
    (obj : nat) (imageName : string) (w : world) :
  let n := length (Visibility w) in
  let run := makePicture h cls obj imageName w in
  (∃ new, shots run.2 = shots w ++ new ∧
          ∀ shot, shot ∈ new → shot.2 = only_visible obj n) ∧
  (obj < n → ∀ i, only_visible obj n !! i = Some true ↔ i = obj) ∧
  match run.1 with
  | inr _ => Visibility run.2 = Visibility w
  | inl _ => Visibility run.2 = only_visible obj n
  end.
Proof.
  intros n run. split; [|split; [intros; by apply only_visible_sole|]];
  subst run; unfold makePicture;
  rewrite !bind_gets, bind_for_each_set_visible, bind_set_visible.
  - assert (∀ w' r, shots w' = shots w →
      ∃ new, shots (r : exn + string, w').2 = shots w ++ new ∧
             ∀ shot, shot ∈ new → shot.2 = only_visible obj n) as Hnone.
    { intros w' r Hw'. cbn. rewrite Hw'. exists []. split; [by rewrite app_nil_r|].
      by intros shot ?%elem_of_nil. }
    do 12 (host_call @bind_gui @bind_saveImage; [by apply Hnone|]).
    host_call @bind_gui @bind_saveImage.
    { eexists [_]. split; [done|]. intros shot ->%list_elem_of_singleton.
      cbn. by rewrite hide_all. }
    assert (∀ w' r, shots w' = shots w ++
        [((outputpath cls +:+ "/" +:+ imageName) +:+ ".png",
          only_visible obj n);
         ((outputpath cls +:+ "/" +:+ imageName) +:+ "_t.png",
          only_visible obj n)] →
      ∃ new, shots (r : exn + string, w').2 = shots w ++ new ∧
             ∀ shot, shot ∈ new → shot.2 = only_visible obj n) as Hdone.
    { intros w' r Hw'. cbn. rewrite Hw'. eexists. split; [done|].
      by intros shot [->| ->%list_elem_of_singleton]%elem_of_cons. }
    do 2 (host_call @bind_gui @bind_saveImage; [apply Hdone; cbn; rewrite hide_all, <-app_assoc; done|]).
    rewrite bind_set_visible, bind_for_each_set_visible.
    apply Hdone. cbn. by rewrite hide_all, <-app_assoc.
  - do 13 (host_call @bind_gui @bind_saveImage; [cbn; by rewrite hide_all|]).
    do 2 (host_call @bind_gui @bind_saveImage; [cbn; by rewrite hide_all|]).
    rewrite bind_set_visible, bind_for_each_set_visible.
    cbn. rewrite hide_all. apply restore_visible.
Qed.

(** The set and restore of [__makePicture] is not a scope: with a
    viewport that fails to save, the second object of a document whose
    two objects were shown stays hidden after the call. *)
Lemma makePicture_raise_not_restored :
  ¬ ∀ (h : Host) (cls : CommandPathSanity) (obj : nat) (imageName : string)
      (w : world),
      Visibility (makePicture h cls obj imageName w).2 = Visibility w.
Proof.
  intros Hrestored.
  specialize (Hrestored host_no_image sample_class 0 "baseimage"
    {| squawkItems := []; Visibility := [true; true]; files := ∅;
       stdout := []; shots := []; clock_now := 0%N |}).
  vm_compute in Hrestored. discriminate.
Qed.

(** ** The publisher *)

Lemma string_app_inj (p a b : string) : p +:+ a = p +:+ b → a = b.
Proof. induction p as [|c p IH]; cbn; [done|]. intros [=]. auto. Qed.

(** The markup and the HTML go to different files. *)
Lemma reportraw_ne_reporthtml (cls : CommandPathSanity) :
  reporthtml cls ≠ reportraw cls.
Proof. unfold reporthtml, reportraw. by intros ?%string_app_inj. Qed.

Lemma str_int_32512 (z : Z) : str_int z = "32512" ↔ z = 32512%Z.
Proof.
  split; [|by intros ->].
  change "32512" with (str_int 32512). apply (inj pretty).
Qed.

(** C4. When [os.system] answers 32512 for the converter command, the
    report run returns [None] in place of the HTML path and the markup
    it rendered is in [setupreport.asciidoc] under the output directory. *)
Theorem report_converter_absent (h : Host) (cls : CommandPathSanity)
    (data : pyval) (w : world) (text : string) (html : option string) :
  render h (squawkItems w) data = inr text →
  writable h (reportraw cls) = true →
  os_system h ("asciidoctor " +:+ reportraw cls +:+ " -o " +:+ reporthtml cls)
    (<[reportraw cls := text]> (files w)) = (inr 32512%Z, html) →
  let run := report h cls data w in
  run.1 = inr None ∧
  files run.2 !! (outputpath cls +:+ "/setupreport.asciidoc") = Some text.
Proof.
  intros Hrender Hwritable Hsystem run. subst run.
  unfold report. rewrite bind_gets, Hrender. cbn [of_result].
  rewrite bind_run. cbn [ret]. unfold publish.
  rewrite bind_run, write_file_text, Hwritable. unfold try_except.
  rewrite bind_run. unfold system. cbn [files set_files]. rewrite Hsystem.
  fold (reportraw cls).
  destruct html as [page|]; cbv beta iota;
    rewrite (bool_decide_eq_true_2 (str_int 32512 = "32512")) by done;
    unfold print; rewrite bind_modify; unfold mret, M_ret, ret; cbn;
    rewrite ?lookup_insert_ne by apply reportraw_ne_reporthtml;
    by rewrite lookup_insert_eq.
Qed.

(** With any other status the path of the HTML file is returned. *)
Lemma report_converter_ran (h : Host) (cls : CommandPathSanity)
    (text : string) (w : world) (status : Z) (html : option string) :
  writable h (reportraw cls) = true →
  os_system h ("asciidoctor " +:+ reportraw cls +:+ " -o " +:+ reporthtml cls)
    (<[reportraw cls := text]> (files w)) = (inr status, html) →
  status ≠ 32512%Z →
  (publish h cls text w).1 = inr (Some (reporthtml cls)).
Proof.
  intros Hwritable Hsystem Hstatus. unfold publish.
  rewrite bind_run, write_file_text, Hwritable. unfold try_except.
  rewrite bind_run. unfold system. cbn [files set_files]. rewrite Hsystem.
  destruct html as [page|]; cbv beta iota;
    by rewrite bool_decide_eq_false_2 by (by rewrite str_int_32512).
Qed.

Lemma report_converter_absent_witness :
  (report host_no_converter sample_class sample_data sample_summary.2).1
    = inr None ∧
  files (report host_no_converter sample_class sample_data sample_summary.2).2
    !! "/tmp/out/setupreport.asciidoc" = Some sample_text.
Proof.
  apply (report_converter_absent host_no_converter sample_class sample_data
           sample_summary.2 sample_text None);
    vm_compute; reflexivity.
Defined.

(** ** Dictionaries *)

Lemma dict_get_set (d : dict) (k k' : string) (v : pyval) :
  dict_get (dict_set d k v) k' = if decide (k' = k) then Some v else dict_get d k'.
Proof.
  induction d as [|[k0 v0] d IH]; cbn.
  - by destruct (decide (k' = k)).
  - destruct (decide (k = k0)) as [->|Hk]; cbn.
    + by destruct (decide (k' = k0)).
    + destruct (decide (k' = k0)) as [->|Hk'].
      * by rewrite decide_False by done.
      * done.
Qed.

(** ** The output section *)

Lemma bind_data_set {B} (k : string) (v : pyval)
    (f : unit → M (dict * world) B) (data : dict) (w : world) :
  (data_set k v ≫= f) (data, w) = f tt (dict_set data k v, w).
Proof. reflexivity. Qed.

Lemma bind_liftW {A B} (m : M world A) (f : A → M (dict * world) B)
    (data : dict) (w : world) :
  (liftW m ≫= f) (data, w) =
  match m w with
  | (inr a, w') => f a (data, w')
  | (inl e, w') => (inl e, (data, w'))
  end.
Proof. rewrite bind_run. unfold liftW. by destruct (m w) as [[e|a] w']. Qed.

(** The loop over the operations cannot raise, touches only the entry
    [optionalstops] and leaves the world alone. *)
Lemma outputData_stops (ops : list Operation) (data : dict) (w : world) :
  ∃ data', for_each ops outputData_stop (data, w) = (inr tt, (data', w)) ∧
           ∀ k, k ≠ "optionalstops" → dict_get data' k = dict_get data k.
Proof.
  revert data. induction ops as [|op ops IH]; intros data; [by exists data|].
  cbn [for_each]. rewrite bind_run.
  assert (∃ data1, outputData_stop op (data, w) = (inr tt, (data1, w)) ∧
            ∀ k, k ≠ "optionalstops" → dict_get data1 k = dict_get data k)
    as (data1 & -> & Hdata1).
  { unfold outputData_stop. destruct (op_Proxy op), (op_Stop op);
      try (by exists data).
    eexists. split; [reflexivity|]. intros k Hk.
    by rewrite dict_get_set, decide_False. }
  destruct (IH data1) as (data' & -> & Hdata').
  exists data'. split; [done|]. intros k Hk. by rewrite Hdata', Hdata1.
Qed.

Lemma decide_decode (h : Host) (content : string) :
  (∃ text, decode h content = Some text) ∨ decode h content = None.
Proof. destruct (decode h content); [left; by eexists|by right]. Qed.


Lemma dict_get_set_eq (d : dict) (k : string) (v : pyval) :
  dict_get (dict_set d k v) k = Some v.
Proof. by rewrite dict_get_set, decide_True. Qed.

Lemma dict_get_set_ne (d : dict) (k k' : string) (v : pyval) :
  k' ≠ k → dict_get (dict_set d k v) k' = dict_get d k'.
Proof. intros. by rewrite dict_get_set, decide_False. Qed.

Lemma dict_set_set (d : dict) (k : string) (v v' : pyval) :
  dict_set (dict_set d k v) k v' = dict_set d k v'.
Proof.
  induction d as [|[k0 v0] d IH]; cbn.
  - by rewrite decide_True.
  - destruct (decide (k = k0)) as [->|Hk]; cbn.
    + by rewrite decide_True.
    + by rewrite decide_False, IH.
Qed.

Lemma dict_set_same (d : dict) (k : string) (v : pyval) :
  dict_get d k = Some v → dict_set d k v = d.
Proof.
  induction d as [|[k0 v0] d IH]; cbn; [done|].
  destruct (decide (k = k0)) as [->|Hk]; [by intros [= ->]|].
  intros Hget. by rewrite IH.
Qed.

(** ** The tool section *)

Lemma bind_tooldata_set {B} (key k : string) (v : pyval)
    (f : unit → M (dict * world) B) (data tooldata : dict) (w : world) :
  (tooldata_set key k v ≫= f) (dict_set data key (VDict tooldata), w) =
  f tt (dict_set data key (VDict (dict_set tooldata k v)), w).
Proof.
  rewrite bind_run. unfold tooldata_set. rewrite bind_run.
  unfold tooldata_get, tooldata_put. rewrite dict_get_set_eq.
  cbn. by rewrite dict_set_set.
Qed.

Lemma bind_tooldata_setdefault {B} (key k : string) (v : pyval)
    (f : pyval → M (dict * world) B) (data tooldata : dict) (w : world) :
  (tooldata_setdefault key k v ≫= f) (dict_set data key (VDict tooldata), w) =
  f (dict_setdefault tooldata k v).2
    (dict_set data key (VDict (dict_setdefault tooldata k v).1), w).
Proof.
  rewrite bind_run. unfold tooldata_setdefault. rewrite bind_run.
  unfold tooldata_get, tooldata_put. rewrite dict_get_set_eq.
  destruct (dict_setdefault tooldata k v) as [tooldata' r].
  cbv beta iota. rewrite bind_modify. cbn. by rewrite dict_set_set.
Qed.

Lemma ops_is_list_set (tooldata : dict) (k : string) (v : pyval) :
  k ≠ "ops" → ops_is_list tooldata → ops_is_list (dict_set tooldata k v).
Proof.
  intros Hk. unfold ops_is_list. by rewrite dict_get_set_ne.
Qed.

Lemma tool_table_set (data : dict) (key : string) (tooldata : dict) :
  tool_table data → ops_is_list tooldata →
  tool_table (dict_set data key (VDict tooldata)).
Proof.
  intros Hdata Htool key' v. rewrite dict_get_set.
  destruct (decide (key' = key)); [|by apply Hdata].
  intros [= <-]. by exists tooldata.
Qed.

Lemma shape_unset_set (data : dict) (key : string) (tooldata : dict) :
  (dict_get tooldata "BitShape" = None ∨
   dict_get tooldata "BitShape" = Some (VStr "")) →
  shape_unset data → shape_unset (dict_set data key (VDict tooldata)).
Proof.
  intros Htool Hdata key' tooldata'. rewrite dict_get_set.
  destruct (decide (key' = key)); [|by apply Hdata].
  by intros [= <-].
Qed.

Lemma bind_tooldata_ops_append {B} (key : string) (v : pyval)
    (f : unit → M (dict * world) B) (data tooldata : dict) (w : world) :
  ops_is_list tooldata →
  ∃ tooldata',
    (tooldata_ops_append key v ≫= f) (dict_set data key (VDict tooldata), w)
      = f tt (dict_set data key (VDict tooldata'), w) ∧
    ops_is_list tooldata' ∧
    ∀ k, k ≠ "ops" → dict_get tooldata' k = dict_get tooldata k.
Proof.
  intros Hops. rewrite bind_run. unfold tooldata_ops_append.
  rewrite bind_tooldata_setdefault. unfold dict_setdefault.
  destruct Hops as [Hnone|[l Hl]].
  - rewrite Hnone. cbn [fst snd].
    rewrite <-(bind_run (tooldata_set key "ops" _) f), bind_tooldata_set.
    eexists. split; [reflexivity|]. split.
    + right. eexists. apply dict_get_set_eq.
    + intros k Hk. by rewrite !dict_get_set_ne.
  - rewrite Hl. cbn [fst snd].
    rewrite <-(bind_run (tooldata_set key "ops" _) f), bind_tooldata_set.
    eexists. split; [reflexivity|]. split.
    + right. eexists. apply dict_get_set_eq.
    + intros k Hk. by rewrite !dict_get_set_ne.
Qed.

(** The result of the inner loop is [ops_used]; the loop changes the
    entry [ops] of the controller's dictionary and nothing else. *)
Lemma toolData_ops_run (key : string) (TC : ToolController)
    (ops : list Operation) (used : bool) (data tooldata : dict) (w : world) :
  ops_is_list tooldata →
  ∃ tooldata',
    toolData_ops key TC ops used (dict_set data key (VDict tooldata), w)
      = (ops_used TC ops used, (dict_set data key (VDict tooldata'), w)) ∧
    ops_is_list tooldata' ∧
    ∀ k, k ≠ "ops" → dict_get tooldata' k = dict_get tooldata k.
Proof.
  revert used tooldata. induction ops as [|op ops IH]; intros used tooldata Hops.
  { by exists tooldata. }
  cbn [toolData_ops ops_used]. rewrite bind_run.
  destruct (op_ToolController op) as [tc|]; [|by exists tooldata].
  cbn [of_result ret]. destruct (decide (tc = tc_oid TC)) as [Htc|Htc]; [|by apply IH].
  destruct (bind_tooldata_ops_append key
    (VDict [("Operation", VStr (op_Label op));
            ("ToolController", VStr (tc_Name TC));
            ("Feed", VStr (quantity_str (HorizFeed TC)));
            ("Speed", VStr (str_float (SpindleSpeed TC)))])
    (λ _, toolData_ops key TC ops true) data tooldata w Hops)
    as (tooldata1 & Happend & Hops1 & Hsame1).
  destruct (IH true tooldata1 Hops1) as (tooldata' & Hrun & Hops' & Hsame).
  exists tooldata'. split; [by rewrite Happend|]. split; [done|].
  intros k Hk. by rewrite Hsame, Hsame1.
Qed.

Lemma ops_used_false (TC : ToolController) (ops : list Operation) (used : bool) :
  ops_used TC ops used = inr false ↔
  used = false ∧ forallb (other_controller TC) ops = true.
Proof.
  revert used. induction ops as [|op ops IH]; intros used; cbn.
  - split; [by intros [= ->]|by intros [-> _]].
  - unfold other_controller at 1.
    destruct (op_ToolController op) as [tc|]; [|by split; [|intros [_ ?]]].
    rewrite IH. destruct (decide (tc = tc_oid TC)) as [Htc|Htc].
    + rewrite bool_decide_eq_true_2 by done. cbn. by split; intros [? ?].
    + by rewrite bool_decide_eq_false_2 by done.
Qed.

(** Writing a file succeeds when the path can be written and there is
    something to write; it never touches the squawk list. *)
Lemma write_file_run (h : Host) (path : string) (content : option string)
    (w : world) :
  ∃ e w', squawkItems w' = squawkItems w ∧
    write_file h path content w =
    (if writable h path && bool_decide (is_Some content) then inr tt else inl e,
     w').
Proof.
  unfold write_file. destruct (writable h path); cbn [andb].
  - rewrite bind_modify. destruct content as [content|].
    + rewrite bool_decide_eq_true_2 by done.
      exists IndexError. eexists. split; [|reflexivity]. done.
    + rewrite bool_decide_eq_false_2 by (by intros [? ?]).
      do 2 eexists. split; [|reflexivity]. done.
  - do 2 eexists. split; [|reflexivity]. done.
Qed.

Lemma bind_squawk_when {B} (h : Host) (cls : CommandPathSanity) (c : bool)
    (note squawkType : string) (f : unit → M (dict * world) B)
    (data : dict) (w : world) :
  ((if c then liftW (squawk h cls "PathSanity" note None squawkType)
    else ret tt) ≫= f) (data, w) =
  f tt (data, if c then (squawk h cls "PathSanity" note None squawkType w).2
              else w).
Proof. by destruct c. Qed.

Lemma squawkItems_squawk_when (h : Host) (cls : CommandPathSanity) (c : bool)
    (note squawkType : string) (w : world) :
  squawkType ∈ squawk_types →
  squawkItems (if c then (squawk h cls "PathSanity" note None squawkType w).2
               else w) =
  squawkItems w ++ (if c then [PathSanity_record h cls note squawkType] else []).
Proof.
  intros Hty. destruct c; [|by rewrite app_nil_r].
  rewrite squawk_appends. cbn. by rewrite bool_decide_eq_true_2.
Qed.

Lemma ERROR_squawk_type : "ERROR" ∈ squawk_types.
Proof. unfold squawk_types. set_solver. Qed.

Lemma WARNING_squawk_type : "WARNING" ∈ squawk_types.
Proof. unfold squawk_types. set_solver. Qed.

(** One pass of the loop of [__toolData]: the table stays a table, no
    shape gets under the key [BitShape], and the squawks added are
    those of [toolData_TC_squawks]. *)
Lemma toolData_TC_run (h : Host) (cls : CommandPathSanity) (obj : Job)
    (TC : ToolController) (data : dict) (w : world) :
  tool_table data →
  toolData_TC_post h cls obj TC data w (toolData_TC h cls obj TC (data, w)).
Proof.
  intros Htable. unfold toolData_TC_post, toolData_TC, toolData_TC_squawks.
  destruct (BitBody (Tool TC)); cbn [negb];
    [|cbn; by rewrite app_nil_r].
  set (key := str_int (ToolNumber TC)).
  rewrite bind_modify.
  (* tooldata = data.setdefault(str(TC.ToolNumber), {}) *)
  assert (∃ data1 tooldata0,
    (dict_setdefault data key (VDict [])).1 = dict_set data1 key (VDict tooldata0) ∧
    tool_table data1 ∧ ops_is_list tooldata0 ∧
    (shape_unset data → shape_unset data1 ∧
       (dict_get tooldata0 "BitShape" = None ∨
        dict_get tooldata0 "BitShape" = Some (VStr ""))) ∧
    shape_clash TC data =
      match dict_get tooldata0 "BitShape" with
      | Some bitshape =>
          negb (py_eq_str bitshape "" || py_eq_str bitshape (BitShape (Tool TC)))
      | None => false
      end) as (data1 & tooldata0 & -> & Htable1 & Hops0 & Hunset1 & ->).
  { unfold dict_setdefault, shape_clash. fold key.
    destruct (dict_get data key) as [v|] eqn:Hkey.
    - destruct (Htable key v Hkey) as (tooldata0 & -> & Hops0).
      exists data, tooldata0. rewrite dict_set_same by done.
      split; [done|]. split; [done|]. split; [done|]. split; [|done].
      intros Hunset. split; [done|]. by apply (Hunset key).
    - exists data, []. split; [done|]. split; [done|]. split; [by left|].
      split; [|done]. intros Hunset. split; [done|]. by left. }
  (* bitshape = tooldata.setdefault('BitShape', "") *)
  rewrite bind_tooldata_setdefault.
  assert (∃ tooldata1,
    (dict_setdefault tooldata0 "BitShape" (VStr "")).1 = tooldata1 ∧
    ops_is_list tooldata1 ∧
    (dict_get tooldata0 "BitShape" = None ∨
     dict_get tooldata0 "BitShape" = Some (VStr "") →
     dict_get tooldata1 "BitShape" = Some (VStr "")) ∧
    negb (py_eq_str (dict_setdefault tooldata0 "BitShape" (VStr "")).2 ""
          || py_eq_str (dict_setdefault tooldata0 "BitShape" (VStr "")).2
               (BitShape (Tool TC))) =
      match dict_get tooldata0 "BitShape" with
      | Some bitshape =>
          negb (py_eq_str bitshape "" || py_eq_str bitshape (BitShape (Tool TC)))
      | None => false
      end) as (tooldata1 & -> & Hops1 & Hshape1 & ->).
  { unfold dict_setdefault.
    destruct (dict_get tooldata0 "BitShape") as [bitshape|] eqn:Hshape; cbn [fst snd].
    - exists tooldata0. split; [done|]. split; [done|]. split; [|done].
      rewrite Hshape. by intros [?|?].
    - eexists. split; [done|]. split; [by apply ops_is_list_set|].
      split; [|done]. intros _. apply dict_get_set_eq. }
  assert (shape_unset data →
          shape_unset data1 ∧ dict_get tooldata1 "BitShape" = Some (VStr ""))
    as Hunset.
  { intros Hu. destruct (Hunset1 Hu). auto. }
  clear Hops0 Hunset1 Hshape1.
  set (clash := match dict_get tooldata0 "BitShape" with
                | Some bitshape => _ | None => false end).
  match goal with
  | |- _ ∧ _ ∧ _ = _ ++ ?l => set (new := l)
  end.
  (* every way out of the pass leaves the table in this form *)
  assert (∀ (r : exn + unit) tooldata' w',
    ops_is_list tooldata' →
    dict_get tooldata' "BitShape" = dict_get tooldata1 "BitShape" →
    squawkItems w' = squawkItems w ++ new →
    let run := (r, (dict_set data1 key (VDict tooldata'), w')) in
    tool_table run.2.1 ∧ (shape_unset data → shape_unset run.2.1) ∧
    squawkItems run.2.2 = squawkItems w ++ new) as Hexit.
  { intros r tooldata' w' Hops' Hshape' Hw'. cbn. split; [|split; [|done]].
    - by apply tool_table_set.
    - intros Hu. destruct (Hunset Hu) as [Hu1 Hs1].
      apply shape_unset_set; [|done]. right. by rewrite Hshape'. }
  clearbody clash. subst new.
  rewrite bind_squawk_when.
  pose proof (squawkItems_squawk_when h cls clash (multiple_tools TC) "ERROR" w
                ERROR_squawk_type) as Hw1.
  unfold multiple_tools in Hw1 at 1. fold key in Hw1.
  set (w1 := if clash then _ else w) in *. clearbody w1.
  rewrite !bind_tooldata_set, bind_run.
  destruct (getBitThumbnail (Tool TC)) as [e|imagedata]; cbn [of_result raise ret].
  { apply Hexit.
    - repeat (apply ops_is_list_set; [done|]). done.
    - by rewrite !dict_get_set_ne.
    - by rewrite Hw1, app_nil_r. }
  rewrite bind_tooldata_set, bind_squawk_when.
  pose proof (squawkItems_squawk_when h cls (float_is_zero (Value (HorizFeed TC)))
                (no_feedrate TC) "WARNING" w1 WARNING_squawk_type) as Hw2.
  unfold no_feedrate in Hw2 at 1.
  set (w2 := if float_is_zero (Value (HorizFeed TC)) then _ else w1) in *.
  clearbody w2.
  rewrite bind_tooldata_set, bind_squawk_when.
  pose proof (squawkItems_squawk_when h cls (float_is_zero (SpindleSpeed TC))
                (no_spindlespeed TC) "WARNING" w2 WARNING_squawk_type) as Hw3.
  unfold no_spindlespeed in Hw3 at 1.
  set (w3 := if float_is_zero (SpindleSpeed TC) then _ else w2) in *.
  clearbody w3.
  assert (squawkItems w3 = squawkItems w ++
    (if clash then [PathSanity_record h cls (multiple_tools TC) "ERROR"] else []) ++
    (if float_is_zero (Value (HorizFeed TC))
     then [PathSanity_record h cls (no_feedrate TC) "WARNING"] else []) ++
    (if float_is_zero (SpindleSpeed TC)
     then [PathSanity_record h cls (no_spindlespeed TC) "WARNING"] else []) ++ [])
    as Hw.
  { by rewrite Hw3, Hw2, Hw1, app_nil_r, <-!app_assoc. }
  clear Hw1 Hw2 Hw3.
  rewrite bind_liftW.
  destruct (write_file_run h (outputpath cls +:+ "/T" +:+ key +:+ ".png")
              imagedata w3) as (e & w4 & Hw4 & ->).
  rewrite <-Hw4 in Hw. clear Hw4.
  destruct (writable h _ && bool_decide _) eqn:Hwritable; cbn [andb] in Hexit |- *.
  2:{ apply Hexit; [|by rewrite !dict_get_set_ne|done].
      repeat (apply ops_is_list_set; [done|]). done. }
  rewrite bind_tooldata_set, bind_run.
  match goal with
  | |- context [toolData_ops key TC _ false (dict_set data1 key (VDict ?td), ?w')] =>
      destruct (toolData_ops_run key TC (Operations_Group obj) false data1 td w')
        as (tooldata2 & -> & Hops2 & Hsame2)
  end.
  { repeat (apply ops_is_list_set; [done|]). done. }
  assert (dict_get tooldata2 "BitShape" = dict_get tooldata1 "BitShape") as Hshape2.
  { by rewrite Hsame2, !dict_get_set_ne. }
  clear Hsame2.
  pose proof (ops_used_false TC (Operations_Group obj) false) as Hused.
  destruct (ops_used TC (Operations_Group obj) false) as [e'|[|]].
  - assert (forallb (other_controller TC) (Operations_Group obj) = false) as Hnot.
    { apply not_true_is_false. intros Hall. destruct Hused as [_ Hback].
      by specialize (Hback (conj eq_refl Hall)). }
    rewrite Hnot in Hexit |- *. by apply Hexit.
  - assert (forallb (other_controller TC) (Operations_Group obj) = false) as Hnot.
    { apply not_true_is_false. intros Hall. destruct Hused as [_ Hback].
      by specialize (Hback (conj eq_refl Hall)). }
    rewrite Hnot in Hexit |- *. by apply Hexit.
  - destruct Hused as [Hall _]. destruct (Hall eq_refl) as [_ Hall'].
    rewrite Hall' in Hexit |- *.
    cbv beta iota. cbn [negb]. rewrite bind_tooldata_setdefault.
    unfold liftW. rewrite squawk_appends.
    apply Hexit.
    + unfold dict_setdefault. destruct Hops2 as [Hnone|[l Hl]].
      * rewrite Hnone. right. eexists. apply dict_get_set_eq.
      * rewrite Hl. by right; exists l.
    + rewrite <-Hshape2. unfold dict_setdefault.
      destruct (dict_get tooldata2 "ops"); cbn [fst]; [done|].
      by rewrite dict_get_set_ne.
    + cbn. rewrite Hw, bool_decide_eq_true_2 by apply WARNING_squawk_type.
      by rewrite app_nil_r, <-!app_assoc.
Qed.

Lemma shape_unset_no_clash (TC : ToolController) (data : dict) :
  shape_unset data → shape_clash TC data = false.
Proof.
  intros Hunset. unfold shape_clash.
  destruct (dict_get data _) as [[| |tooldata| |]|] eqn:Hkey; try done.
  destruct (Hunset _ _ Hkey) as [-> | ->]; [done|].
  cbn. by rewrite bool_decide_eq_true_2.
Qed.

Lemma toolData_TC_squawks_severity (h : Host) (cls : CommandPathSanity)
    (obj : Job) (TC : ToolController) (data : dict) :
  shape_clash TC data = false →
  Forall (λ record, record_field record "squawkType" = Some "WARNING")
         (toolData_TC_squawks h cls obj TC data).
Proof.
  intros Hclash. unfold toolData_TC_squawks. rewrite Hclash.
  destruct (BitBody (Tool TC)); [|done].
  destruct (getBitThumbnail (Tool TC)); [done|]. cbn [app].
  repeat (apply Forall_app; split);
    match goal with |- Forall _ (if ?c then _ else _) => destruct c end;
    by repeat constructor.
Qed.

(** The loop of [__toolData] over any list of controllers, from a table
    without shapes: only warnings are added. *)
Lemma toolData_loop (h : Host) (cls : CommandPathSanity) (obj : Job)
    (TCs : list ToolController) (data : dict) (w : world) :
  tool_table data → shape_unset data →
  ∃ new,
    squawkItems (for_each TCs (toolData_TC h cls obj) (data, w)).2.2
      = squawkItems w ++ new ∧
    Forall (λ record, record_field record "squawkType" = Some "WARNING") new.
Proof.
  revert data w. induction TCs as [|TC TCs IH]; intros data w Htable Hunset.
  { exists []. by rewrite app_nil_r. }
  cbn [for_each]. rewrite bind_run.
  destruct (toolData_TC_run h cls obj TC data w Htable) as (Htable' & Hunset' & Hw').
  destruct (toolData_TC h cls obj TC (data, w)) as [[e|[]] [data' w']];
    cbn [fst snd] in *.
  - eexists. split; [done|].
    by apply toolData_TC_squawks_severity, shape_unset_no_clash.
  - destruct (IH data' w' Htable' (Hunset' Hunset)) as (new & -> & Hnew).
    eexists. split; [by rewrite Hw', <-app_assoc|].
    apply Forall_app. split; [|done].
    by apply toolData_TC_squawks_severity, shape_unset_no_clash.
Qed.

(** Whatever the job, [__toolData] adds warnings and nothing else: the
    test for a tool number shared by two shapes reads the key
    [BitShape], which only ever holds the empty string, the shape being
    stored under [bitShape]. *)
Lemma toolData_only_warns (h : Host) (cls : CommandPathSanity) (obj : Job)
    (w : world) :
  ∃ new,
    squawkItems (toolData h cls obj w).2 = squawkItems w ++ new ∧
    Forall (λ record, record_field record "squawkType" = Some "WARNING") new.
Proof.
  destruct (toolData_loop h cls obj (ToolControllers obj) [] w)
    as (new & Hnew & Hwarn); [done..|].
  exists new. split; [|done]. unfold toolData, summarizer.
  by destruct (for_each _ _ _) as [[e|[]] [data' w']].
Qed.

(** C1, at a job that breaks it.  Two controllers share the tool number
    1, one with an end mill and one with a ball end, both used and with
    feed and speed.  [__toolData] files both under "1", keeps the empty
    [BitShape] beside the [bitShape] of the last one, and adds no squawk
    at all, so no ERROR that names tool number 1. *)
Theorem toolData_shared_number_unreported :
  let run := toolData host_ok sample_class two_shapes_job sample_world in
  (∃ tooldata,
     run.1 = inr (VDict [("1", VDict tooldata)]) ∧
     dict_get tooldata "BitShape" = Some (VStr "") ∧
     dict_get tooldata "bitShape" = Some (VStr "ballend.fcstd")) ∧
  squawkItems run.2 = [] ∧
  of_severity "ERROR" (appended sample_world run.2) = [].
Proof.
  cbv zeta. split; [|by vm_compute].
  eexists. split; [vm_compute; reflexivity|]. by vm_compute.
Qed.

Lemma of_severity_app (squawkType : string) (l1 l2 : list pyval) :
  of_severity squawkType (l1 ++ l2)
  = of_severity squawkType l1 ++ of_severity squawkType l2.
Proof. apply filter_app. Qed.

Lemma appended_app (w w' : world) (new : list pyval) :
  squawkItems w' = squawkItems w ++ new → appended w w' = new.
Proof. intros Hw'. unfold appended. by rewrite Hw', drop_app_length. Qed.

(** C6, as the code has it.  For a controller with a tool of the new
    style whose thumbnail is there, zero feed and zero speed, one pass
    of the loop adds the warning about the feedrate and then the one
    about the spindle speed, both naming the controller's label.  A
    third warning, that the controller is not used, follows exactly
    when there is a thumbnail, its file can be written and every
    operation has a tool controller that is another one; with an
    operation that uses the controller the two are all the warnings. *)
Theorem toolData_zero_feed_and_speed (h : Host) (cls : CommandPathSanity)
    (obj : Job) (TC : ToolController) (data : dict) (w : world)
    (imagedata : option string) :
  tool_table data →
  BitBody (Tool TC) = true →
  getBitThumbnail (Tool TC) = inr imagedata →
  float_is_zero (Value (HorizFeed TC)) = true →
  float_is_zero (SpindleSpeed TC) = true →
  let run := toolData_TC h cls obj TC (data, w) in
  let warnings := of_severity "WARNING" (appended w run.2.2) in
  let feedrate := PathSanity_record h cls
    ("Tool Controller '" +:+ tc_Label TC +:+ "' has no feedrate") "WARNING" in
  let spindlespeed := PathSanity_record h cls
    ("Tool Controller '" +:+ tc_Label TC +:+ "' has no spindlespeed") "WARNING" in
  let unused := PathSanity_record h cls
    ("Tool Controller '" +:+ tc_Label TC +:+ "' is not used") "WARNING" in
  warnings =
    [feedrate; spindlespeed] ++
    (if writable h (outputpath cls +:+ "/T" +:+ str_int (ToolNumber TC) +:+ ".png")
        && bool_decide (is_Some imagedata)
        && forallb (other_controller TC) (Operations_Group obj)
     then [unused] else []) ∧
  (∀ op, op ∈ Operations_Group obj → op_ToolController op = Some (tc_oid TC) →
     warnings = [feedrate; spindlespeed]).
Proof.
  intros Htable Hbody Hthumb Hfeed Hspeed run warnings feedrate spindlespeed unused.
  destruct (toolData_TC_run h cls obj TC data w Htable) as (_ & _ & Hw').
  assert (warnings = [feedrate; spindlespeed] ++
    (if writable h (outputpath cls +:+ "/T" +:+ str_int (ToolNumber TC) +:+ ".png")
        && bool_decide (is_Some imagedata)
        && forallb (other_controller TC) (Operations_Group obj)
     then [unused] else [])) as Hwarnings.
  { subst warnings run. rewrite (appended_app _ _ _ Hw').
    unfold toolData_TC_squawks. rewrite Hbody, Hthumb, Hfeed, Hspeed.
    rewrite of_severity_app.
    assert (of_severity "WARNING"
              (if shape_clash TC data
               then [PathSanity_record h cls (multiple_tools TC) "ERROR"]
               else []) = []) as -> by (by destruct (shape_clash TC data)).
    cbn [app]. by destruct (_ && _ && _). }
  split; [done|]. intros op Hop Hused. rewrite Hwarnings.
  assert (forallb (other_controller TC) (Operations_Group obj) = false) as ->.
  { apply not_true_is_false. intros Hall.
    rewrite forallb_forall in Hall. apply list_elem_of_In, Hall in Hop.
    unfold other_controller in Hop. rewrite Hused in Hop.
    by rewrite bool_decide_eq_true_2 in Hop. }
  by rewrite andb_false_r.
Qed.

(** The controller of [one_operation_job] with feed and speed taken
    away: used by the operation, it gets the two warnings. *)
Lemma toolData_zero_feed_and_speed_witness :
  of_severity "WARNING"
    (appended sample_world
       (toolData_TC host_ok sample_class one_operation_job
          (sample_TC 2 "TC1" 1 "endmill.fcstd" 0 0) ([], sample_world)).2.2)
  = [PathSanity_record host_ok sample_class
       "Tool Controller 'TC1' has no feedrate" "WARNING";
     PathSanity_record host_ok sample_class
       "Tool Controller 'TC1' has no spindlespeed" "WARNING"].
Proof.
  refine (proj2 (toolData_zero_feed_and_speed host_ok sample_class
    one_operation_job (sample_TC 2 "TC1" 1 "endmill.fcstd" 0 0) []
    sample_world (Some "PNG") _ _ _ _ _) (sample_op 2) _ _).
  - by intros key v.
  - reflexivity.
  - reflexivity.
  - reflexivity.
  - reflexivity.
  - apply list_elem_of_here.
  - reflexivity.
Defined.

(** A controller with zero feed and zero speed does not always get
    exactly two warnings: the one of [idle_controller_job], which no
    operation uses, gets three. *)
Lemma toolData_idle_controller_three_warnings :
  ¬ ∀ (h : Host) (cls : CommandPathSanity) (obj : Job) (TC : ToolController)
      (w : world),
      TC ∈ ToolControllers obj →
      float_is_zero (Value (HorizFeed TC)) = true →
      float_is_zero (SpindleSpeed TC) = true →
      length (of_severity "WARNING" (appended w (toolData h cls obj w).2)) = 2.
Proof.
  intros Htwo.
  specialize (Htwo host_ok sample_class idle_controller_job
    (sample_TC 2 "TC1" 1 "endmill.fcstd" 0 0) sample_world).
  vm_compute in Htwo.
  assert (3 = 2) as Hthree; [|discriminate Hthree].
  apply Htwo; [apply list_elem_of_here|reflexivity..].
Qed.



(** ** The whole command *)

(** C2, at a job that breaks it.  The job has one tool controller and
    one operation, nothing fails while it is summarized, and yet the
    command raises: [__coolantData] files the mode of the operation
    under [coolantMode], [__report] reads [CoolantMode], and the
    [KeyError] leaves the command before any report file is written. *)
Theorem Activated_one_operation_raises :
  let run := Activated host_ok sample_class [one_operation_job] sample_world in
  (coolantData one_operation_job sample_world).1
    = inr (VDict [("items", VList [VDict [("opName", VStr "Profile");
                                          ("coolantMode", VStr "N/A")]])]) ∧
  run.1 = inl (KeyError "CoolantMode") ∧
  files run.2 !! reportraw sample_class = None.
Proof. cbv zeta. split; [|split]; by vm_compute. Qed.

(** Without operations the same job is reported. *)
Example Activated_no_operation_reports :
  let run := Activated host_ok sample_class
               [sample_job [sample_TC 2 "TC1" 1 "endmill.fcstd" 100 8000] [] ""]
               sample_world in
  run.1 = inr tt ∧ is_Some (files run.2 !! reportraw sample_class).
Proof. cbv zeta. split; [by vm_compute|]. vm_compute. by eexists. Qed.

(** ** The renderer *)

(** A report run leaves the squawk list as it found it. *)
Lemma report_keeps_squawks (h : Host) (cls : CommandPathSanity) (data : pyval)
    (w : world) :
  squawkItems (report h cls data w).2 = squawkItems w.
Proof.
  unfold report. rewrite bind_gets, bind_run.
  destruct (render h (squawkItems w) data) as [e|text]; [done|].
  cbn [of_result ret]. unfold publish.
  rewrite bind_run, write_file_text.
  destruct (writable h (reportraw cls)); [|done]. unfold try_except.
  rewrite bind_run. unfold system. cbn [files set_files].
  destruct (os_system h _ _) as [[e|status] [html|]]; cbv beta iota;
    try done; by destruct (bool_decide _).
Qed.


(** ** The coolant section and the report *)

Lemma summarizer_returns (init : dict) (body : M (dict * world) unit)
    (on_error : exn → M world unit) (w : world) :
  (∀ e w0, ∃ w1, on_error e w0 = (inr tt, w1)) →
  ∃ r data w',
    body (init, w) = (r, (data, w')) ∧
    ∃ w'', summarizer init body on_error w
           = (inr (VDict (match r with
                          | inr _ => data
                          | inl e => dict_set data "errors" (VExn e)
                          end)), w'').
Proof.
  intros Hhandler. unfold summarizer.
  destruct (body (init, w)) as [[e|[]] [data w']].
  - destruct (Hhandler e w') as [w1 ->].
    do 3 eexists. split; [reflexivity|]. by eexists.
  - do 3 eexists. split; [reflexivity|]. by eexists.
Qed.

Lemma silently_returns (e : exn) (w0 : world) :
  ∃ w1, silently e w0 = (inr tt, w1).
Proof. by exists w0. Qed.

(** One pass of the coolant loop adds at most an entry at the end. *)
Lemma coolantData_op_run (op : Operation) (data : dict) (l : list pyval)
    (w : world) :
  dict_get data "items" = Some (VList l) →
  ∃ r data',
    coolantData_op op (data, w) = (r, (data', w)) ∧
    dict_get data' "items"
      = Some (VList (l ++ match coolant_item op with
                          | Some item => [item]
                          | None => []
                          end)).
Proof.
  intros Hitems. unfold coolantData_op, coolant_item. rewrite bind_run.
  destruct (op_CoolantMode op) as [mode|].
  - rewrite bind_run. destruct (op_eCoolantMode op) as [emode|]; cbn.
    + rewrite Hitems. do 2 eexists. split; [done|]. apply dict_get_set_eq.
    + do 2 eexists. split; [done|]. by rewrite app_nil_r.
  - cbn. rewrite Hitems. do 2 eexists. split; [done|]. apply dict_get_set_eq.
Qed.

Lemma coolantData_loop (ops : list Operation) (data : dict) (l : list pyval)
    (w : world) :
  dict_get data "items" = Some (VList l) →
  ∃ r data' l',
    for_each ops coolantData_op (data, w) = (r, (data', w)) ∧
    dict_get data' "items" = Some (VList (l ++ l')).
Proof.
  revert data l. induction ops as [|op ops IH]; intros data l Hitems.
  { exists (inr tt), data, []. by rewrite app_nil_r. }
  cbn [for_each]. rewrite bind_run.
  destruct (coolantData_op_run op data l w Hitems) as (r & data1 & -> & Hitems1).
  destruct r as [e|[]].
  - by do 3 eexists.
  - destruct (IH data1 _ Hitems1) as (r & data' & l' & -> & Hitems').
    do 3 eexists. split; [done|]. by rewrite Hitems', <-app_assoc.
Qed.

(** When the first operation gets an entry, the section [__coolantData]
    returns starts with that entry. *)
Lemma coolantData_first_item (obj : Job) (op : Operation)
    (ops : list Operation) (item : pyval) (w : world) :
  Operations_Group obj = op :: ops →
  coolant_item op = Some item →
  ∃ data rest w',
    coolantData obj w = (inr (VDict data), w') ∧
    dict_get data "items" = Some (VList (item :: rest)).
Proof.
  intros Hops Hitem. unfold coolantData, summarizer. rewrite Hops.
  cbn [for_each]. rewrite bind_run.
  destruct (coolantData_op_run op [("items", VList [])] [] w eq_refl)
    as (r & data1 & -> & Hitems1).
  rewrite Hitem in Hitems1. cbn [app] in Hitems1.
  destruct r as [e|[]].
  - exists (dict_set data1 "errors" (VExn e)), [], w. split; [done|].
    by rewrite dict_get_set_ne.
  - destruct (coolantData_loop ops data1 _ w Hitems1)
      as (r & data' & l' & -> & Hitems').
    destruct r as [e|[]]; do 3 eexists; (split; [done|]);
      rewrite ?dict_get_set_ne by done; exact Hitems'.
Qed.

(** No entry of the coolant section has the key the renderer asks for. *)
Lemma render_coolantTable_raises (h : Host) (sq : list pyval) (op : Operation)
    (item : pyval) (rest : list pyval) :
  coolant_item op = Some item →
  render_coolantTable h sq (VList (item :: rest)) = inl (KeyError "CoolantMode").
Proof.
  unfold coolant_item.
  destruct (op_CoolantMode op), (op_eCoolantMode op); intros [= <-]; reflexivity.
Qed.

Lemma raised_bind {A B} (m : result A) (k : A → result B) :
  (∀ a, m = inr a → raised (k a)) → raised (m ≫= k).
Proof.
  intros Hk. destruct m as [e|a]; [by exists e|]. by apply Hk.
Qed.

(** Rendering a mapping whose coolant section has such an entry raises. *)
Lemma render_raises (h : Host) (sq : list pyval) (data coolant : dict)
    (op : Operation) (item : pyval) (rest : list pyval) :
  dict_get data "coolantData" = Some (VDict coolant) →
  dict_get coolant "items" = Some (VList (item :: rest)) →
  coolant_item op = Some item →
  raised (render h sq (VDict data)).
Proof.
  intros Hcoolant Hitems Hitem. unfold render.
  do 12 (apply raised_bind; intros ? _).
  apply raised_bind. intros d. cbn [getitem]. rewrite Hcoolant. intros [= <-].
  apply raised_bind. intros d. cbn [getitem]. rewrite Hitems. intros [= <-].
  rewrite (render_coolantTable_raises h sq op) by done.
  by eexists.
Qed.

(** A section summarizer never raises: it returns its dictionary. *)
Lemma summarizer_silently (init : dict) (body : M (dict * world) unit) (w : world) :
  ∃ data w', summarizer init body silently w = (inr (VDict data), w').
Proof.
  destruct (summarizer_returns init body silently w silently_returns)
    as (r & data & w' & _ & w'' & ->).
  by do 2 eexists.
Qed.

Lemma stockData_returns (h : Host) (cls : CommandPathSanity) (obj : Job)
    (w : world) :
  ∃ data w', stockData h cls obj w = (inr (VDict data), w').
Proof.
  unfold stockData.
  edestruct summarizer_returns as (r & data & w' & _ & w'' & ->);
    [|by do 2 eexists].
  intros e w0. by eexists.
Qed.

(** Whatever the host does, the command raises for a job whose first
    operation gets an entry in the coolant section: an operation
    without [CoolantMode], or one with the attribute [__coolantData]
    reads.  The sections are all summarized, and [__report] fails. *)
Lemma Activated_raises_with_operations (h : Host) (cls : CommandPathSanity)
    (obj : Job) (others : list Job) (op : Operation) (ops : list Operation)
    (item : pyval) (w : world) :
  Operations_Group obj = op :: ops →
  coolant_item op = Some item →
  raised (Activated h cls (obj :: others) w).1.
Proof.
  intros Hops Hitem. unfold Activated. cbn [first_selected of_result].
  rewrite bind_run. cbn [ret]. rewrite bind_run. unfold summarize.
  rewrite bind_run. unfold baseObjectData at 1.
  match goal with
  | |- context [summarizer [] ?body silently w] =>
      destruct (summarizer_silently [] body w) as (baseData & w1 & ->)
  end.
  rewrite bind_run. unfold designData at 1.
  match goal with
  | |- context [summarizer [] ?body silently w1] =>
      destruct (summarizer_silently [] body w1) as (designData & w2 & ->)
  end.
  rewrite bind_run. unfold toolData at 1.
  match goal with
  | |- context [summarizer [] ?body silently w2] =>
      destruct (summarizer_silently [] body w2) as (toolData & w3 & ->)
  end.
  rewrite bind_run. unfold runData at 1.
  match goal with
  | |- context [summarizer [] ?body silently w3] =>
      destruct (summarizer_silently [] body w3) as (runData & w4 & ->)
  end.
  rewrite bind_run.
  destruct (coolantData_first_item obj op ops item w4 Hops Hitem)
    as (coolant & rest & w5 & -> & Hitems).
  rewrite bind_run. unfold outputData at 1.
  match goal with
  | |- context [summarizer [] ?body silently w5] =>
      destruct (summarizer_silently [] body w5) as (outputData & w6 & ->)
  end.
  rewrite bind_run. unfold fixtureData at 1.
  match goal with
  | |- context [summarizer [] ?body silently w6] =>
      destruct (summarizer_silently [] body w6) as (fixtureData & w7 & ->)
  end.
  rewrite bind_run.
  destruct (stockData_returns h cls obj w7) as (stockData & w8 & ->).
  cbv beta iota. cbn [ret]. unfold report. rewrite bind_run, bind_gets, bind_run.
  edestruct (render_raises h (squawkItems w8)) as [e ->]; [|exact Hitems|exact Hitem|].
  { by rewrite !dict_get_set_ne, dict_get_set_eq by done. }
  by exists e.
Qed.

Lemma Activated_raises_with_operations_witness :
  raised (Activated host_no_converter sample_class [coolant_job; one_operation_job]
            sample_world).1.
Proof.
  eapply (Activated_raises_with_operations host_no_converter sample_class
            coolant_job [one_operation_job] (sample_op 2)
            [coolant_op "Pocket"; stop_op]); reflexivity.
Defined.


(** ** Frame rules *)

Section Frames.
Context {S T : Type} (part : S → T).

Lemma preserves_ret {A} (a : A) : preserves part (ret a : M S A).
Proof. by intros s. Qed.

Lemma preserves_raise {A} (e : exn) : preserves part (raise e : M S A).
Proof. by intros s. Qed.

Lemma preserves_gets {A} (f : S → A) : preserves part (gets f).
Proof. by intros s. Qed.

Lemma preserves_of_result {A} (r : exn + A) : preserves part (of_result r : M S A).
Proof. by destruct r. Qed.

Lemma preserves_modify (f : S → S) :
  (∀ s, part (f s) = part s) → preserves part (modify f).
Proof. intros Hf s. apply Hf. Qed.

Lemma preserves_bind {A B} (m : M S A) (k : A → M S B) :
  preserves part m → (∀ a, preserves part (k a)) → preserves part (m ≫= k).
Proof.
  intros Hm Hk s. rewrite bind_run. specialize (Hm s).
  destruct (m s) as [[e|a] s']; [done|]. cbn in Hm. by rewrite Hk.
Qed.

Lemma preserves_for_each {X} (xs : list X) (body : X → M S unit) :
  (∀ x, preserves part (body x)) → preserves part (for_each xs body).
Proof.
  intros Hbody. induction xs as [|x xs IH]; [by intros s|].
  cbn [for_each]. by apply preserves_bind.
Qed.

Lemma preserves_try_except {A} (body : M S A) (handler : exn → M S A) :
  preserves part body → (∀ e, preserves part (handler e)) →
  preserves part (try_except body handler).
Proof.
  intros Hbody Hhandler s. unfold try_except. specialize (Hbody s).
  destruct (body s) as [[e|a] s']; [|done]. cbn in Hbody. by rewrite Hhandler.
Qed.

Lemma preserves_if {A} (c : bool) (m1 m2 : M S A) :
  preserves part m1 → preserves part m2 → preserves part (if c then m1 else m2).
Proof. by destruct c. Qed.
End Frames.

Section Growth.
Context {S : Type} (log : S → list pyval).

Lemma preserves_grows {A} (m : M S A) : preserves log m → grows log m.
Proof. intros Hm s. exists []. by rewrite Hm, app_nil_r. Qed.

Lemma grows_bind {A B} (m : M S A) (k : A → M S B) :
  grows log m → (∀ a, grows log (k a)) → grows log (m ≫= k).
Proof.
  intros Hm Hk s. rewrite bind_run. destruct (Hm s) as [new Hnew].
  destruct (m s) as [[e|a] s']; [by exists new|]. cbn in Hnew.
  destruct (Hk a s') as [new' Hnew']. exists (new ++ new').
  by rewrite Hnew', Hnew, <-app_assoc.
Qed.

Lemma grows_for_each {X} (xs : list X) (body : X → M S unit) :
  (∀ x, grows log (body x)) → grows log (for_each xs body).
Proof.
  intros Hbody. induction xs as [|x xs IH].
  - apply preserves_grows. by intros s.
  - cbn [for_each]. by apply grows_bind.
Qed.

Lemma grows_if {A} (c : bool) (m1 m2 : M S A) :
  grows log m1 → grows log m2 → grows log (if c then m1 else m2).
Proof. by destruct c. Qed.
End Growth.

#[local] Hint Resolve preserves_ret preserves_raise preserves_gets
  preserves_of_result preserves_for_each preserves_if preserves_grows
  grows_for_each grows_if : frame.

(** ** What the primitives leave alone *)

Lemma gui_preserves {T} (part : world → T) (h : Host) (c : gui_call) :
  preserves part (gui h c).
Proof. intros w. unfold gui. by destruct (gui_raises h c). Qed.

Lemma saveImage_keeps_squawks (h : Host) (path background : string) :
  preserves squawkItems (saveImage h path background).
Proof.
  intros w. unfold saveImage. rewrite bind_gui. by destruct (gui_raises h _).
Qed.

Lemma set_visible_keeps_squawks (o : nat) (b : bool) :
  preserves squawkItems (set_visible o b).
Proof. by intros w. Qed.

Lemma print_keeps_squawks (line : string) : preserves squawkItems (print line).
Proof. by intros w. Qed.

Lemma write_file_keeps_squawks (h : Host) (path : string)
    (content : option string) :
  preserves squawkItems (write_file h path content).
Proof.
  intros w. destruct (write_file_run h path content w) as (e & w' & Hw' & ->).
  done.
Qed.

Lemma squawk_grows (h : Host) (cls : CommandPathSanity) (operator note : string)
    (date : option datetime) (squawkType : string) :
  grows squawkItems (squawk h cls operator note date squawkType).
Proof. intros w. rewrite squawk_appends. by eexists. Qed.

Lemma liftW_preserves {A} (m : M world A) :
  preserves squawkItems m → preserves section_log (liftW m).
Proof.
  intros Hm [data w]. unfold liftW, section_log. specialize (Hm w).
  by destruct (m w) as [r w'].
Qed.

Lemma liftW_grows {A} (m : M world A) :
  grows squawkItems m → grows section_log (liftW m).
Proof.
  intros Hm [data w]. unfold liftW, section_log. specialize (Hm w).
  by destruct (m w) as [r w'].
Qed.

Lemma data_set_keeps_squawks (k : string) (v : pyval) :
  preserves section_log (data_set k v).
Proof. by intros [data w]. Qed.

Lemma data_get_keeps_squawks (k : string) : preserves section_log (data_get k).
Proof. intros [data w]. unfold data_get. by destruct (dict_get data k). Qed.

Lemma data_append_keeps_squawks (k : string) (v : pyval) :
  preserves section_log (data_append k v).
Proof.
  intros [data w]. unfold data_append.
  by destruct (dict_get data k) as [[]|].
Qed.

#[local] Hint Resolve gui_preserves saveImage_keeps_squawks
  set_visible_keeps_squawks print_keeps_squawks write_file_keeps_squawks
  squawk_grows liftW_preserves liftW_grows data_set_keeps_squawks
  data_get_keeps_squawks data_append_keeps_squawks : frame.

(** [__makePicture] never touches the squawk list. *)
Lemma makePicture_keeps_squawks (h : Host) (cls : CommandPathSanity)
    (obj : nat) (imageName : string) :
  preserves squawkItems (makePicture h cls obj imageName).
Proof. unfold makePicture. frame_steps @preserves_bind. Qed.

(** ** The squawk list over a run of the command *)

Lemma summarizer_grows (init : dict) (body : M (dict * world) unit)
    (on_error : exn → M world unit) :
  grows section_log body → (∀ e, grows squawkItems (on_error e)) →
  grows squawkItems (summarizer init body on_error).
Proof.
  intros Hbody Hhandler w. unfold summarizer.
  destruct (Hbody (init, w)) as [new Hnew].
  destruct (body (init, w)) as [[e|[]] [data w']]; unfold section_log in Hnew;
    cbn in Hnew; [|by exists new].
  destruct (Hhandler e w') as [new' Hnew'].
  destruct (on_error e w') as [[e'|[]] w'']; cbn in Hnew' |- *;
    exists (new ++ new'); by rewrite Hnew', Hnew, <-app_assoc.
Qed.

Lemma summarizer_preserves (init : dict) (body : M (dict * world) unit)
    (on_error : exn → M world unit) :
  preserves section_log body → (∀ e, preserves squawkItems (on_error e)) →
  preserves squawkItems (summarizer init body on_error).
Proof.
  intros Hbody Hhandler w. unfold summarizer. specialize (Hbody (init, w)).
  destruct (body (init, w)) as [[e|[]] [data w']]; unfold section_log in Hbody;
    cbn in Hbody; [|done].
  specialize (Hhandler e w').
  by destruct (on_error e w') as [[e'|[]] w'']; cbn in Hhandler |- *;
    rewrite Hhandler.
Qed.

Lemma silently_preserves (e : exn) : preserves squawkItems (silently e).
Proof. by intros w. Qed.

Lemma tooldata_get_keeps_squawks (key : string) :
  preserves section_log (tooldata_get key).
Proof.
  intros [data w]. unfold tooldata_get. by destruct (dict_get data key) as [[]|].
Qed.

Lemma tooldata_put_keeps_squawks (key : string) (tooldata : dict) :
  preserves section_log (tooldata_put key tooldata).
Proof. by intros [data w]. Qed.

#[local] Hint Resolve silently_preserves tooldata_get_keeps_squawks
  tooldata_put_keeps_squawks makePicture_keeps_squawks : frame.

Lemma tooldata_set_keeps_squawks (key k : string) (v : pyval) :
  preserves section_log (tooldata_set key k v).
Proof. unfold tooldata_set. frame_steps @preserves_bind. Qed.

Lemma tooldata_setdefault_keeps_squawks (key k : string) (v : pyval) :
  preserves section_log (tooldata_setdefault key k v).
Proof.
  unfold tooldata_setdefault. apply preserves_bind; [eauto with frame|].
  intros tooldata. destruct (dict_setdefault tooldata k v).
  frame_steps @preserves_bind.
Qed.

#[local] Hint Resolve tooldata_set_keeps_squawks
  tooldata_setdefault_keeps_squawks : frame.

Lemma tooldata_ops_append_keeps_squawks (key : string) (v : pyval) :
  preserves section_log (tooldata_ops_append key v).
Proof.
  unfold tooldata_ops_append. apply preserves_bind; [eauto with frame|].
  intros []; eauto with frame.
Qed.

#[local] Hint Resolve tooldata_ops_append_keeps_squawks : frame.

Lemma toolData_ops_keeps_squawks (key : string) (TC : ToolController)
    (ops : list Operation) (used : bool) :
  preserves section_log (toolData_ops key TC ops used).
Proof.
  revert used. induction ops as [|op ops IH]; intros used; cbn [toolData_ops].
  { eauto with frame. }
  apply preserves_bind; [eauto with frame|]. intros tc.
  destruct (decide (tc = tc_oid TC)); [|done].
  apply preserves_bind; eauto with frame.
Qed.

#[local] Hint Resolve toolData_ops_keeps_squawks : frame.

Lemma toolData_TC_grows (h : Host) (cls : CommandPathSanity) (obj : Job)
    (TC : ToolController) :
  grows section_log (toolData_TC h cls obj TC).
Proof.
  unfold toolData_TC. destruct (negb _); [eauto with frame|].
  apply grows_bind.
  { apply preserves_grows. by intros [data w]. }
  intros _. frame_steps @grows_bind.
  all: try apply grows_if; frame_steps @grows_bind.
Qed.

#[local] Hint Resolve toolData_TC_grows : frame.

Lemma summarize_grows (h : Host) (cls : CommandPathSanity) (obj : Job) :
  grows squawkItems (summarize h cls obj).
Proof.
  unfold summarize.
  apply grows_bind.
  { unfold baseObjectData. apply summarizer_grows; [|eauto with frame].
    frame_steps @grows_bind. }
  intros baseData. apply grows_bind.
  { unfold designData. apply summarizer_grows; [|eauto with frame].
    frame_steps @grows_bind. destruct (job_sequence _ _ _ _ _).
    frame_steps @grows_bind. }
  intros designData. apply grows_bind.
  { unfold toolData. apply summarizer_grows; eauto with frame. }
  intros toolData. apply grows_bind.
  { unfold runData. apply summarizer_grows; [|eauto with frame].
    frame_steps @grows_bind. }
  intros runData. apply grows_bind.
  { unfold coolantData. apply summarizer_grows; [|eauto with frame].
    apply grows_for_each. intros op. unfold coolantData_op.
    apply grows_bind; [|eauto with frame].
    destruct (op_CoolantMode op); frame_steps @grows_bind. }
  intros coolantData. apply grows_bind.
  { unfold outputData. apply summarizer_grows; [|eauto with frame].
    frame_steps @grows_bind.
    - apply grows_for_each. intros op. unfold outputData_stop.
      destruct (op_Proxy op), (op_Stop op); eauto with frame.
    - destruct (bool_decide _); frame_steps @grows_bind;
        apply preserves_grows, liftW_preserves; intros w;
        unfold getsize, linecount; destruct (files w !! _); try done;
        by destruct (decode h _). }
  intros outputData. apply grows_bind.
  { unfold fixtureData. apply summarizer_grows; [|eauto with frame].
    frame_steps @grows_bind.
    apply preserves_grows, liftW_preserves. frame_steps @preserves_bind. }
  intros fixtureData. apply grows_bind.
  { unfold stockData. apply summarizer_grows.
    - frame_steps @grows_bind.
      destruct (Material _) as [[card|]|]; frame_steps @grows_bind.
    - intros e. frame_steps @grows_bind. }
  intros stockData. eauto with frame.
Qed.

(** However it ends, a run of the command only adds to the squawk list
    of the class: what earlier runs filed is still there, in front. *)
Theorem Activated_squawks_accumulate (h : Host) (cls : CommandPathSanity)
    (selection : list Job) (w : world) :
  ∃ new, squawkItems (Activated h cls selection w).2 = squawkItems w ++ new.
Proof.
  revert w. change (grows squawkItems (Activated h cls selection)).
  unfold Activated. apply grows_bind; [eauto with frame|]. intros obj.
  apply grows_bind; [apply summarize_grows|]. intros data.
  apply grows_bind.
  { apply preserves_grows. intros w. apply report_keeps_squawks. }
  intros [html|]; frame_steps @grows_bind.
Qed.

(** ** What [__summarize] hands to [__report] *)

Lemma summarizer_inr (init : dict) (body : M (dict * world) unit)
    (on_error : exn → M world unit) (w : world) :
  (∀ e w0, ∃ w1, on_error e w0 = (inr tt, w1)) →
  ∃ data, (summarizer init body on_error w).1 = inr (VDict data).
Proof.
  intros Hhandler.
  destruct (summarizer_returns init body on_error w Hhandler)
    as (r & data & w' & _ & w'' & ->).
  by eexists.
Qed.

Lemma print_returns (h : Host) (e : exn) (w0 : world) :
  ∃ w1, (sq ← gets squawkItems; print (py_str_other h sq (VExn e))) w0
        = (inr tt, w1).
Proof. by eexists. Qed.

(** Each summarizer returns a dictionary, whatever happened inside. *)
Lemma baseObjectData_inr (h : Host) (cls : CommandPathSanity) (obj : Job)
    (w : world) : ∃ d, (baseObjectData h cls obj w).1 = inr (VDict d).
Proof. unfold baseObjectData. apply summarizer_inr, silently_returns. Qed.

Lemma designData_inr (obj : Job) (w : world) :
  ∃ d, (designData obj w).1 = inr (VDict d).
Proof. unfold designData. apply summarizer_inr, silently_returns. Qed.

Lemma toolData_inr (h : Host) (cls : CommandPathSanity) (obj : Job) (w : world) :
  ∃ d, (toolData h cls obj w).1 = inr (VDict d).
Proof. unfold toolData. apply summarizer_inr, silently_returns. Qed.

Lemma runData_inr (h : Host) (obj : Job) (w : world) :
  ∃ d, (runData h obj w).1 = inr (VDict d).
Proof. unfold runData. apply summarizer_inr, silently_returns. Qed.

Lemma coolantData_inr (obj : Job) (w : world) :
  ∃ d, (coolantData obj w).1 = inr (VDict d).
Proof. unfold coolantData. apply summarizer_inr, silently_returns. Qed.

Lemma outputData_inr (h : Host) (cls : CommandPathSanity) (obj : Job)
    (w : world) : ∃ d, (outputData h cls obj w).1 = inr (VDict d).
Proof. unfold outputData. apply summarizer_inr, silently_returns. Qed.

Lemma fixtureData_inr (h : Host) (cls : CommandPathSanity) (obj : Job)
    (w : world) : ∃ d, (fixtureData h cls obj w).1 = inr (VDict d).
Proof. unfold fixtureData. apply summarizer_inr, silently_returns. Qed.

Lemma stockData_inr (h : Host) (cls : CommandPathSanity) (obj : Job)
    (w : world) : ∃ d, (stockData h cls obj w).1 = inr (VDict d).
Proof. unfold stockData. apply summarizer_inr, print_returns. Qed.

(** The mapping is made of what the eight summarizers return, each run
    in the world the one before left, and of the shared squawk object. *)
Lemma summarize_run (h : Host) (cls : CommandPathSanity) (obj : Job) (w : world) :
  let r1 := baseObjectData h cls obj w in
  let r2 := designData obj r1.2 in
  let r3 := toolData h cls obj r2.2 in
  let r4 := runData h obj r3.2 in
  let r5 := coolantData obj r4.2 in
  let r6 := outputData h cls obj r5.2 in
  let r7 := fixtureData h cls obj r6.2 in
  let r8 := stockData h cls obj r7.2 in
  summarize h cls obj w =
  (inr (VDict [("baseData", section_value r1);
               ("designData", section_value r2);
               ("toolData", section_value r3);
               ("runData", section_value r4);
               ("coolantData", section_value r5);
               ("outputData", section_value r6);
               ("fixtureData", section_value r7);
               ("stockData", section_value r8);
               ("squawkData", VSquawkData)]), r8.2).
Proof.
  cbv zeta. unfold summarize, section_value.
  rewrite bind_run. destruct (baseObjectData_inr h cls obj w) as [d1 H1].
  destruct (baseObjectData h cls obj w) as [v1 w1]. cbn [fst snd] in *. subst v1.
  rewrite bind_run. destruct (designData_inr obj w1) as [d2 H2].
  destruct (designData obj w1) as [v2 w2]. cbn [fst snd] in *. subst v2.
  rewrite bind_run. destruct (toolData_inr h cls obj w2) as [d3 H3].
  destruct (toolData h cls obj w2) as [v3 w3]. cbn [fst snd] in *. subst v3.
  rewrite bind_run. destruct (runData_inr h obj w3) as [d4 H4].
  destruct (runData h obj w3) as [v4 w4]. cbn [fst snd] in *. subst v4.
  rewrite bind_run. destruct (coolantData_inr obj w4) as [d5 H5].
  destruct (coolantData obj w4) as [v5 w5]. cbn [fst snd] in *. subst v5.
  rewrite bind_run. destruct (outputData_inr h cls obj w5) as [d6 H6].
  destruct (outputData h cls obj w5) as [v6 w6]. cbn [fst snd] in *. subst v6.
  rewrite bind_run. destruct (fixtureData_inr h cls obj w6) as [d7 H7].
  destruct (fixtureData h cls obj w6) as [v7 w7]. cbn [fst snd] in *. subst v7.
  rewrite bind_run. destruct (stockData_inr h cls obj w7) as [d8 H8].
  destruct (stockData h cls obj w7) as [v8 w8]. cbn [fst snd] in *. subst v8.
  reflexivity.
Qed.

(** No failure inside a section reaches the caller of [__summarize]:
    it always returns the nine entries, in the order it fills them,
    eight dictionaries and the shared squawk object. *)
Theorem summarize_returns_sections (h : Host) (cls : CommandPathSanity)
    (obj : Job) (w : world) :
  ∃ baseData designData toolData runData coolantData outputData fixtureData
    stockData w',
    summarize h cls obj w =
    (inr (VDict [("baseData", VDict baseData);
                 ("designData", VDict designData);
                 ("toolData", VDict toolData);
                 ("runData", VDict runData);
                 ("coolantData", VDict coolantData);
                 ("outputData", VDict outputData);
                 ("fixtureData", VDict fixtureData);
                 ("stockData", VDict stockData);
                 ("squawkData", VSquawkData)]), w').
Proof.
  pose proof (summarize_run h cls obj w) as Hrun. cbv zeta in Hrun.
  unfold section_value in Hrun.
  destruct (baseObjectData_inr h cls obj w) as [d1 H1].
  destruct (designData_inr obj (baseObjectData h cls obj w).2) as [d2 H2].
  rewrite H1, H2 in Hrun.
  match type of Hrun with context [toolData h cls obj ?w3] =>
    destruct (toolData_inr h cls obj w3) as [d3 H3]; rewrite H3 in Hrun end.
  match type of Hrun with context [runData h obj ?w4] =>
    destruct (runData_inr h obj w4) as [d4 H4]; rewrite H4 in Hrun end.
  match type of Hrun with context [coolantData obj ?w5] =>
    destruct (coolantData_inr obj w5) as [d5 H5]; rewrite H5 in Hrun end.
  match type of Hrun with context [outputData h cls obj ?w6] =>
    destruct (outputData_inr h cls obj w6) as [d6 H6]; rewrite H6 in Hrun end.
  match type of Hrun with context [fixtureData h cls obj ?w7] =>
    destruct (fixtureData_inr h cls obj w7) as [d7 H7]; rewrite H7 in Hrun end.
  match type of Hrun with context [stockData h cls obj ?w8] =>
    destruct (stockData_inr h cls obj w8) as [d8 H8]; rewrite H8 in Hrun end.
  by exists d1, d2, d3, d4, d5, d6, d7, d8; eexists.
Qed.

(** ** A capture that works *)

Lemma makePicture_run (h : Host) (cls : CommandPathSanity) (obj : nat)
    (imageName : string) (w : world) :
  (∀ c, gui_raises h c = None) →
  let imagepath := outputpath cls +:+ "/" +:+ imageName in
  let shown := only_visible obj (length (Visibility w)) in
  makePicture h cls obj imageName w =
  (inr (imagepath +:+ "_t.png"),
   set_shots (λ l, l ++ [(imagepath +:+ ".png", shown);
                         (imagepath +:+ "_t.png", shown)]) w).
Proof.
  intros Hgui imagepath shown. unfold makePicture.
  rewrite !bind_gets, bind_for_each_set_visible, bind_set_visible.
  do 11 rewrite bind_gui, Hgui.
  do 2 rewrite bind_saveImage, Hgui.
  do 2 rewrite bind_gui, Hgui.
  rewrite bind_set_visible, bind_for_each_set_visible.
  destruct w as [sq vis fs out sh now]. cbn. unfold set_shots. cbn.
  f_equal. rewrite hide_all. unfold set_Visibility.
  cbn [squawkItems Visibility files stdout shots clock_now].
  pose proof (restore_visible vis obj) as Hrestore. unfold only_visible in Hrestore.
  rewrite Hrestore. subst shown imagepath. cbn. unfold only_visible.
  by rewrite <-app_assoc.
Qed.

(** On a host whose viewport answers every call, [__makePicture]
    returns the path of the transparent image under the output
    directory and saves two images, the opaque one first; nothing of
    the world changes but the list of saved images. *)
Theorem makePicture_succeeds (h : Host) (cls : CommandPathSanity) (obj : nat)
    (imageName : string) (w : world) :
  (∀ c, gui_raises h c = None) →
  let imagepath := outputpath cls +:+ "/" +:+ imageName in
  let shown := only_visible obj (length (Visibility w)) in
  makePicture h cls obj imageName w =
  (inr (imagepath +:+ "_t.png"),
   set_shots (λ l, l ++ [(imagepath +:+ ".png", shown);
                         (imagepath +:+ "_t.png", shown)]) w).
Proof. apply makePicture_run. Qed.

Lemma makePicture_succeeds_witness :
  makePicture host_ok sample_class 1 "baseimage" sample_world =
  (inr "/tmp/out/baseimage_t.png",
   set_shots (λ l, l ++
     [("/tmp/out/baseimage.png", [false; true; false; false; false; false]);
      ("/tmp/out/baseimage_t.png", [false; true; false; false; false; false])])
     sample_world).
Proof. apply (makePicture_succeeds host_ok sample_class 1 "baseimage"). done. Defined.

(** ** What a report run does to the disk *)

(** [__summarize] returns a mapping. *)
Lemma summarize_returns (h : Host) (cls : CommandPathSanity)
    (obj : Job) (w : world) :
  ∃ data w', summarize h cls obj w = (inr (VDict data), w').
Proof.
  pose proof (summarize_run h cls obj w) as Hrun. cbv zeta in Hrun.
  rewrite Hrun. by do 2 eexists.
Qed.


Lemma report_files_run (h : Host) (cls : CommandPathSanity) (data : pyval)
    (w : world) :
  Visibility (report h cls data w).2 = Visibility w ∧
  (∀ path, path ≠ reportraw cls → path ≠ reporthtml cls →
     files (report h cls data w).2 !! path = files w !! path) ∧
  (∀ html, (report h cls data w).1 = inr html →
     ∃ text, render h (squawkItems w) data = inr text ∧
             files (report h cls data w).2 !! reportraw cls = Some text).
Proof.
  unfold report. rewrite bind_gets, bind_run.
  destruct (render h (squawkItems w) data) as [e|text]; cbn [of_result raise ret];
    [done|].
  unfold publish. rewrite bind_run, write_file_text.
  destruct (writable h (reportraw cls)); [|done].
  unfold try_except. rewrite bind_run. unfold system. cbn [files set_files].
  destruct (os_system h _ _) as [[e|status] [html|]]; cbv beta iota;
    try destruct (bool_decide _); rewrite ?bind_gets; unfold print;
    rewrite ?bind_modify; unfold mret, M_ret, ret; cbn;
    (split; [done|]; split;
     [intros path Hraw Hhtml; by rewrite ?lookup_insert_ne by done
     |intros ? _; exists text; split; [done|];
      rewrite ?lookup_insert_ne by apply reportraw_ne_reporthtml;
      by rewrite lookup_insert_eq]).
Qed.

(** A report run writes at most two files, the markup and the HTML:
    every other file of the disk is as it was, and so are the flags of
    the document objects and the squawk list. *)
Theorem report_writes_two_files (h : Host) (cls : CommandPathSanity)
    (data : pyval) (w : world) (path : string) :
  path ≠ outputpath cls +:+ "/setupreport.asciidoc" →
  path ≠ outputpath cls +:+ "/setupreport.html" →
  let w' := (report h cls data w).2 in
  files w' !! path = files w !! path ∧
  Visibility w' = Visibility w ∧
  squawkItems w' = squawkItems w.
Proof.
  intros Hraw Hhtml w'. subst w'.
  destruct (report_files_run h cls data w) as (Hvis & Hframe & _).
  split; [by apply Hframe|]. split; [done|]. apply report_keeps_squawks.
Qed.

Lemma report_writes_two_files_witness :
  files (report host_ok sample_class sample_data gcode_world).2 !! "/tmp/job.gcode"
    = files gcode_world !! "/tmp/job.gcode".
Proof.
  apply (report_writes_two_files host_ok sample_class sample_data gcode_world
           "/tmp/job.gcode"); discriminate.
Defined.

(** When the command returns, the markup it rendered is on the disk:
    there is no way through [Activated] that ends without an exception
    and without [setupreport.asciidoc]. *)
Theorem Activated_returns_with_report (h : Host) (cls : CommandPathSanity)
    (selection : list Job) (w : world) :
  (Activated h cls selection w).1 = inr tt →
  is_Some (files (Activated h cls selection w).2
             !! (outputpath cls +:+ "/setupreport.asciidoc")).
Proof.
  unfold Activated. rewrite bind_run.
  destruct selection as [|obj others]; [done|]. cbn [first_selected of_result ret].
  rewrite bind_run.
  destruct (summarize_returns h cls obj w) as (data & w1 & ->).
  rewrite bind_run.
  destruct (report_files_run h cls (VDict data) w1) as (_ & _ & Hwritten).
  destruct (report h cls (VDict data) w1) as [[e|html] w2]; [done|].
  destruct (Hwritten html eq_refl) as (text & _ & Htext). cbn in Htext.
  change (outputpath cls +:+ "/setupreport.asciidoc") with (reportraw cls).
  destruct html as [html|]; cbv beta iota.
  - unfold print. rewrite bind_modify. unfold gui.
    destruct (gui_raises h _); [done|]. intros _.
    cbn [snd files set_stdout ret]. by rewrite Htext.
  - intros _. cbn [snd mret M_ret ret]. by rewrite Htext.
Qed.

Lemma Activated_returns_with_report_witness :
  is_Some (files (Activated host_ok sample_class [no_operation_job] sample_world).2
             !! "/tmp/out/setupreport.asciidoc").
Proof.
  apply (Activated_returns_with_report host_ok sample_class [no_operation_job]
           sample_world).
  vm_compute. reflexivity.
Defined.

(** ** A capture that fails *)

Lemma designData_run (obj : Job) (w : world) :
  ∃ sequence,
    designData obj w =
    (inr (VDict [("FileName", VStr (FileName (Doc obj)));
                 ("LastModifiedDate", VStr (LastModifiedDate (Doc obj)));
                 ("Customer", VStr (Company (Doc obj)));
                 ("Designer", VStr (LastModifiedBy (Doc obj)));
                 ("JobNotes", VStr (Description obj));
                 ("JobLabel", VStr (Label obj));
                 ("Sequence", VStr sequence);
                 ("JobType", VStr "2.5D Milling")]), w).
Proof.
  unfold designData, summarizer. rewrite !bind_data_set.
  destruct (job_sequence _ _ _ _ _) as [n m]. rewrite bind_data_set.
  by eexists.
Qed.

(** When the viewport cannot be reached, the capture of the model
    fails inside [__baseObjectData], which only notes the error; the
    command then raises [KeyError('bases')] from [__report], whatever
    the job. *)
Theorem Activated_without_view_raises (h : Host) (cls : CommandPathSanity)
    (obj : Job) (others : list Job) (w : world) (e : exn) :
  gui_raises h ActiveView = Some e →
  (Activated h cls (obj :: others) w).1 = inl (KeyError "bases").
Proof.
  intros Hview. unfold Activated. cbn [first_selected of_result].
  rewrite bind_run. cbn [ret]. rewrite bind_run.
  pose proof (summarize_run h cls obj w) as Hrun. cbv zeta in Hrun.
  rewrite Hrun. clear Hrun. cbv beta iota.
  assert (∃ e', section_value (baseObjectData h cls obj w)
                = VDict [("errors", VExn e')]) as [e' ->].
  { unfold section_value, baseObjectData, summarizer. rewrite bind_run.
    destruct (match Proxy obj, Model_Group obj with
              | None, _ :: _ => _ | _, _ => _ end) as [e0|[]];
      cbn [of_result raise ret]; [by eexists|].
    rewrite bind_liftW. unfold makePicture.
    rewrite !bind_gets, bind_for_each_set_visible, bind_set_visible, bind_gui, Hview.
    by eexists. }
  destruct (designData_run obj (baseObjectData h cls obj w).2) as [sequence Hdesign].
  unfold section_value at 1. rewrite Hdesign. cbn [fst].
  rewrite bind_run. unfold report. rewrite bind_gets, bind_run.
  by cbn.
Qed.

Lemma Activated_without_view_raises_witness :
  (Activated host_no_view sample_class [no_operation_job] sample_world).1
  = inl (KeyError "bases").
Proof.
  apply (Activated_without_view_raises host_no_view sample_class
           no_operation_job [] sample_world (AttributeError "activeView")).
  reflexivity.
Defined.

(** ** The design section *)

Lemma job_sequence_cons (o : DocumentObject) (objects : list DocumentObject)
    (i obj n m : nat) :
  job_sequence (o :: objects) i obj n m =
  if is_job o
  then job_sequence objects (S i) obj (if decide (i = obj) then S m else n) (S m)
  else job_sequence objects (S i) obj n m.
Proof. cbn. unfold is_job. by destruct (do_Proxy o) as [[]|]. Qed.

Lemma job_sequence_total (objects : list DocumentObject) (i obj n m : nat) :
  (job_sequence objects i obj n m).2 = m + length (List.filter is_job objects).
Proof.
  revert i n m. induction objects as [|o objects IH]; intros i n m.
  { cbn. lia. }
  rewrite job_sequence_cons. cbn [List.filter].
  destruct (is_job o); rewrite IH; cbn; lia.
Qed.

Lemma job_sequence_past (objects : list DocumentObject) (i obj n m : nat) :
  (obj < i)%nat → (job_sequence objects i obj n m).1 = n.
Proof.
  revert i n m. induction objects as [|o objects IH]; intros i n m Hlt.
  { done. }
  rewrite job_sequence_cons.
  destruct (is_job o); rewrite ?decide_False by lia; rewrite IH; done || lia.
Qed.

Lemma job_sequence_rank (objects : list DocumentObject) (i obj n m : nat) :
  (i ≤ obj)%nat →
  (job_sequence objects i obj n m).1 =
  match objects !! (obj - i) with
  | Some o =>
      if is_job o
      then m + length (List.filter is_job (take (S (obj - i)) objects))
      else n
  | None => n
  end.
Proof.
  revert i n m. induction objects as [|o objects IH]; intros i n m Hle.
  { done. }
  rewrite job_sequence_cons.
  destruct (decide (i = obj)) as [->|Hne].
  - replace (obj - obj) with 0 by lia. cbn [lookup list_lookup take List.filter].
    destruct (is_job o); rewrite job_sequence_past by lia; [|done].
    rewrite take_0. cbn. lia.
  - replace (obj - i) with (S (obj - S i)) by lia.
    cbn [lookup list_lookup take List.filter].
    destruct (is_job o); rewrite IH by lia;
      destruct (objects !! (obj - S i)) as [o'|]; try done;
      destruct (is_job o'); cbn; lia.
Qed.

(** The sequence of the job is "n of m": m counts the jobs of the
    document, n is the rank of the selected object among them, counted
    from 1, and 0 when the object is not one of the document's jobs.
    The section never fails. *)
Theorem designData_sequence (obj : Job) (w : world) :
  let objects := Objects (Doc obj) in
  let m := length (List.filter is_job objects) in
  let n := match objects !! job_oid obj with
           | Some o =>
               if is_job o
               then length (List.filter is_job (take (S (job_oid obj)) objects))
               else 0
           | None => 0
           end in
  ∃ data,
    designData obj w = (inr (VDict data), w) ∧
    dict_get data "Sequence" = Some (VStr (str_nat n +:+ " of " +:+ str_nat m)) ∧
    dict_get data "JobLabel" = Some (VStr (Label obj)) ∧
    dict_get data "errors" = None ∧
    (n ≤ m)%nat.
Proof.
  intros objects m n. unfold designData, summarizer. rewrite !bind_data_set.
  pose proof (job_sequence_total objects 0 (job_oid obj) 0 0) as Htotal.
  pose proof (job_sequence_rank objects 0 (job_oid obj) 0 0 ltac:(lia)) as Hrank.
  rewrite Nat.sub_0_r in Hrank. fold objects.
  destruct (job_sequence objects 0 (job_oid obj) 0 0) as [n' m'].
  cbn [fst snd] in Htotal, Hrank. rewrite bind_data_set.
  eexists. split; [reflexivity|].
  assert (n' = n) as -> by (by rewrite Hrank).
  assert (m' = m) as -> by (by rewrite Htotal).
  split; [done|]. split; [done|]. split; [done|].
  subst n m. destruct (objects !! job_oid obj) as [o|]; [|lia].
  destruct (is_job o); [|lia].
  rewrite <-(take_drop (S (job_oid obj)) objects) at 2.
  rewrite List.filter_app, length_app. lia.
Qed.

(** ** The run summary *)

Lemma data_append_run {B} (k : string) (v : pyval) (f : unit → M (dict * world) B)
    (data : dict) (l : list pyval) (w : world) :
  (data_append k v ≫= f) (dict_set data k (VList l), w) =
  f tt (dict_set data k (VList (l ++ [v])), w).
Proof.
  rewrite bind_run. unfold data_append. rewrite dict_get_set_eq.
  by rewrite dict_set_set.
Qed.

Lemma runData_loop (h : Host) (ops : list Operation) (data : dict)
    (l : list pyval) (w : world) :
  for_each ops (λ op, data_append "items" (run_item h op))
    (dict_set data "items" (VList l), w) =
  (inr tt, (dict_set data "items" (VList (l ++ (run_item h <$> ops))), w)).
Proof.
  revert l. induction ops as [|op ops IH]; intros l.
  { cbn. by rewrite app_nil_r. }
  cbn [for_each]. rewrite data_append_run, IH. cbn. by rewrite <-app_assoc.
Qed.

(** The run summary never fails: it holds the totals of the job and
    one row for each operation, in the order of the job, with the
    label of an inactive operation marked as such. *)
Theorem runData_rows (h : Host) (obj : Job) (w : world) :
  runData h obj w =
  (inr (VDict [("cycletotal", VStr (CycleTime obj));
               ("jobMinZ", VStr (length_UserString h (Path_ZMin obj)));
               ("jobMaxZ", VStr (length_UserString h (Path_ZMax obj)));
               ("items", VList ((λ op,
                  VDict [("opName", VStr (if op_Active op then op_Label op
                                          else op_Label op +:+ " (INACTIVE)"));
                         ("minZ", VStr (length_UserString h (op_ZMin op)));
                         ("maxZ", VStr (length_UserString h (op_ZMax op)));
                         ("cycleTime", VStr (op_CycleTime op))])
                  <$> Operations_Group obj))]), w).
Proof.
  unfold runData, summarizer. rewrite !bind_data_set.
  change (λ op : Operation, data_append "items" _)
    with (λ op, data_append "items" (run_item h op)).
  by rewrite runData_loop.
Qed.

(** ** The coolant section *)

Lemma coolantData_op_step (op : Operation) (data : dict) (l : list pyval)
    (w : world) :
  coolantData_op op (dict_set data "items" (VList l), w) =
  match coolant_item op with
  | Some item => (inr tt, (dict_set data "items" (VList (l ++ [item])), w))
  | None => (inl (AttributeError "eCoolantMode"),
             (dict_set data "items" (VList l), w))
  end.
Proof.
  unfold coolantData_op, coolant_item. rewrite bind_run.
  destruct (op_CoolantMode op) as [mode|].
  - rewrite bind_run. destruct (op_eCoolantMode op) as [emode|];
      cbn [of_result raise ret]; [|done].
    cbv beta iota. unfold data_append. by rewrite dict_get_set_eq, dict_set_set.
  - cbn [ret]. cbv beta iota. unfold data_append.
    by rewrite dict_get_set_eq, dict_set_set.
Qed.

Lemma coolantData_items_loop (ops : list Operation) (data : dict)
    (l : list pyval) (w : world) :
  for_each ops coolantData_op (dict_set data "items" (VList l), w) =
  (if forallb (λ op, bool_decide (is_Some (coolant_item op))) ops
   then inr tt else inl (AttributeError "eCoolantMode"),
   (dict_set data "items" (VList (l ++ coolant_items ops)), w)).
Proof.
  revert l. induction ops as [|op ops IH]; intros l.
  { cbn. by rewrite app_nil_r. }
  cbn [for_each forallb coolant_items]. rewrite bind_run, coolantData_op_step.
  destruct (coolant_item op) as [item|].
  - rewrite IH, bool_decide_eq_true_2 by done. cbn. by rewrite <-app_assoc.
  - rewrite bool_decide_eq_false_2 by (by intros [? ?]). cbn.
    by rewrite app_nil_r.
Qed.

(** The coolant section lists the operations up to the first one that
    has a [CoolantMode]: for that one the summarizer reads the attribute
    [eCoolantMode], and unless the operation happens to have it the
    section stops there with an [AttributeError] under [errors].
    Operations without [CoolantMode] are listed with "N/A", and every
    entry has the keys [opName] and [coolantMode]. *)
Theorem coolantData_entries (obj : Job) (w : world) :
  let ops := Operations_Group obj in
  let entry := λ op,
    match op_CoolantMode op, op_eCoolantMode op with
    | None, _ => Some (VDict [("opName", VStr (op_display_label op));
                              ("coolantMode", VStr "N/A")])
    | Some _, Some mode => Some (VDict [("opName", VStr (op_display_label op));
                                        ("coolantMode", VStr mode)])
    | Some _, None => None
    end in
  let listed := fix listed ops :=
    match ops with
    | [] => []
    | op :: ops' => match entry op with
                    | Some item => item :: listed ops'
                    | None => []
                    end
    end in
  coolantData obj w =
  (inr (VDict (if forallb (λ op, bool_decide (is_Some (entry op))) ops
               then [("items", VList (listed ops))]
               else [("items", VList (listed ops));
                     ("errors", VExn (AttributeError "eCoolantMode"))])), w).
Proof.
  intros ops entry listed. unfold coolantData, summarizer.
  change [("items", VList [])] with (dict_set [] "items" (VList [])).
  rewrite coolantData_items_loop. fold ops.
  change (λ op, bool_decide (is_Some (coolant_item op)))
    with (λ op, bool_decide (is_Some (entry op))).
  change (coolant_items ops) with (listed ops).
  by destruct (forallb _ ops).
Qed.

(** ** Stops in the output section *)

Lemma outputData_stops_value (ops : list Operation) (data : dict) (w : world) :
  ∃ data',
    for_each ops outputData_stop (data, w) = (inr tt, (data', w)) ∧
    (∀ k, k ≠ "optionalstops" → dict_get data' k = dict_get data k) ∧
    dict_get data' "optionalstops" =
      if existsb is_optional_stop ops then Some (VStr "True")
      else dict_get data "optionalstops".
Proof.
  revert data. induction ops as [|op ops IH]; intros data.
  { by exists data. }
  cbn [for_each existsb]. rewrite bind_run.
  unfold outputData_stop at 1, is_optional_stop at 1.
  destruct (op_Proxy op); try destruct (op_Stop op); cbn;
    try (destruct (IH data) as (data' & -> & Hother & Hstops); by exists data').
  destruct (IH (dict_set data "optionalstops" (VStr "True")))
    as (data' & -> & Hother & Hstops).
  exists data'. split; [done|]. split.
  - intros k Hk. by rewrite Hother, dict_get_set_ne.
  - rewrite Hstops, dict_get_set_eq. by destruct (existsb _ _).
Qed.

(** The output section says "True" under [optionalstops] exactly when
    some operation of the job is a stop that is switched on, and
    "False" otherwise; it says so even when the G-code file it goes on
    to measure cannot be read. *)
Theorem outputData_optionalstops (h : Host) (cls : CommandPathSanity)
    (obj : Job) (w : world) :
  ∃ data,
    (outputData h cls obj w).1 = inr (VDict data) ∧
    dict_get data "optionalstops" =
      Some (VStr (if existsb (λ op, match op_Proxy op with
                                    | PathStop => op_Stop op
                                    | _ => false
                                    end) (Operations_Group obj)
                  then "True" else "False")).
Proof.
  unfold outputData, summarizer. rewrite !bind_data_set, bind_run.
  match goal with
  | |- context [for_each _ outputData_stop (?d, w)] =>
      destruct (outputData_stops_value (Operations_Group obj) d w)
        as (data & -> & _ & Hstops)
  end.
  rewrite !dict_get_set in Hstops. cbn in Hstops.
  assert (dict_get data "optionalstops" =
          Some (VStr (if existsb is_optional_stop (Operations_Group obj)
                      then "True" else "False"))) as Hvalue.
  { rewrite Hstops. by destruct (existsb _ _). }
  clear Hstops. cbv beta iota.
  destruct (bool_decide (LastPostProcessOutput obj = "")).
  - rewrite !bind_data_set. unfold liftW. rewrite squawk_appends. cbn.
    eexists. split; [reflexivity|]. by rewrite !dict_get_set_ne.
  - rewrite bind_liftW. unfold getsize.
    destruct (files w !! LastPostProcessOutput obj) as [content|].
    + rewrite bind_data_set, bind_liftW. unfold linecount.
      destruct (files w !! LastPostProcessOutput obj) as [content'|];
        [destruct (decode h content')|]; cbn;
        eexists; (split; [reflexivity|]); by rewrite !dict_get_set_ne.
    + cbn. eexists. split; [reflexivity|]. by rewrite !dict_get_set_ne.
Qed.

(** ** Tools of the old style *)

(** A job whose tool controllers all carry tools of the old style gets
    an empty tool section and no squawk, not even for a controller
    without feed or one that nothing uses. *)
Theorem toolData_skips_old_tools (h : Host) (cls : CommandPathSanity)
    (obj : Job) (w : world) :
  (∀ TC, TC ∈ ToolControllers obj → BitBody (Tool TC) = false) →
  toolData h cls obj w = (inr (VDict []), w).
Proof.
  intros Hold. unfold toolData, summarizer.
  match goal with
  | |- context [for_each ?TCs ?body ?s] =>
      assert (for_each TCs body s = (inr tt, s)) as ->; [|done]
  end.
  induction (ToolControllers obj) as [|TC TCs IH]; [done|].
  cbn [for_each]. rewrite bind_run. unfold toolData_TC at 1.
  rewrite (Hold TC) by left. cbn. apply IH. intros TC' HTC'. apply Hold. by right.
Qed.

Lemma toolData_skips_old_tools_witness :
  toolData host_ok sample_class old_tools_job sample_world
  = (inr (VDict []), sample_world).
Proof.
  apply (toolData_skips_old_tools host_ok sample_class old_tools_job sample_world).
  intros TC HTC. apply list_elem_of_singleton in HTC. by subst TC.
Defined.

(** ** The stock section *)

Lemma bind_data_get {B} (k : string) (f : pyval → M (dict * world) B)
    (data : dict) (v : pyval) (w : world) :
  dict_get data k = Some v →
  (data_get k ≫= f) (data, w) = f v (data, w).
Proof. intros Hk. rewrite bind_run. unfold data_get. by rewrite Hk. Qed.

Lemma data_set_run (k : string) (v : pyval) (data : dict) (w : world) :
  data_set k v (data, w) = (inr tt, (dict_set data k v, w)).
Proof. reflexivity. Qed.

(** What follows the material in [__stockData]: the tip when the entry
    reads "Not Specified", then the capture of the stock. *)
Lemma stockData_tail (h : Host) (cls : CommandPathSanity) (obj : Job)
    (data : dict) (material : string) (w : world) :
  dict_get data "material" = Some (VStr material) →
  ∃ r data' w',
    (material ← data_get "material";
     (if py_eq_str material "Not Specified"
      then liftW (squawk h cls "PathSanity"
                    "Consider Specifying the Stock Material" None "TIP")
      else ret tt);;
     stockImage ← liftW (makePicture h cls (stock_oid (Stock obj)) "stockImage");
     data_set "stockImage" (VStr stockImage)) (data, w) = (r, (data', w')) ∧
    dict_get data' "material" = Some (VStr material) ∧
    dict_get data' "errors" = dict_get data "errors" ∧
    squawkItems w' = squawkItems w ++
      (if bool_decide (material = "Not Specified")
       then [PathSanity_record h cls "Consider Specifying the Stock Material" "TIP"]
       else []).
Proof.
  intros Hmaterial. rewrite (bind_data_get _ _ _ _ _ Hmaterial).
  cbn [py_eq_str]. rewrite bind_squawk_when.
  assert ("TIP" ∈ squawk_types) as Htip by (unfold squawk_types; set_solver).
  pose proof (squawkItems_squawk_when h cls
    (bool_decide (material = "Not Specified"))
    "Consider Specifying the Stock Material" "TIP" w Htip) as Hw1.
  set (w1 := if bool_decide _ then _ else w) in *. clearbody w1.
  rewrite bind_liftW.
  pose proof (makePicture_keeps_squawks h cls (stock_oid (Stock obj))
                "stockImage" w1) as Hw2.
  destruct (makePicture _ _ _ _ w1) as [[e|path] w2]; cbn [snd] in Hw2.
  - do 3 eexists. split; [reflexivity|]. by rewrite Hw2.
  - do 3 eexists. split; [reflexivity|]. rewrite !dict_get_set_ne by done.
    by rewrite Hw2.
Qed.

(** A stock without a material, or one whose material is [None], is
    reported as "Not Specified" and gets one TIP squawk.  A stock with a
    material card is reported under the card's [Name], without a
    squawk unless that name is "Not Specified" itself.  A card without
    [Name] makes the section fail: the entry stays "Not Specified", no
    tip is given and no image of the stock is taken. *)
Theorem stockData_material (h : Host) (cls : CommandPathSanity) (obj : Job)
    (w : world) :
  let run := stockData h cls obj w in
  let tip := PathSanity_record h cls
               "Consider Specifying the Stock Material" "TIP" in
  ∃ data, run.1 = inr (VDict data) ∧
    match Material (Stock obj) with
    | None | Some None =>
        dict_get data "material" = Some (VStr "Not Specified") ∧
        appended w run.2 = [tip]
    | Some (Some card) =>
        match card_get card "Name" with
        | Some name =>
            dict_get data "material" = Some (VStr name) ∧
            appended w run.2 =
              if bool_decide (name = "Not Specified") then [tip] else []
        | None =>
            dict_get data "material" = Some (VStr "Not Specified") ∧
            dict_get data "errors" = Some (VExn (KeyError "Name")) ∧
            dict_get data "stockImage" = None ∧
            appended w run.2 = []
        end
    end.
Proof.
  intros run tip. subst run. unfold stockData, summarizer.
  rewrite !bind_data_set, bind_run.
  set (data0 := dict_set _ "material" _).
  assert (dict_get data0 "material" = Some (VStr "Not Specified")) as Hdefault
    by apply dict_get_set_eq.
  assert (dict_get data0 "errors" = None) as Herrors0.
  { subst data0. by rewrite !dict_get_set_ne. }
  assert (dict_get data0 "stockImage" = None) as Himage0.
  { subst data0. by rewrite !dict_get_set_ne. }
  clearbody data0.
  assert (∀ r data' w' new,
    squawkItems w' = squawkItems w ++ new →
    let run := match r with
               | inr _ => (inr (VDict data'), w')
               | inl e =>
                   match (sq ← gets squawkItems;
                          print (py_str_other h sq (VExn e))) w' with
                   | (inr _, w'') =>
                       (inr (VDict (dict_set data' "errors" (VExn e))), w'')
                   | (inl e', w'') => (inl e', w'')
                   end
               end in
    ∃ data, run.1 = inr (VDict data) ∧
      (dict_get data "material" = dict_get data' "material") ∧
      appended w run.2 = new ∧
      (r : exn + unit) = r) as Hend.
  { intros r data' w' new Hnew run. subst run. destruct r as [e|[]]; cbn.
    - eexists. split; [done|]. rewrite dict_get_set_ne by done.
      split; [done|]. split; [|done]. by apply appended_app.
    - eexists. split; [done|]. split; [done|]. split; [|done].
      by apply appended_app. }
  destruct (Material (Stock obj)) as [[card|]|].
  - rewrite bind_run. destruct (card_get card "Name") as [name|];
      cbn [of_result raise ret].
    + rewrite data_set_run. cbv beta iota.
      destruct (stockData_tail h cls obj (dict_set data0 "material" (VStr name))
                  name w (dict_get_set_eq _ _ _)) as (r & data' & w' & -> & Hm & _ & Hw').
      destruct (Hend r data' w' _ Hw') as (data & Hrun & Hmat & Happ & _).
      exists data. split; [exact Hrun|]. split; [by rewrite Hmat|exact Happ].
    + cbn. eexists. split; [done|]. rewrite dict_get_set_ne by done.
      rewrite dict_get_set_eq, dict_get_set_ne by done.
      split; [done|]. split; [done|]. split; [done|].
      apply appended_app. by rewrite app_nil_r.
  - cbn [ret]. cbv beta iota.
    destruct (stockData_tail h cls obj data0 "Not Specified" w Hdefault)
      as (r & data' & w' & -> & Hm & _ & Hw').
    destruct (Hend r data' w' _ Hw') as (data & Hrun & Hmat & Happ & _).
    exists data. split; [exact Hrun|]. split; [by rewrite Hmat|exact Happ].
  - cbn [ret]. cbv beta iota.
    destruct (stockData_tail h cls obj data0 "Not Specified" w Hdefault)
      as (r & data' & w' & -> & Hm & _ & Hw').
    destruct (Hend r data' w' _ Hw') as (data & Hrun & Hmat & Happ & _).
    exists data. split; [exact Hrun|]. split; [by rewrite Hmat|exact Happ].
Qed.

(** ** The fixture section *)

Lemma for_each_gui {X} (h : Host) (xs : list X) (call : X → gui_call) (w : world) :
  (∀ c, gui_raises h c = None) →
  for_each xs (λ x, gui h (call x)) w = (inr tt, w).
Proof.
  intros Hgui. induction xs as [|x xs IH]; [done|].
  cbn [for_each]. by rewrite bind_gui, Hgui.
Qed.

Lemma string_app_assoc (a b c : string) : (a +:+ b) +:+ c = a +:+ (b +:+ c).
Proof.
  induction a as [|x a IH]; [done|].
  change (String x ((a +:+ b) +:+ c) = String x (a +:+ (b +:+ c))).
  by rewrite IH.
Qed.

Lemma show_after_hide (v : list bool) (job ops : nat) :
  <[ops := true]> (<[job := true]> (<[ops := false]> (<[job := false]> v)))
  = <[ops := true]> (<[job := true]> v).
Proof.
  apply list_eq. intros i.
  change (<[ops := true]> (<[job := true]> (<[ops := false]> (<[job := false]> v))))
    with (foldl (λ v o, <[o := true]> v)
            (foldl (λ v o, <[o := false]> v) v [job; ops]) [job; ops]).
  change (<[ops := true]> (<[job := true]> v))
    with (foldl (λ v o, <[o := true]> v) v [job; ops]).
  rewrite !lookup_foldl_insert.
  destruct (decide (i ∈ [job; ops])); [|done]. by destruct (v !! i).
Qed.

Lemma fixtureData_run (h : Host) (cls : CommandPathSanity) (obj : Job)
    (w : world) :
  (∀ c, gui_raises h c = None) →
  let hidden := <[Operations_oid obj := false]>
                  (<[job_oid obj := false]> (Visibility w)) in
  fixtureData h cls obj w =
  (inr (VDict [("fixtures", VStr (Fixtures obj));
               ("orderBy", VStr (OrderOutputBy obj));
               ("datumImage", VStr (outputpath cls +:+ "/origin_t.png"))]),
   set_shots (λ l, l ++ [(outputpath cls +:+ "/origin.png", hidden);
                         (outputpath cls +:+ "/origin_t.png", hidden)])
     (set_Visibility (λ v, <[Operations_oid obj := true]>
                             (<[job_oid obj := true]> v)) w)).
Proof.
  intros Hgui hidden. unfold fixtureData, summarizer.
  rewrite !bind_data_set, bind_liftW.
  do 2 rewrite bind_gui, Hgui. rewrite !bind_set_visible.
  do 6 rewrite bind_gui, Hgui.
  rewrite bind_run, for_each_gui by done. cbv beta iota.
  do 3 rewrite bind_gui, Hgui.
  do 2 rewrite bind_saveImage, Hgui.
  rewrite bind_gui, Hgui. rewrite !bind_set_visible.
  rewrite bind_gui, Hgui. unfold gui at 1. rewrite Hgui.
  destruct w as [sq vis fs out sh now]. cbn.
  unfold set_shots, set_Visibility. cbn. subst hidden. cbn.
  rewrite show_after_hide, <-app_assoc, !string_app_assoc. done.
Qed.

(** On a host whose viewport answers every call the fixture section has
    its three entries, and the job and its operations group, hidden
    while the two images of the datum are saved, are shown afterwards:
    they are switched on, not put back, so a job that was hidden before
    the report is visible after it. *)
Theorem fixtureData_shows_job (h : Host) (cls : CommandPathSanity) (obj : Job)
    (w : world) :
  (∀ c, gui_raises h c = None) →
  let hidden := <[Operations_oid obj := false]>
                  (<[job_oid obj := false]> (Visibility w)) in
  fixtureData h cls obj w =
  (inr (VDict [("fixtures", VStr (Fixtures obj));
               ("orderBy", VStr (OrderOutputBy obj));
               ("datumImage", VStr (outputpath cls +:+ "/origin_t.png"))]),
   set_shots (λ l, l ++ [(outputpath cls +:+ "/origin.png", hidden);
                         (outputpath cls +:+ "/origin_t.png", hidden)])
     (set_Visibility (λ v, <[Operations_oid obj := true]>
                             (<[job_oid obj := true]> v)) w)).
Proof. apply fixtureData_run. Qed.

Lemma fixtureData_shows_job_witness :
  Visibility (fixtureData host_ok sample_class no_operation_job
                {| squawkItems := []; Visibility := [false; true; true; false; true; true];
                   files := ∅; stdout := []; shots := []; clock_now := 0%N |}).2
  = [true; true; true; true; true; true].
Proof.
  rewrite (fixtureData_shows_job host_ok sample_class no_operation_job); done.
Defined.

(** ** The base objects *)

Lemma counter_get_count_one (counter : list (string * nat)) (x y : string) :
  counter_get (count_one counter x) y =
  if decide (y = x) then Some (S (default 0 (counter_get counter x)))
  else counter_get counter y.
Proof.
  induction counter as [|[z n] counter IH]; cbn.
  - by destruct (decide (y = x)).
  - destruct (decide (x = z)) as [->|Hxz]; cbn.
    + destruct (decide (y = z)) as [->|Hyz]; by rewrite ?decide_True.
    + rewrite IH. destruct (decide (y = z)) as [->|Hyz].
      * by rewrite decide_False by done.
      * done.
Qed.

Lemma count_one_keys (counter : list (string * nat)) (x : string) :
  NoDup counter.*1 → NoDup (count_one counter x).*1 ∧
  ∀ y, y ∈ (count_one counter x).*1 ↔ y = x ∨ y ∈ counter.*1.
Proof.
  induction counter as [|[z n] counter IH]; cbn; intros Hnodup.
  - split; [apply NoDup_singleton|]. intros y. set_solver.
  - apply NoDup_cons in Hnodup as [Hz Hnodup].
    destruct (decide (x = z)) as [->|Hxz]; cbn.
    + split; [by apply NoDup_cons|]. intros y. rewrite !elem_of_cons. tauto.
    + destruct (IH Hnodup) as [Hnodup' Hkeys]. split.
      * apply NoDup_cons. split; [|done]. rewrite Hkeys. by intros [?|?].
      * intros y. rewrite elem_of_cons, Hkeys, elem_of_cons. tauto.
Qed.

Lemma filter_absent (y : string) (xs : list string) :
  y ∉ xs → filter (λ x, x = y) xs = [].
Proof.
  induction xs as [|x xs IH]; [done|]. intros Hnin.
  apply not_elem_of_cons in Hnin as [Hne Hnin].
  rewrite filter_cons, decide_False by done. by apply IH.
Qed.

Lemma Counter_loop (xs : list string) (counter : list (string * nat)) (y : string) :
  NoDup counter.*1 →
  NoDup (foldl count_one counter xs).*1 ∧
  counter_get (foldl count_one counter xs) y =
    if decide (y ∈ xs)
    then Some (default 0 (counter_get counter y) + length (filter (λ x, x = y) xs))
    else counter_get counter y.
Proof.
  revert counter. induction xs as [|x xs IH]; intros counter Hnodup.
  { split; [exact Hnodup|]. rewrite decide_False by apply not_elem_of_nil. reflexivity. }
  cbn [foldl]. destruct (count_one_keys counter x Hnodup) as [Hnodup' _].
  destruct (IH (count_one counter x) Hnodup') as [Hnodup'' Hget].
  split; [done|]. rewrite Hget, counter_get_count_one, filter_cons.
  destruct (decide (y = x)) as [->|Hyx].
  - rewrite (decide_True (P := x = x)) by done.
    rewrite (decide_True (P := x ∈ x :: xs)) by left.
    cbn. destruct (decide (x ∈ xs)) as [Hin|Hnin]; f_equal; [lia|].
    rewrite (filter_absent x xs Hnin). cbn. lia.
  - rewrite (decide_False (P := x = y)) by done.
    destruct (decide (y ∈ xs)) as [Hin|Hnin].
    + by rewrite (decide_True (P := y ∈ x :: xs)) by (by right).
    + rewrite (decide_False (P := y ∈ x :: xs)); [done|].
      by intros [?|?]%elem_of_cons.
Qed.

Lemma bases_loop (counter : list (string * nat)) (bases : dict) (y : string) :
  NoDup counter.*1 →
  dict_get (foldl (λ bases '(name, count),
                     dict_set bases name (VStr (str_nat count))) bases counter) y =
  match counter_get counter y with
  | Some n => Some (VStr (str_nat n))
  | None => dict_get bases y
  end.
Proof.
  revert bases. induction counter as [|[z n] counter IH]; intros bases Hnodup.
  { done. }
  apply NoDup_cons in Hnodup as [Hz Hnodup]. cbn [foldl counter_get].
  rewrite IH by done. destruct (decide (y = z)) as [->|Hyz].
  - assert (counter_get counter z = None) as ->; [|apply dict_get_set_eq].
    clear -Hz. induction counter as [|[z' n'] counter IH]; [done|]. cbn.
    cbn in Hz. apply not_elem_of_cons in Hz as [Hne Hz].
    rewrite decide_False by done. by apply IH.
  - destruct (counter_get counter y); [done|]. by rewrite dict_get_set_ne.
Qed.

(** When the capture of the model works, the section of the base
    objects holds the path of the image and, for each label that a base
    object of the model has, the number of model objects with that
    label, as text; no other label has an entry. *)
Theorem baseObjectData_counts (h : Host) (cls : CommandPathSanity) (obj : Job)
    (w : world) :
  (∀ c, gui_raises h c = None) →
  (Model_Group obj ≠ [] → is_Some (Proxy obj)) →
  let labels := (Model_Group obj).*2 in
  ∃ bases,
    (baseObjectData h cls obj w).1 =
      inr (VDict [("baseimage", VStr (outputpath cls +:+ "/baseimage_t.png"));
                  ("bases", VDict bases)]) ∧
    ∀ name,
      dict_get bases name =
      if decide (name ∈ labels)
      then Some (VStr (str_nat (length (filter (λ label, label = name) labels))))
      else None.
Proof.
  intros Hgui Hproxy labels. unfold baseObjectData, summarizer.
  rewrite bind_run.
  assert (match Proxy obj, Model_Group obj with
          | None, _ :: _ => inl (AttributeError "Proxy")
          | _, _ => inr tt
          end = inr tt) as ->.
  { destruct (Proxy obj), (Model_Group obj); try done.
    by destruct Hproxy as [? ?]. }
  cbn [of_result ret]. rewrite bind_liftW, makePicture_run by done.
  rewrite !bind_data_set. cbn.
  eexists. split; [by rewrite string_app_assoc|]. intros name.
  destruct (Counter_loop labels [] name (NoDup_nil_2)) as [Hnodup Hget].
  unfold Counter. rewrite bases_loop by done. fold labels. rewrite Hget.
  by destruct (decide (name ∈ labels)).
Qed.

Lemma baseObjectData_counts_witness :
  ∃ bases,
    (baseObjectData host_ok sample_class
       (sample_job_with_model [(1, "Body"); (4, "Clamp"); (5, "Body")])
       sample_world).1 =
      inr (VDict [("baseimage", VStr "/tmp/out/baseimage_t.png");
                  ("bases", VDict bases)]) ∧
    dict_get bases "Body" = Some (VStr "2") ∧
    dict_get bases "Clamp" = Some (VStr "1") ∧
    dict_get bases "Vise" = None.
Proof.
  destruct (baseObjectData_counts host_ok sample_class
              (sample_job_with_model [(1, "Body"); (4, "Clamp"); (5, "Body")])
              sample_world) as (bases & Hrun & Hbases).
  - done.
  - intros _. by eexists.
  - exists bases. split; [exact Hrun|]. by rewrite !Hbases.
Defined.

(** ** The table of squawks *)

Lemma getitem_squawk_record (sq : list pyval) (date operator note squawkType : string) :
  let i := squawk_record date operator note squawkType in
  getitem sq i "squawkType" = inr (VStr squawkType) ∧
  getitem sq i "Note" = inr (VStr note) ∧
  getitem sq i "Operator" = inr (VStr operator) ∧
  getitem sq i "Date" = inr (VStr date).
Proof. done. Qed.

Lemma squawk_rows_loop (h : Host) (sq : list pyval)
    (entries : list (string * string * string * string)) (text : string) :
  for_str (squawk_of <$> entries) text (λ squawkTable i,
    squawkType ← getitem sq i "squawkType";
    Note ← getitem sq i "Note";
    let squawkTable := squawkTable +:+ "a|" +:+ fmt h sq squawkType +:+ ": "
                         +:+ fmt h sq Note in
    Operator ← getitem sq i "Operator";
    let squawkTable := squawkTable +:+ "|" +:+ fmt h sq Operator in
    Date ← getitem sq i "Date";
    let squawkTable := squawkTable +:+ "|" +:+ fmt h sq Date in
    mret (squawkTable +:+ nl))
  = inr (foldl (λ table entry, table +:+ squawk_row entry) text entries).
Proof.
  revert text. induction entries as [|[[[date operator] note] squawkType] entries IH];
    intros text; [done|].
  cbn [fmap list_fmap for_str foldl squawk_of squawk_row].
  destruct (getitem_squawk_record sq date operator note squawkType)
    as (-> & -> & -> & ->).
  cbn [mbind result_bind fmt].
  etrans; [exact (IH _)|]. by rewrite !string_app_assoc.
Qed.

Lemma string_app_empty (a : string) : a +:+ "" = a.
Proof.
  induction a as [|x a IH]; [done|].
  change (String x (a +:+ "") = String x a). by rewrite IH.
Qed.

Lemma squawk_rows_foldl (entries : list (string * string * string * string))
    (text : string) :
  foldl (λ table entry, table +:+ squawk_row entry) text entries =
  text +:+ squawk_rows entries.
Proof.
  revert text. induction entries as [|entry entries IH]; intros text.
  - by rewrite string_app_empty.
  - cbn [foldl squawk_rows foldr]. by rewrite IH, string_app_assoc.
Qed.

(** The table of squawks is its header followed by one row for each
    squawk of the log, in the order in which they were recorded; a row
    gives the severity and the note, the operator and the date. *)
Theorem render_squawkTable_rows (h : Host)
    (entries : list (string * string * string * string)) :
  render_squawkTable h (squawk_of <$> entries) VSquawkData =
  inr (("|*" +:+ tr h "Note" +:+ "*|*" +:+ tr h "Operator" +:+ "*|*"
          +:+ tr h "Date" +:+ "*" +:+ nl)
       +:+ squawk_rows entries).
Proof.
  unfold render_squawkTable. cbn [getitem iter mbind].
  rewrite <- squawk_rows_foldl. apply squawk_rows_loop.
Qed.

(** ** A run that ends well *)

Lemma sound_append (h : Host) (cls : CommandPathSanity)
    (p date operator note squawkType : string) (w : world) :
  sound_world h cls p w →
  sound_world h cls p (set_squawkItems
            (λ items, items ++ [squawk_record date operator note squawkType]) w).
Proof.
  intros [[entries Hlog] Hdisk]. split; [|done]. cbn. rewrite Hlog.
  exists (entries ++ [(date, operator, note, squawkType)]). by rewrite fmap_app.
Qed.

Lemma sound_squawk (h : Host) (cls : CommandPathSanity) (p operator note : string)
    (squawkType : string) (w : world) :
  sound_world h cls p w → sound_world h cls p (squawk h cls operator note None squawkType w).2.
Proof. intros Hgood. rewrite squawk_appends. by apply sound_append. Qed.

Lemma sound_squawk_when (h : Host) (cls : CommandPathSanity) (p note : string)
    (squawkType : string) (c : bool) (w : world) :
  sound_world h cls p w →
  sound_world h cls p (if c then (squawk h cls "PathSanity" note None squawkType w).2 else w).
Proof. intros Hgood. destruct c; [by apply sound_squawk|done]. Qed.

Lemma sound_set_files (h : Host) (cls : CommandPathSanity)
    (p name content : string) (w : world) :
  sound_world h cls p w →
  sound_world h cls p (set_files (<[outputpath cls +:+ "/" +:+ name := content]>) w).
Proof.
  intros [Hlog [->|[Houtside (bytes & Hbytes & Htext)]]]; (split; [done|]);
    [by left|].
  right. split; [done|]. exists bytes. split; [|done]. cbn.
  rewrite lookup_insert_ne; [done|]. intros Hsame. by apply (Houtside name).
Qed.

Lemma sound_set_shots (h : Host) (cls : CommandPathSanity) (p : string) f
    (w : world) :
  sound_world h cls p w → sound_world h cls p (set_shots f w).
Proof. by intros [Hlog Hdisk]. Qed.

Lemma sound_set_Visibility (h : Host) (cls : CommandPathSanity) (p : string) f
    (w : world) :
  sound_world h cls p w → sound_world h cls p (set_Visibility f w).
Proof. by intros [Hlog Hdisk]. Qed.

Lemma tools_ready_get (data : dict) (key : string) (v : pyval) :
  tools_ready data → dict_get data key = Some v →
  ∃ tooldata, v = VDict tooldata ∧ tool_ready tooldata.
Proof.
  induction data as [|[k' v'] data IH]; [done|]. intros Hready Hget.
  apply Forall_cons in Hready as [Hv Hready]. cbn in Hget.
  destruct (decide (key = k')); [|by apply IH]. injection Hget as <-. exact Hv.
Qed.

Lemma tools_ready_set (data : dict) (key : string) (tooldata : dict) :
  tools_ready data → tool_ready tooldata →
  tools_ready (dict_set data key (VDict tooldata)).
Proof.
  intros Hready Htool. induction data as [|[k' v'] data IH]; cbn.
  - apply Forall_cons. split; [by eexists|done].
  - apply Forall_cons in Hready as [Hv Hready].
    destruct (decide (key = k')); apply Forall_cons; split; try done.
    + by eexists.
    + by apply IH.
Qed.

(** One pass of the loop of [__toolData] for a job without operations,
    when the thumbnail of the tool is there and the image can be
    written. *)
Lemma toolData_TC_unused (h : Host) (cls : CommandPathSanity) (obj : Job)
    (TC : ToolController) (p : string) (data : dict) (w : world) :
  (∀ path, writable h path = true) →
  Operations_Group obj = [] →
  (BitBody (Tool TC) = true →
   ∃ image, getBitThumbnail (Tool TC) = inr (Some image)) →
  tools_ready data → sound_world h cls p w →
  ∃ data' w',
    toolData_TC h cls obj TC (data, w) = (inr tt, (data', w')) ∧
    tools_ready data' ∧ sound_world h cls p w'.
Proof.
  intros Hwritable Hops Himage Hready Hgood. unfold toolData_TC.
  destruct (BitBody (Tool TC)); cbn [negb]; [|by exists data, w].
  destruct (Himage eq_refl) as [image ->]. clear Himage.
  set (key := str_int (ToolNumber TC)).
  rewrite bind_modify.
  assert (∃ tooldata0,
    (dict_setdefault data key (VDict [])).1 = dict_set data key (VDict tooldata0) ∧
    (dict_get tooldata0 "ops" = None ∨
     dict_get tooldata0 "ops" = Some (VList []))) as (tooldata0 & -> & Hops0).
  { unfold dict_setdefault. destruct (dict_get data key) as [v|] eqn:Hkey.
    - destruct (tools_ready_get data key v Hready Hkey)
        as (tooldata0 & -> & _ & Hops0).
      exists tooldata0. rewrite dict_set_same by done. split; [done|]. by right.
    - exists []. split; [done|]. by left. }
  rewrite bind_tooldata_setdefault.
  set (tooldata1 := (dict_setdefault tooldata0 "BitShape" (VStr "")).1).
  assert (dict_get tooldata1 "ops" = dict_get tooldata0 "ops") as Hops1.
  { unfold tooldata1, dict_setdefault.
    destruct (dict_get tooldata0 "BitShape"); [done|].
    cbn [fst]. by rewrite dict_get_set_ne. }
  clearbody tooldata1.
  rewrite bind_squawk_when.
  match goal with
  | |- context [if ?c then (squawk h cls "PathSanity" ?note None ?ty w).2 else w] =>
      pose proof (sound_squawk_when h cls p note ty c w Hgood) as Hgood1;
      set (w1 := if c then _ else w) in *; clearbody w1
  end.
  rewrite !bind_tooldata_set, bind_run. cbn [of_result ret].
  rewrite bind_tooldata_set, bind_squawk_when.
  match goal with
  | |- context [if ?c then (squawk h cls "PathSanity" ?note None ?ty w1).2 else w1] =>
      pose proof (sound_squawk_when h cls p note ty c w1 Hgood1) as Hgood2;
      set (w2 := if c then _ else w1) in *; clearbody w2
  end.
  rewrite bind_tooldata_set, bind_squawk_when.
  match goal with
  | |- context [if ?c then (squawk h cls "PathSanity" ?note None ?ty w2).2 else w2] =>
      pose proof (sound_squawk_when h cls p note ty c w2 Hgood2) as Hgood3;
      set (w3 := if c then _ else w2) in *; clearbody w3
  end.
  rewrite bind_liftW, write_file_text, Hwritable.
  rewrite bind_tooldata_set, bind_run. rewrite Hops. cbn [toolData_ops ret negb].
  rewrite bind_tooldata_setdefault. unfold liftW. rewrite squawk_appends.
  do 2 eexists. split; [reflexivity|]. split.
  - apply tools_ready_set; [done|].
    match goal with
    | |- tool_ready (dict_setdefault ?td _ _).1 =>
        assert (dict_get td "ops" = dict_get tooldata0 "ops") as Hops2
          by (by rewrite !dict_get_set_ne by done);
        set (tooldata2 := td) in *
    end.
    assert (Forall (has_text tooldata2)
              ["description"; "imagepath"; "manufacturer"; "partNumber"; "url";
               "inspectionNotes"; "shape"; "diameter"]) as Htext.
    { subst tooldata2. repeat (apply Forall_cons; split); [..|done];
        unfold has_text; rewrite ?dict_get_set_ne by done;
        rewrite dict_get_set_eq; by eexists. }
    clearbody tooldata2. unfold dict_setdefault.
    destruct Hops0 as [Hnone|Hsome].
    + rewrite Hnone in Hops2. rewrite Hops2. cbn [fst]. split.
      * eapply Forall_impl; [exact Htext|]. intros k [s Hs]. exists s.
        destruct (decide (k = "ops")) as [->|Hk]; [congruence|].
        by rewrite dict_get_set_ne.
      * apply dict_get_set_eq.
    + rewrite Hsome in Hops2. rewrite Hops2. by split.
  - apply sound_append.
    by apply (sound_set_files h cls p ("T" +:+ key +:+ ".png")).
Qed.

Lemma toolData_unused_loop (h : Host) (cls : CommandPathSanity) (obj : Job)
    (TCs : list ToolController) (p : string) (data : dict) (w : world) :
  (∀ path, writable h path = true) →
  Operations_Group obj = [] →
  Forall (λ TC, BitBody (Tool TC) = true →
                ∃ image, getBitThumbnail (Tool TC) = inr (Some image)) TCs →
  tools_ready data → sound_world h cls p w →
  ∃ data' w',
    for_each TCs (toolData_TC h cls obj) (data, w) = (inr tt, (data', w')) ∧
    tools_ready data' ∧ sound_world h cls p w'.
Proof.
  intros Hwritable Hops Himages. revert data w.
  induction Himages as [|TC TCs Himage _ IH]; intros data w Hready Hgood.
  { by exists data, w. }
  cbn [for_each]. rewrite bind_run.
  destruct (toolData_TC_unused h cls obj TC p data w
              Hwritable Hops Himage Hready Hgood)
    as (data1 & w1 & -> & Hready1 & Hgood1).
  by apply IH.
Qed.

Lemma toolData_unused (h : Host) (cls : CommandPathSanity) (obj : Job)
    (p : string) (w : world) :
  (∀ path, writable h path = true) →
  Operations_Group obj = [] →
  Forall (λ TC, BitBody (Tool TC) = true →
                ∃ image, getBitThumbnail (Tool TC) = inr (Some image))
    (ToolControllers obj) →
  sound_world h cls p w →
  ∃ data w',
    toolData h cls obj w = (inr (VDict data), w') ∧
    tools_ready data ∧ sound_world h cls p w'.
Proof.
  intros Hwritable Hops Himages Hgood. unfold toolData, summarizer.
  destruct (toolData_unused_loop h cls obj (ToolControllers obj) p [] w
              Hwritable Hops Himages ltac:(constructor) Hgood)
    as (data & w' & -> & Hready & Hgood').
  by exists data, w'.
Qed.

(** *** The tables of the report *)

Lemma add_item_text (sq : list pyval) (text : string) (d : dict) (k : string) :
  has_text d k → add_item sq text (VDict d) k = inr (text +:+ text_of d k).
Proof. intros [s Hs]. unfold add_item, text_of. cbn. by rewrite Hs. Qed.

Lemma render_toolTables_ready (h : Host) (sq : list pyval) (data : dict) :
  tools_ready data → ∃ text, render_toolTables h sq (VDict data) = inr text.
Proof.
  intros Hready. unfold render_toolTables. cbn [items mbind result_bind].
  match goal with
  | |- ∃ t, for_str ?kvs _ ?body = inr t =>
      cut (∀ text, ∃ t, for_str kvs text body = inr t); [intros Hall; apply Hall|]
  end.
  induction Hready as [|[key value] data (tooldata & Hv & Htext & Hops) _ IH];
    intros text.
  { by eexists. }
  cbn in Hv. subst value. cbn [for_str].
  repeat (apply Forall_cons in Htext as [? Htext]).
  repeat (rewrite add_item_text by assumption; cbn [mbind result_bind]).
  cbn [getitem]. rewrite Hops. cbn [mbind result_bind iter for_str mret result_ret].
  apply IH.
Qed.

Lemma getitem_dict (sq : list pyval) (d : dict) (k : string) (v : pyval) :
  dict_get d k = Some v → getitem sq (VDict d) k = inr v.
Proof. intros Hk. cbn. by rewrite Hk. Qed.

Lemma dict_set_values (P : pyval → Prop) (d : dict) (k : string) (v : pyval) :
  Forall (λ entry, P entry.2) d → P v → Forall (λ entry, P entry.2) (dict_set d k v).
Proof.
  intros Hd Hv. induction d as [|[k' v'] d IH]; cbn.
  - by apply Forall_cons.
  - apply Forall_cons in Hd as [Hv' Hd].
    destruct (decide (k = k')); apply Forall_cons; split; try done.
    by apply IH.
Qed.

Lemma bases_values (counter : list (string * nat)) (bases : dict) :
  Forall (λ entry, ∃ s, entry.2 = VStr s) bases →
  Forall (λ entry, ∃ s, entry.2 = VStr s)
    (foldl (λ bases '(name, count), dict_set bases name (VStr (str_nat count)))
       bases counter).
Proof.
  revert bases. induction counter as [|[name count] counter IH]; intros bases Hb.
  { done. }
  cbn [foldl]. apply IH.
  apply (dict_set_values (λ v, ∃ s, v = VStr s)); [done|by eexists].
Qed.

Lemma baseObjectData_ready (h : Host) (cls : CommandPathSanity) (obj : Job)
    (p : string) (w : world) :
  (∀ c, gui_raises h c = None) →
  (Model_Group obj ≠ [] → is_Some (Proxy obj)) →
  sound_world h cls p w →
  ∃ bases w',
    baseObjectData h cls obj w =
      (inr (VDict [("baseimage", VStr (outputpath cls +:+ "/baseimage_t.png"));
                   ("bases", VDict bases)]), w') ∧
    Forall (λ entry, ∃ s, entry.2 = VStr s) bases ∧ sound_world h cls p w'.
Proof.
  intros Hgui Hproxy Hgood. unfold baseObjectData, summarizer.
  rewrite bind_run.
  assert (match Proxy obj, Model_Group obj with
          | None, _ :: _ => inl (AttributeError "Proxy")
          | _, _ => inr tt
          end = inr tt) as ->.
  { destruct (Proxy obj), (Model_Group obj); try done.
    by destruct Hproxy as [? ?]. }
  cbn [of_result ret]. rewrite bind_liftW, makePicture_run by done.
  rewrite !bind_data_set. cbn.
  do 2 eexists. split; [by rewrite string_app_assoc|]. split.
  - apply bases_values. constructor.
  - by apply sound_set_shots.
Qed.

Lemma render_infoTable_ready (h : Host) (sq : list pyval) (design : dict)
    (baseimage : string) (bases : dict) :
  Forall (has_text design)
    ["Sequence"; "JobType"; "FileName"; "LastModifiedDate"; "Customer";
     "Designer"] →
  Forall (λ entry, ∃ s, entry.2 = VStr s) bases →
  ∃ text,
    render_infoTable h sq (VDict design)
      (VDict [("baseimage", VStr baseimage); ("bases", VDict bases)]) = inr text.
Proof.
  intros Hdesign Hbases. unfold render_infoTable.
  rewrite (getitem_dict sq _ "bases" (VDict bases)) by done.
  cbn [mbind result_bind items].
  assert (∀ text, ∃ t,
    for_str bases text (λ basestable '(key, val),
      val ← as_str val;
      mret (basestable +:+ "! " +:+ key +:+ " ! " +:+ val +:+ nl)) = inr t)
    as Hloop.
  { induction Hbases as [|[key val] bases [s Hs] _ IH]; intros text.
    - by eexists.
    - cbn in Hs. subst val. cbn [for_str as_str mbind result_bind]. apply IH. }
  destruct (Hloop ("!===" +:+ nl)) as [basestable ->]. cbn [mbind result_bind].
  rewrite add_item_text by (by eexists). cbn [mbind result_bind].
  repeat (apply Forall_cons in Hdesign as [? Hdesign]).
  repeat (rewrite add_item_text by assumption; cbn [mbind result_bind]).
  by eexists.
Qed.

Lemma render_squawkTable_ready (h : Host) (sq : list pyval) :
  squawk_log sq → ∃ text, render_squawkTable h sq VSquawkData = inr text.
Proof.
  intros [entries ->]. unfold render_squawkTable. cbn [getitem iter mbind].
  eexists. apply squawk_rows_loop.
Qed.

Lemma stockData_ready (h : Host) (cls : CommandPathSanity) (obj : Job)
    (p : string) (w : world) :
  (∀ c, gui_raises h c = None) →
  (∀ card, Material (Stock obj) = Some (Some card) →
           is_Some (card_get card "Name")) →
  sound_world h cls p w →
  ∃ data w',
    stockData h cls obj w = (inr (VDict data), w') ∧
    Forall (has_text data) ["material"; "stockImage"; "xLen"; "yLen"; "zLen"] ∧
    sound_world h cls p w'.
Proof.
  intros Hgui Hname Hgood. unfold stockData, summarizer.
  rewrite !bind_data_set, bind_run.
  assert (∃ material,
    (match Material (Stock obj) with
     | Some (Some card) =>
         name ← of_result (match card_get card "Name" with
                           | Some name => inr name
                           | None => inl (KeyError "Name")
                           end);
         data_set "material" (VStr name)
     | _ => ret tt
     end)
      (dict_set (dict_set (dict_set (dict_set [] "xLen"
         (VStr (length_UserString h (XLength (Stock obj))))) "yLen"
         (VStr (length_UserString h (YLength (Stock obj))))) "zLen"
         (VStr (length_UserString h (ZLength (Stock obj))))) "material"
         (VStr "Not Specified"), w) =
    (inr tt,
     (dict_set (dict_set (dict_set (dict_set [] "xLen"
         (VStr (length_UserString h (XLength (Stock obj))))) "yLen"
         (VStr (length_UserString h (YLength (Stock obj))))) "zLen"
         (VStr (length_UserString h (ZLength (Stock obj))))) "material"
         (VStr material), w))) as [material ->].
  { destruct (Material (Stock obj)) as [[card|]|]; try by eexists.
    destruct (Hname card eq_refl) as [name ->]. rewrite bind_run.
    cbn [of_result ret]. rewrite data_set_run, dict_set_set. by eexists. }
  rewrite (bind_data_get "material" _ _ (VStr material)) by apply dict_get_set_eq.
  rewrite bind_squawk_when.
  match goal with
  | |- context [if ?c then (squawk h cls "PathSanity" ?note None ?ty w).2 else w] =>
      pose proof (sound_squawk_when h cls p note ty c w Hgood) as Hgood1;
      set (w1 := if c then _ else w) in *; clearbody w1
  end.
  rewrite bind_liftW, makePicture_run by done. rewrite data_set_run.
  do 2 eexists. split; [reflexivity|]. split; [|by apply sound_set_shots].
  repeat (apply Forall_cons; split); [..|done];
    unfold has_text; rewrite ?dict_get_set_ne by done;
    rewrite dict_get_set_eq; by eexists.
Qed.

Lemma render_stockTable_ready (h : Host) (sq : list pyval) (data : dict) :
  Forall (has_text data) ["material"; "stockImage"; "xLen"; "yLen"; "zLen"] →
  ∃ text, render_stockTable h sq (VDict data) = inr text.
Proof.
  intros Hdata. unfold render_stockTable.
  repeat (apply Forall_cons in Hdata as [? Hdata]).
  repeat (rewrite add_item_text by assumption; cbn [mbind result_bind]).
  by eexists.
Qed.

Lemma outputData_ready (h : Host) (cls : CommandPathSanity) (obj : Job)
    (w : world) :
  Operations_Group obj = [] →
  sound_world h cls (LastPostProcessOutput obj) w →
  ∃ data w',
    outputData h cls obj w = (inr (VDict data), w') ∧
    Forall (has_text data)
      ["lastgcodefile"; "lastpostprocess"; "optionalstops"; "programmer";
       "machine"; "postprocessor"; "postprocessorFlags"; "filesize";
       "linecount"] ∧
    sound_world h cls (LastPostProcessOutput obj) w'.
Proof.
  intros Hops Hgood. unfold outputData, summarizer.
  rewrite !bind_data_set, bind_run, Hops. cbn [for_each ret].
  case_bool_decide as Hfile.
  - rewrite !bind_data_set. unfold liftW. rewrite squawk_appends.
    do 2 eexists. split; [reflexivity|]. split; [|by apply sound_append].
    repeat (apply Forall_cons; split); [..|done];
      unfold has_text; rewrite ?dict_get_set_ne by done;
      rewrite dict_get_set_eq; by eexists.
  - pose proof Hgood as [_ [?|[_ (content & Hcontent & [text Htext])]]]; [done|].
    rewrite bind_liftW. unfold getsize at 1. rewrite Hcontent.
    rewrite bind_data_set, bind_liftW. unfold linecount at 1.
    rewrite Hcontent, Htext. rewrite data_set_run.
    do 2 eexists. split; [reflexivity|]. split; [|done].
    repeat (apply Forall_cons; split); [..|done];
      unfold has_text; rewrite ?dict_get_set_ne by done;
      rewrite dict_get_set_eq; by eexists.
Qed.

Lemma render_outTable_ready (h : Host) (sq : list pyval) (data : dict) :
  Forall (has_text data)
    ["lastgcodefile"; "lastpostprocess"; "optionalstops"; "programmer";
     "machine"; "postprocessor"; "postprocessorFlags"; "filesize";
     "linecount"] →
  ∃ text, render_outTable h sq (VDict data) = inr text.
Proof.
  intros Hdata. unfold render_outTable.
  repeat (apply Forall_cons in Hdata as [? Hdata]).
  repeat (rewrite add_item_text by assumption; cbn [mbind result_bind mret result_ret]).
  by eexists.
Qed.

Lemma runData_idle (h : Host) (obj : Job) (w : world) :
  Operations_Group obj = [] →
  runData h obj w =
  (inr (VDict [("cycletotal", VStr (CycleTime obj));
               ("jobMinZ", VStr (length_UserString h (Path_ZMin obj)));
               ("jobMaxZ", VStr (length_UserString h (Path_ZMax obj)));
               ("items", VList [])]), w).
Proof. intros Hops. unfold runData, summarizer. by rewrite !bind_data_set, Hops. Qed.

Lemma coolantData_idle (obj : Job) (w : world) :
  Operations_Group obj = [] →
  coolantData obj w = (inr (VDict [("items", VList [])]), w).
Proof. intros Hops. unfold coolantData, summarizer. by rewrite Hops. Qed.

(** *** The command *)



(** ** The operations of a tool *)

Lemma tooldata_ops_append_run {B} (key : string) (v : pyval)
    (f : unit → M (dict * world) B) (data tooldata : dict) (w : world) :
  ops_is_list tooldata →
  (tooldata_ops_append key v ≫= f) (dict_set data key (VDict tooldata), w) =
  f tt (dict_set data key
          (VDict (dict_set tooldata "ops" (VList (ops_list tooldata ++ [v])))), w).
Proof.
  intros Hops. rewrite bind_run. unfold tooldata_ops_append, ops_list.
  rewrite bind_tooldata_setdefault. unfold dict_setdefault.
  destruct Hops as [Hnone|[l Hl]].
  - rewrite Hnone. cbn [fst snd].
    rewrite <-(bind_run (tooldata_set key "ops" _) f), bind_tooldata_set.
    by rewrite dict_set_set.
  - rewrite Hl. cbn [fst snd].
    by rewrite <-(bind_run (tooldata_set key "ops" _) f), bind_tooldata_set.
Qed.

(** When every operation of the job has a tool controller, the inner
    loop of [__toolData] gives the tool one row for each operation cut
    with the controller, after the rows the tool has, in the order of
    the job, and it answers that the controller is used as soon as
    there is such an operation; a controller that no operation uses
    leaves the tool as it was. *)
Theorem toolData_ops_rows (key : string) (TC : ToolController)
    (ops : list Operation) (used : bool) (data tooldata : dict) (w : world) :
  Forall (λ op, is_Some (op_ToolController op)) ops →
  ops_is_list tooldata →
  let mine := filter (uses TC) ops in
  toolData_ops key TC ops used (dict_set data key (VDict tooldata), w) =
  (inr (if decide (mine = []) then used else true),
   (dict_set data key
      (VDict (if decide (mine = []) then tooldata
              else dict_set tooldata "ops"
                     (VList (ops_list tooldata ++ (tool_row TC <$> mine))))),
    w)).
Proof.
  intros Hall. revert used tooldata.
  induction Hall as [|op ops [tc Htc] _ IH]; intros used tooldata Hops mine.
  { done. }
  subst mine. cbn [toolData_ops]. rewrite bind_run, Htc. cbn [of_result ret].
  rewrite filter_cons.
  destruct (decide (tc = tc_oid TC)) as [->|Hother].
  - rewrite (decide_True (P := uses TC op)) by exact Htc.
    change (VDict [("Operation", VStr (op_Label op));
                   ("ToolController", VStr (tc_Name TC));
                   ("Feed", VStr (quantity_str (HorizFeed TC)));
                   ("Speed", VStr (str_float (SpindleSpeed TC)))])
      with (tool_row TC op).
    rewrite tooldata_ops_append_run by done.
    rewrite IH by (right; eexists; apply dict_get_set_eq).
    rewrite (decide_False (P := op :: _ = [])) by done.
    assert (ops_list (dict_set tooldata "ops"
                        (VList (ops_list tooldata ++ [tool_row TC op])))
            = ops_list tooldata ++ [tool_row TC op]) as ->.
    { unfold ops_list at 1. by rewrite dict_get_set_eq. }
    destruct (decide (filter (uses TC) ops = [])) as [->|Hmore].
    + done.
    + by rewrite dict_set_set, fmap_cons, <-app_assoc.
  - rewrite (decide_False (P := uses TC op))
      by (unfold uses; rewrite Htc; by intros [= ?]).
    by rewrite IH.
Qed.

Lemma toolData_ops_rows_witness :
  (toolData_ops "1" (sample_TC 2 "TC1" 1 "endmill.fcstd" 100 8000)
     [sample_op 2; coolant_op "Pocket"; sample_op 5] false
     (dict_set [] "1" (VDict []), sample_world)).1 = inr true.
Proof.
  rewrite (toolData_ops_rows "1" (sample_TC 2 "TC1" 1 "endmill.fcstd" 100 8000)
             [sample_op 2; coolant_op "Pocket"; sample_op 5] false [] []
             sample_world).
  - done.
  - repeat constructor; by eexists.
  - by left.
Defined.

(** ** What the renderer reads of the mapping *)

(** The markup depends on the mapping only through the nine entries
    [__report] looks up by name: two mappings that agree on these, in
    whatever order they hold them and whatever else they hold, give the
    same text or the same exception. *)
Theorem render_reads_nine_entries (h : Host) (sq : list pyval)
    (data data' : dict) :
  (∀ k, k ∈ ["designData"; "baseData"; "runData"; "toolData"; "stockData";
             "fixtureData"; "coolantData"; "outputData"; "squawkData"] →
        dict_get data k = dict_get data' k) →
  render h sq (VDict data) = render h sq (VDict data').
Proof.
  intros Hsame. unfold render. cbn [getitem].
  rewrite !Hsame by (rewrite !elem_of_cons; tauto).
  reflexivity.
Qed.

Lemma render_reads_nine_entries_witness :
  render host_no_converter (squawkItems sample_summary.2)
    (VDict (("inspectionData", VStr "none") :: reverse sample_sections)) =
  inr sample_text.
Proof.
  rewrite (render_reads_nine_entries host_no_converter
             (squawkItems sample_summary.2)
             (("inspectionData", VStr "none") :: reverse sample_sections)
             sample_sections).
  - vm_compute. reflexivity.
  - intros k Hk.
    repeat (apply elem_of_cons in Hk as [->|Hk]; [vm_compute; reflexivity|]).
    by apply elem_of_nil in Hk.
Defined.
